(** * RELogger: a level-filtered console and file logger

    Shallow embedding of the two implementations of RELogger,
    [c/RELogger/relogger.c] and [cpp/RELogger/relogger.cpp], and the
    properties of their five entry points (Init, Shutdown, SetLevel,
    GetLevel, Log).

    The logger's global variables become a [State] record per variant;
    everything outside the logger (the two console streams, the open
    file streams with their buffers, the disk, the mutex and the accesses
    to the shared threshold) is a [World] that every operation threads
    through. *)

From Stdlib Require Import ZArith List Lia DecimalString DecimalZ.
From stdpp Require Import gmap strings.
Import ListNotations.

Local Open Scope Z_scope.

(** ** Text *)

(** C strings and [std::string] values are [string]s; [s +:+ t] is
    concatenation. *)

(** ESC, the byte [\033] that starts every ANSI sequence. *)
Definition ESC : string := String (Ascii.ascii_of_nat 27) EmptyString.

(** The newline written by ["\n"] and by [std::endl]. *)
Definition NL : string := String (Ascii.ascii_of_nat 10) EmptyString.

(** What [%d] and [operator<<(int)] print: the decimal digits, with a
    leading minus sign for a negative number. *)
Definition dec (n : Z) : string := NilZero.string_of_int (Z.to_int n).

(** One decimal digit. *)
Definition digit (d : Z) : string :=
  String (Ascii.ascii_of_nat (48 + Z.to_nat d)) EmptyString.

(** A field of [%H:%M:%S]: two digits, zero padded. *)
Definition two_digits (n : Z) : string := digit (n / 10) +:+ digit (n mod 10).

(** The fields of [struct tm] that the logger prints. [localtime_r] fills
    them with 0..23, 0..59 and 0..60. *)
Record tm := { tm_hour : Z; tm_min : Z; tm_sec : Z }.

(** [strftime(timeStr, sizeof(timeStr), "%H:%M:%S", &tm)], which is also
    what [std::put_time(&tm, "%H:%M:%S")] inserts. *)
Definition strftime_HMS (t : tm) : string :=
  two_digits (tm_hour t) +:+ ":" +:+ two_digits (tm_min t) +:+ ":"
    +:+ two_digits (tm_sec t).

(** ** Severities *)

(** [LogLevel] is an enumeration whose values are the integers 0 to 5; a
    variable of that type can hold other integers too (the tables below
    have a fall-through for them), so a level is an integer. Levels are
    compared as the signed integers they are for [enum class LogLevel] and
    for a C enumeration represented as [int]. *)
Definition LogLevel := Z.

Abbreviation LogLevel_Trace := 0 (only parsing).
Abbreviation LogLevel_Debug := 1 (only parsing).
Abbreviation LogLevel_Info := 2 (only parsing).
Abbreviation LogLevel_Warn := 3 (only parsing).
Abbreviation LogLevel_Error := 4 (only parsing).
Abbreviation LogLevel_Fatal := 5 (only parsing).

(** The six named severities. *)
Definition recognized (level : LogLevel) : Prop := 0 <= level <= 5.

(** [#define RESET_COLOR "\033[0m"] *)
Definition RESET_COLOR : string := ESC +:+ "[0m".

(** [LevelToString]: identical in the two variants. *)
Definition LevelToString (level : LogLevel) : string :=
  match level with
  | LogLevel_Trace => "TRACE"
  | LogLevel_Debug => "DEBUG"
  | LogLevel_Info => "INFO"
  | LogLevel_Warn => "WARN"
  | LogLevel_Error => "ERROR"
  | LogLevel_Fatal => "FATAL"
  | _ => "UNKNOWN"
  end.

(** [LevelToColor]: identical in the two variants. *)
Definition LevelToColor (level : LogLevel) : string :=
  match level with
  | LogLevel_Trace => ESC +:+ "[37m" (* White *)
  | LogLevel_Debug => ESC +:+ "[36m" (* Cyan *)
  | LogLevel_Info => ESC +:+ "[32m" (* Green *)
  | LogLevel_Warn => ESC +:+ "[33m" (* Yellow *)
  | LogLevel_Error => ESC +:+ "[31m" (* Red *)
  | LogLevel_Fatal => ESC +:+ "[41m" (* Red background *)
  | _ => ESC +:+ "[0m" (* Reset *)
  end.

(** The record both variants print, without colors and without the final
    newline: [[HH:MM:SS] LEVELNAME file:line (func) - message]. *)
Definition plain_line (timeStr : string) (level : LogLevel)
    (message file : string) (line : Z) (func : string) : string :=
  "[" +:+ timeStr +:+ "] " +:+ LevelToString level +:+ " " +:+ file +:+ ":"
    +:+ dec line +:+ " (" +:+ func +:+ ") - " +:+ message.

(** ** The world around the logger *)

Inductive Stream := Stdout | Stderr.

#[global] Instance Stream_eq_dec : EqDecision Stream.
Proof. solve_decision. Defined.

(** What happens to the mutex and to the shared threshold, in order. *)
Inductive SyncEvent :=
| MutexInit
| MutexDestroy
| Lock
| Unlock
| LevelRead
| LevelWrite (level : LogLevel).

#[global] Instance SyncEvent_eq_dec : EqDecision SyncEvent.
Proof. solve_decision. Defined.

(** An open file stream ([FILE] object or [std::filebuf]): the path it
    writes to and the bytes written but not yet flushed. *)
Record stream := { s_path : string; s_buf : string }.

(** A stream handle ([FILE*]). *)
Definition FILE := nat.

Record World := {
  w_stdout : string;               (* every byte written to stdout / std::cout *)
  w_stderr : string;               (* every byte written to stderr / std::cerr *)
  w_sync : list SyncEvent;         (* oldest first *)
  w_files : gmap nat stream;       (* the open file streams *)
  w_disk : gmap string string;     (* file contents, by path *)
  w_next : FILE;                   (* the next handle [fopen] hands out *)
  w_deny : string -> option (Z * string)
    (* the paths that cannot be opened for writing, with the [errno] and
       its [strerror] text *)
}.

Definition emit (e : SyncEvent) (w : World) : World :=
  {| w_stdout := w_stdout w; w_stderr := w_stderr w;
     w_sync := w_sync w ++ [e];
     w_files := w_files w; w_disk := w_disk w; w_next := w_next w;
     w_deny := w_deny w |}.

(** Writing [text] to a console stream. *)
Definition console_put (s : Stream) (text : string) (w : World) : World :=
  match s with
  | Stdout =>
      {| w_stdout := w_stdout w +:+ text; w_stderr := w_stderr w;
         w_sync := w_sync w; w_files := w_files w; w_disk := w_disk w;
         w_next := w_next w; w_deny := w_deny w |}
  | Stderr =>
      {| w_stdout := w_stdout w; w_stderr := w_stderr w +:+ text;
         w_sync := w_sync w; w_files := w_files w; w_disk := w_disk w;
         w_next := w_next w; w_deny := w_deny w |}
  end.

Definition console (s : Stream) (w : World) : string :=
  match s with Stdout => w_stdout w | Stderr => w_stderr w end.

Definition with_files (fs : gmap nat stream) (d : gmap string string)
    (w : World) : World :=
  {| w_stdout := w_stdout w; w_stderr := w_stderr w; w_sync := w_sync w;
     w_files := fs; w_disk := d; w_next := w_next w; w_deny := w_deny w |}.

Inductive fopen_result :=
| Opened (h : FILE)
| OpenFailed (err : Z) (msg : string).

(** Opening [path] in mode ["w"]: the file is created or truncated and a
    fresh stream with an empty buffer is returned, unless the environment
    refuses the path. *)
Definition file_open (path : string) (w : World) : fopen_result * World :=
  match w_deny w path with
  | Some (err, msg) => (OpenFailed err msg, w)
  | None =>
      let h := w_next w in
      (Opened h,
       {| w_stdout := w_stdout w; w_stderr := w_stderr w; w_sync := w_sync w;
          w_files := <[h := {| s_path := path; s_buf := "" |}]> (w_files w);
          w_disk := <[path := ""]> (w_disk w);
          w_next := S h; w_deny := w_deny w |})
  end.

(** Writing to a file stream appends to its buffer. A handle that is not
    open has no stream to write to. *)
Definition file_put (h : FILE) (text : string) (w : World) : World :=
  match w_files w !! h with
  | Some s =>
      with_files
        (<[h := {| s_path := s_path s; s_buf := s_buf s +:+ text |}]> (w_files w))
        (w_disk w) w
  | None => w
  end.

(** Flushing moves the buffer to the disk. *)
Definition file_flush (h : FILE) (w : World) : World :=
  match w_files w !! h with
  | Some s =>
      with_files
        (<[h := {| s_path := s_path s; s_buf := "" |}]> (w_files w))
        (<[s_path s := default "" (w_disk w !! s_path s) +:+ s_buf s]> (w_disk w))
        w
  | None => w
  end.

(** Closing flushes what is left and gives the stream up. *)
Definition file_close (h : FILE) (w : World) : World :=
  let w' := file_flush h w in
  with_files (delete h (w_files w')) (w_disk w') w'.

(** What a file holds on disk. *)
Definition on_disk (path : string) (w : World) : string :=
  default "" (w_disk w !! path).

(** ** The C variant: [c/RELogger/relogger.c] *)

Module C.

(** The preprocessor symbols the file tests. *)
Record Build := {
  DEBUG : bool;       (* the body of RELogger_Log is compiled in *)
  NO_THREADS : bool;  (* the mutex macros expand to nothing *)
  WIN32 : bool;       (* CRITICAL_SECTION instead of a pthread mutex *)
  MSC_VER : bool      (* fopen_s, and the error number in the warning *)
}.

(** The file's three static variables. *)
Record State := {
  logFile : option FILE;      (* NULL is None *)
  currentLevel : LogLevel;
  mutexInitialized : bool     (* an int that only ever holds 0 or 1 *)
}.

(** Their initializers. *)
Definition initial : State :=
  {| logFile := None; currentLevel := LogLevel_Trace;
     mutexInitialized := false |}.

(** [INIT_MUTEX()]: InitializeCriticalSection on Windows, nothing for the
    statically initialized pthread mutex, nothing under NO_THREADS. *)
Definition INIT_MUTEX (b : Build) (w : World) : World :=
  if NO_THREADS b then w else if WIN32 b then emit MutexInit w else w.

Definition LOCK_MUTEX (b : Build) (w : World) : World :=
  if NO_THREADS b then w else emit Lock w.

Definition UNLOCK_MUTEX (b : Build) (w : World) : World :=
  if NO_THREADS b then w else emit Unlock w.

Definition DESTROY_MUTEX (b : Build) (w : World) : World :=
  if NO_THREADS b then w else emit MutexDestroy w.

(** The warning of a failed open: [strerror(errno)] with [fopen], the
    error number with [fopen_s]. *)
Definition open_warning (b : Build) (logFilePath : string) (err : Z)
    (msg : string) : string :=
  "Warning: Could not open log file '" +:+ logFilePath +:+ "' (error: "
    +:+ (if MSC_VER b then dec err else msg) +:+ ")" +:+ NL.

(** [RELogger_Init]. The path is a [const char*], so it may be NULL. *)
Definition RELogger_Init (b : Build) (logFilePath : option string)
    (st : State) (w : World) : State * World :=
  let w := INIT_MUTEX b w in
  let st := {| logFile := logFile st; currentLevel := currentLevel st;
               mutexInitialized := true |} in
  match logFilePath with
  | Some path =>
      if (0 <? String.length path)%nat then
        match file_open path w with
        | (Opened h, w) =>
            ({| logFile := Some h; currentLevel := currentLevel st;
                mutexInitialized := mutexInitialized st |}, w)
        | (OpenFailed err msg, w) =>
            ({| logFile := None; currentLevel := currentLevel st;
                mutexInitialized := mutexInitialized st |},
             console_put Stderr (open_warning b path err msg) w)
        end
      else (st, w)
  | None => (st, w)
  end.

(** [RELogger_Shutdown]. *)
Definition RELogger_Shutdown (b : Build) (st : State) (w : World)
    : State * World :=
  let '(st, w) :=
    match logFile st with
    | Some h =>
        ({| logFile := None; currentLevel := currentLevel st;
            mutexInitialized := mutexInitialized st |},
         file_close h (file_flush h w))
    | None => (st, w)
    end in
  if mutexInitialized st then
    ({| logFile := logFile st; currentLevel := currentLevel st;
        mutexInitialized := false |}, DESTROY_MUTEX b w)
  else (st, w).

(** [RELogger_SetLevel]: a plain store. *)
Definition RELogger_SetLevel (level : LogLevel) (st : State) (w : World)
    : State * World :=
  ({| logFile := logFile st; currentLevel := level;
      mutexInitialized := mutexInitialized st |},
   emit (LevelWrite level) w).

(** [RELogger_GetLevel]: a plain load. *)
Definition RELogger_GetLevel (st : State) (w : World)
    : LogLevel * State * World :=
  (currentLevel st, st, emit LevelRead w).

(** [RELogger_Log]. [now] is what [localtime] made of [time(NULL)]. *)
Definition RELogger_Log (b : Build) (now : tm) (level : LogLevel)
    (message file : string) (line : Z) (func : string)
    (st : State) (w : World) : State * World :=
  if DEBUG b then
    (* Skip logs below current verbosity *)
    let w := emit LevelRead w in
    if level <? currentLevel st then (st, w)
    else
      let w := LOCK_MUTEX b w in
      let timeStr := strftime_HMS now in
      let out := if LogLevel_Error <=? level then Stderr else Stdout in
      let w :=
        console_put out
          (LevelToColor level +:+ "[" +:+ timeStr +:+ "] "
             +:+ LevelToString level +:+ " " +:+ file +:+ ":" +:+ dec line
             +:+ " (" +:+ func +:+ ") - " +:+ message +:+ RESET_COLOR +:+ NL)
          w in
      let w :=
        match logFile st with
        | Some h =>
            file_flush h
              (file_put h
                 ("[" +:+ timeStr +:+ "] " +:+ LevelToString level +:+ " "
                    +:+ file +:+ ":" +:+ dec line +:+ " (" +:+ func +:+ ") - "
                    +:+ message +:+ NL)
                 w)
        | None => w
        end in
      (st, UNLOCK_MUTEX b w)
  else (st, w).

End C.

(** ** The C++ variant: [cpp/RELogger/relogger.cpp] *)

Module Cpp.

(** The one preprocessor symbol that changes what the file does. *)
Record Build := {
  NDEBUG : bool   (* the body of RELogger::Log is compiled out *)
}.

(** A [std::ofstream]: the file its buffer has open, and whether
    [failbit] is set. *)
Record ofstream := { of_file : option FILE; of_fail : bool }.

(** The three variables of the anonymous namespace; [logMutex] lives in
    the world. *)
Record State := {
  logFile : ofstream;
  currentLevel : LogLevel
}.

Definition initial : State :=
  {| logFile := {| of_file := None; of_fail := false |};
     currentLevel := LogLevel_Trace |}.

(** [logFile.is_open()] *)
Definition is_open (f : ofstream) : bool :=
  match of_file f with Some _ => true | None => false end.

(** [logFile.open(path, std::ios::out | std::ios::trunc)]: the buffer
    refuses to open when it has a file open already; a failure sets
    [failbit] and a success clears the error state. *)
Definition ofstream_open (path : string) (f : ofstream) (w : World)
    : ofstream * World :=
  match of_file f with
  | Some h => ({| of_file := Some h; of_fail := true |}, w)
  | None =>
      match file_open path w with
      | (Opened h, w) => ({| of_file := Some h; of_fail := false |}, w)
      | (OpenFailed _ _, w) => ({| of_file := None; of_fail := true |}, w)
      end
  end.

(** [logFile << text]: nothing is written while [failbit] is set. *)
Definition ofstream_put (f : ofstream) (text : string) (w : World) : World :=
  if of_fail f then w
  else match of_file f with
       | Some h => file_put h text w
       | None => w
       end.

(** [logFile.flush()], also the second half of [std::endl]. *)
Definition ofstream_flush (f : ofstream) (w : World) : World :=
  if of_fail f then w
  else match of_file f with
       | Some h => file_flush h w
       | None => w
       end.

(** [logFile.close()] *)
Definition ofstream_close (f : ofstream) (w : World) : ofstream * World :=
  match of_file f with
  | Some h => ({| of_file := None; of_fail := of_fail f |}, file_close h w)
  | None => ({| of_file := None; of_fail := true |}, w)
  end.

(** [out << p1 << p2 << ...] on a console stream. *)
Definition console_puts (s : Stream) (pieces : list string) (w : World)
    : World :=
  fold_left (fun w p => console_put s p w) pieces w.

(** [logFile << p1 << p2 << ...] *)
Definition ofstream_puts (f : ofstream) (pieces : list string) (w : World)
    : World :=
  fold_left (fun w p => ofstream_put f p w) pieces w.

(** [RELogger::Init] *)
Definition Init (logFilePath : string) (st : State) (w : World)
    : State * World :=
  let w := emit Lock w in
  let '(st, w) :=
    if (0 <? String.length logFilePath)%nat then
      let '(f, w) := ofstream_open logFilePath (logFile st) w in
      let st := {| logFile := f; currentLevel := currentLevel st |} in
      if of_fail f then
        (st,
         console_puts Stderr
           [ESC +:+ "[31m[LOGGER ERROR] Failed to open log file: ";
            logFilePath; ESC +:+ "[0m"; NL] w)
      else (st, w)
    else (st, w) in
  (st, emit Unlock w).

(** [RELogger::Shutdown] *)
Definition Shutdown (st : State) (w : World) : State * World :=
  let w := emit Lock w in
  let '(st, w) :=
    if is_open (logFile st) then
      let w := ofstream_flush (logFile st) w in
      let '(f, w) := ofstream_close (logFile st) w in
      ({| logFile := f; currentLevel := currentLevel st |}, w)
    else (st, w) in
  (st, emit Unlock w).

(** [RELogger::SetLevel] *)
Definition SetLevel (level : LogLevel) (st : State) (w : World)
    : State * World :=
  let w := emit Lock w in
  let st := {| logFile := logFile st; currentLevel := level |} in
  let w := emit (LevelWrite level) w in
  (st, emit Unlock w).

(** [RELogger::GetLevel] *)
Definition GetLevel (st : State) (w : World) : LogLevel * State * World :=
  let w := emit Lock w in
  let r := currentLevel st in
  let w := emit LevelRead w in
  (r, st, emit Unlock w).

(** [RELogger::Log]. [now] is what [localtime_r] made of the system
    clock. *)
Definition Log (b : Build) (now : tm) (level : LogLevel)
    (message file : string) (line : Z) (func : string)
    (st : State) (w : World) : State * World :=
  if NDEBUG b then (st, w)
  else
    let w := emit LevelRead w in
    if level <? currentLevel st then (st, w)
    else
      let w := emit Lock w in
      let oss := strftime_HMS now in
      let out := if LogLevel_Error <=? level then Stderr else Stdout in
      let w :=
        console_puts out
          [LevelToColor level; "["; oss; "] "; LevelToString level; " ";
           file; ":"; dec line; " ("; func; ") - "; message; ESC +:+ "[0m";
           NL] w in
      let w :=
        if is_open (logFile st) then
          ofstream_flush (logFile st)
            (ofstream_puts (logFile st)
               ["["; oss; "] "; LevelToString level; " "; file; ":";
                dec line; " ("; func; ") - "; message; NL] w)
        else w in
      (st, emit Unlock w).

End Cpp.

(** ** Whole runs *)

(** One call of an entry point, with its arguments. The C variant's path
    may be NULL; the C++ variant's cannot. *)
Inductive Op (path : Type) :=
| OInit (logFilePath : path)
| OShutdown
| OSetLevel (level : LogLevel)
| OGetLevel
| OLog (now : tm) (level : LogLevel) (message file : string) (line : Z)
    (func : string).

Arguments OInit {path}.
Arguments OShutdown {path}.
Arguments OSetLevel {path}.
Arguments OGetLevel {path}.
Arguments OLog {path}.

Definition C_step (b : C.Build) (op : Op (option string))
    (r : C.State * World) : C.State * World :=
  match op with
  | OInit p => C.RELogger_Init b p (fst r) (snd r)
  | OShutdown => C.RELogger_Shutdown b (fst r) (snd r)
  | OSetLevel l => C.RELogger_SetLevel l (fst r) (snd r)
  | OGetLevel =>
      let '(_, st, w) := C.RELogger_GetLevel (fst r) (snd r) in (st, w)
  | OLog now l m f n g => C.RELogger_Log b now l m f n g (fst r) (snd r)
  end.

Definition C_run (b : C.Build) (ops : list (Op (option string)))
    (r : C.State * World) : C.State * World :=
  fold_left (fun r op => C_step b op r) ops r.

Definition Cpp_step (b : Cpp.Build) (op : Op string)
    (r : Cpp.State * World) : Cpp.State * World :=
  match op with
  | OInit p => Cpp.Init p (fst r) (snd r)
  | OShutdown => Cpp.Shutdown (fst r) (snd r)
  | OSetLevel l => Cpp.SetLevel l (fst r) (snd r)
  | OGetLevel => let '(_, st, w) := Cpp.GetLevel (fst r) (snd r) in (st, w)
  | OLog now l m f n g => Cpp.Log b now l m f n g (fst r) (snd r)
  end.

Definition Cpp_run (b : Cpp.Build) (ops : list (Op string))
    (r : Cpp.State * World) : Cpp.State * World :=
  fold_left (fun r op => Cpp_step b op r) ops r.

(** ** Vocabulary of the properties *)

(** The concatenation of the pieces of a chain of insertions. *)
Definition join (pieces : list string) : string :=
  fold_right String.append "" pieces.

(** The console form of a record: the plain line between the color of
    its severity and the reset sequence, then a newline. *)
Definition console_line (timeStr : string) (level : LogLevel)
    (message file : string) (line : Z) (func : string) : string :=
  LevelToColor level +:+ plain_line timeStr level message file line func
    +:+ RESET_COLOR +:+ NL.

(** The console stream of a record: [(level >= LogLevel_Error) ? stderr :
    stdout]. *)
Definition route (level : LogLevel) : Stream :=
  if LogLevel_Error <=? level then Stderr else Stdout.

(** Writing [text] to the file sink, if there is one, and flushing it. *)
Definition sink_write (sink : option FILE) (text : string) (w : World)
    : World :=
  match sink with
  | Some h => file_flush h (file_put h text w)
  | None => w
  end.

(** The sink a C++ stream writes to: its file, unless [failbit] is set. *)
Definition good_sink (f : Cpp.ofstream) : option FILE :=
  if Cpp.of_fail f then None else Cpp.of_file f.

(** Every byte ever written to the stream [h]: what reached the disk and
    what waits in the buffer. *)
Definition file_text (h : FILE) (w : World) : string :=
  match w_files w !! h with
  | Some s => default "" (w_disk w !! s_path s) +:+ s_buf s
  | None => ""
  end.

(** The world [w] with other mutex and threshold events. *)
Definition with_sync (evs : list SyncEvent) (w : World) : World :=
  {| w_stdout := w_stdout w; w_stderr := w_stderr w; w_sync := evs;
     w_files := w_files w; w_disk := w_disk w; w_next := w_next w;
     w_deny := w_deny w |}.

(** The two worlds differ at most in their mutex and threshold events. *)
Definition same_io (w w' : World) : Prop := w' = with_sync (w_sync w') w.

(** The mutex and threshold events of one emitting call of the C
    variant's Log, and of the C++ variant's. *)
Definition C_log_sync (b : C.Build) : list SyncEvent :=
  LevelRead :: (if C.NO_THREADS b then [] else [Lock; Unlock]).

Definition Cpp_log_sync : list SyncEvent := [LevelRead; Lock; Unlock].

(** The two worlds show the same output: the same bytes on both console
    streams, the same open file streams and the same disk. *)
Definition same_output (w w' : World) : Prop :=
  w_stdout w' = w_stdout w /\ w_stderr w' = w_stderr w /\
  w_files w' = w_files w /\ w_disk w' = w_disk w.

(** The mutex and threshold events that [w'] has after those of [w]. *)
Definition new_sync (w w' : World) : list SyncEvent :=
  drop (length (w_sync w)) (w_sync w').

(** Every access to the threshold in [evs] happens between a [Lock] and
    the next [Unlock]; [held] tells whether the lock is held at the
    start. *)
Fixpoint guarded (held : bool) (evs : list SyncEvent) : bool :=
  match evs with
  | [] => true
  | Lock :: evs => guarded true evs
  | Unlock :: evs => guarded false evs
  | LevelRead :: evs => held && guarded held evs
  | LevelWrite _ :: evs => held && guarded held evs
  | _ :: evs => guarded held evs
  end.

(** From [w] to [w'] the console streams and the files on disk only
    grew at their ends. *)
Definition appended_only (w w' : World) : Prop :=
  (exists t, w_stdout w' = w_stdout w +:+ t) /\
  (exists t, w_stderr w' = w_stderr w +:+ t) /\
  (forall path, exists t, on_disk path w' = on_disk path w +:+ t).

(** The mutex is never acquired in [evs]. *)
Definition lock_free (evs : list SyncEvent) : Prop := Lock ∉ evs.

(** The string has an ESC byte, hence possibly a color sequence. *)
Fixpoint has_esc (s : string) : bool :=
  match s with
  | EmptyString => false
  | String a s => Ascii.eqb a (Ascii.ascii_of_nat 27) || has_esc s
  end.

(** The ranges [localtime] guarantees. *)
Definition tm_valid (t : tm) : Prop :=
  0 <= tm_hour t <= 23 /\ 0 <= tm_min t <= 59 /\ 0 <= tm_sec t <= 60.

(** A C state and a C++ state that stand for the same logger: the same
    threshold and the same file sink, the C++ stream being in a good state
    while it is open. *)
Definition same_logger (c : C.State) (p : Cpp.State) : Prop :=
  C.currentLevel c = Cpp.currentLevel p /\
  C.logFile c = Cpp.of_file (Cpp.logFile p) /\
  (Cpp.is_open (Cpp.logFile p) = true -> Cpp.of_fail (Cpp.logFile p) = false).

(** Both variants compiled with, or both without, the body of Log. *)
Definition same_gate (b : C.Build) (b' : Cpp.Build) : Prop :=
  C.DEBUG b = negb (Cpp.NDEBUG b').

(** The results of the same call in the two variants stand for the same
    logger in the same surroundings. *)
Definition agree (rc : C.State * World) (rp : Cpp.State * World) : Prop :=
  same_logger (fst rc) (fst rp) /\ same_io (snd rc) (snd rp).

(** The sink, if there is one, is an open stream of the world with
    nothing left in its buffer. *)
Definition sink_ready (sink : option FILE) (w : World) : Prop :=
  forall h, sink = Some h ->
    exists path, w_files w !! h = Some {| s_path := path; s_buf := "" |}.

(** A C state and its world fit together. *)
Definition C_wf (r : C.State * World) : Prop :=
  sink_ready (C.logFile (fst r)) (snd r).

(** A C++ state and its world fit together, and the stream is good
    while it is open. *)
Definition Cpp_wf (r : Cpp.State * World) : Prop :=
  sink_ready (Cpp.of_file (Cpp.logFile (fst r))) (snd r) /\
  (Cpp.is_open (Cpp.logFile (fst r)) = true ->
   Cpp.of_fail (Cpp.logFile (fst r)) = false).

(** The run never calls Init while a sink is open, which is the
    precondition of Init. *)
Fixpoint Cpp_protocol (b : Cpp.Build) (ops : list (Op string))
    (r : Cpp.State * World) : Prop :=
  match ops with
  | [] => True
  | op :: ops =>
      match op with
      | OInit _ => Cpp.is_open (Cpp.logFile (fst r)) = false
      | _ => True
      end /\ Cpp_protocol b ops (Cpp_step b op r)
  end.

(** ** The call-site macros of the two headers *)

(** What [__FILE__], [__LINE__] and [__func__] (for MSVC [__FUNCTION__])
    expand to where a macro is used. *)
Record Site := { site_file : string; site_line : Z; site_func : string }.

(** [c/RELogger/relogger.h]:
    [#define RELOG_TRACE(msg) RELogger_Log(LogLevel_Trace, msg, __FILE__,
    __LINE__, __func__)] and its five siblings. *)
Module C_header.

Definition RELOG_TRACE (b : C.Build) (now : tm) (site : Site) (msg : string)
    : C.State -> World -> C.State * World :=
  C.RELogger_Log b now LogLevel_Trace msg (site_file site) (site_line site)
    (site_func site).

Definition RELOG_DEBUG (b : C.Build) (now : tm) (site : Site) (msg : string)
    : C.State -> World -> C.State * World :=
  C.RELogger_Log b now LogLevel_Debug msg (site_file site) (site_line site)
    (site_func site).

Definition RELOG_INFO (b : C.Build) (now : tm) (site : Site) (msg : string)
    : C.State -> World -> C.State * World :=
  C.RELogger_Log b now LogLevel_Info msg (site_file site) (site_line site)
    (site_func site).

Definition RELOG_WARN (b : C.Build) (now : tm) (site : Site) (msg : string)
    : C.State -> World -> C.State * World :=
  C.RELogger_Log b now LogLevel_Warn msg (site_file site) (site_line site)
    (site_func site).

Definition RELOG_ERROR (b : C.Build) (now : tm) (site : Site) (msg : string)
    : C.State -> World -> C.State * World :=
  C.RELogger_Log b now LogLevel_Error msg (site_file site) (site_line site)
    (site_func site).

Definition RELOG_FATAL (b : C.Build) (now : tm) (site : Site) (msg : string)
    : C.State -> World -> C.State * World :=
  C.RELogger_Log b now LogLevel_Fatal msg (site_file site) (site_line site)
    (site_func site).

End C_header.

(** [cpp/RELogger/relogger.h]:
    [#define RELOG_TRACE(msg) RELogger::Log(LogLevel::Trace, msg, __FILE__,
    __LINE__, __func__)] and its five siblings. *)
Module Cpp_header.

Definition RELOG_TRACE (b : Cpp.Build) (now : tm) (site : Site) (msg : string)
    : Cpp.State -> World -> Cpp.State * World :=
  Cpp.Log b now LogLevel_Trace msg (site_file site) (site_line site)
    (site_func site).

Definition RELOG_DEBUG (b : Cpp.Build) (now : tm) (site : Site) (msg : string)
    : Cpp.State -> World -> Cpp.State * World :=
  Cpp.Log b now LogLevel_Debug msg (site_file site) (site_line site)
    (site_func site).

Definition RELOG_INFO (b : Cpp.Build) (now : tm) (site : Site) (msg : string)
    : Cpp.State -> World -> Cpp.State * World :=
  Cpp.Log b now LogLevel_Info msg (site_file site) (site_line site)
    (site_func site).

Definition RELOG_WARN (b : Cpp.Build) (now : tm) (site : Site) (msg : string)
    : Cpp.State -> World -> Cpp.State * World :=
  Cpp.Log b now LogLevel_Warn msg (site_file site) (site_line site)
    (site_func site).

Definition RELOG_ERROR (b : Cpp.Build) (now : tm) (site : Site) (msg : string)
    : Cpp.State -> World -> Cpp.State * World :=
  Cpp.Log b now LogLevel_Error msg (site_file site) (site_line site)
    (site_func site).

Definition RELOG_FATAL (b : Cpp.Build) (now : tm) (site : Site) (msg : string)
    : Cpp.State -> World -> Cpp.State * World :=
  Cpp.Log b now LogLevel_Fatal msg (site_file site) (site_line site)
    (site_func site).

End Cpp_header.

(** ** Vocabulary of the properties of whole runs *)

(** The arguments of one Log call and the time it was made at. *)
Record Call := {
  c_now : tm; c_level : LogLevel; c_message : string; c_file : string;
  c_line : Z; c_func : string
}.

(** The line a call leaves in the file, and the one it leaves on the
    console. *)
Definition file_record (c : Call) : string :=
  plain_line (strftime_HMS (c_now c)) (c_level c) (c_message c) (c_file c)
    (c_line c) (c_func c) +:+ NL.

Definition console_record (c : Call) : string :=
  console_line (strftime_HMS (c_now c)) (c_level c) (c_message c) (c_file c)
    (c_line c) (c_func c).

(** The threshold after the calls [ops], started at [t]: the argument of
    the last SetLevel. *)
Fixpoint threshold_after {P : Type} (t : LogLevel) (ops : list (Op P))
    : LogLevel :=
  match ops with
  | [] => t
  | OSetLevel l :: ops => threshold_after l ops
  | _ :: ops => threshold_after t ops
  end.

(** The Log calls of [ops] that are not below the threshold of their
    moment, in call order, the threshold starting at [t]. *)
Fixpoint passed {P : Type} (t : LogLevel) (ops : list (Op P)) : list Call :=
  match ops with
  | [] => []
  | OSetLevel l :: ops => passed l ops
  | OLog now l m f n g :: ops =>
      if l <? t then passed t ops
      else {| c_now := now; c_level := l; c_message := m; c_file := f;
              c_line := n; c_func := g |} :: passed t ops
  | _ :: ops => passed t ops
  end.

(** A call that neither opens nor closes the sink. *)
Definition steady {P : Type} (op : Op P) : bool :=
  match op with
  | OInit _ | OShutdown => false
  | _ => true
  end.

Definition is_log {P : Type} (op : Op P) : bool :=
  match op with
  | OLog _ _ _ _ _ _ => true
  | _ => false
  end.

(** Whether the lock is held after [evs], if it was [held] before; [None]
    when [evs] acquires the lock while it is held or releases it while it
    is not. *)
Fixpoint lock_state (held : bool) (evs : list SyncEvent) : option bool :=
  match evs with
  | [] => Some held
  | Lock :: evs => if held then None else lock_state true evs
  | Unlock :: evs => if held then lock_state false evs else None
  | _ :: evs => lock_state held evs
  end.

(** An access to the threshold, as opposed to a use of the mutex. *)
Definition level_access (e : SyncEvent) : bool :=
  match e with
  | LevelRead | LevelWrite _ => true
  | _ => false
  end.

(** The console line of a record at call site [site], with the color
    sequence and the level name spelled out. *)
Definition labelled (color label : string) (now : tm) (site : Site)
    (msg : string) : string :=
  color +:+ "[" +:+ strftime_HMS now +:+ "] " +:+ label +:+ " "
    +:+ site_file site +:+ ":" +:+ dec (site_line site) +:+ " ("
    +:+ site_func site +:+ ") - " +:+ msg +:+ RESET_COLOR +:+ NL.

(** The stream [h] is open, yet the C logger no longer holds its handle:
    nothing can write to it or close it. *)
Definition leaked (h : FILE) (r : C.State * World) : Prop :=
  C.logFile (fst r) <> Some h /\ is_Some (w_files (snd r) !! h) /\
  (h < w_next (snd r))%nat.

(** Whether a call's console line goes to stderr. *)
Definition to_stderr (c : Call) : bool := LogLevel_Error <=? c_level c.

(** What a list of calls leaves in the file, on stdout and on stderr. *)
Definition file_of (calls : list Call) : string :=
  join (map file_record calls).

Definition stdout_of (calls : list Call) : string :=
  join (map console_record (List.filter (fun c => negb (to_stderr c)) calls)).

Definition stderr_of (calls : list Call) : string :=
  join (map console_record (List.filter to_stderr calls)).

(** ** Reading a record back *)

(** The value of a decimal digit character. *)
Definition digit_value (c : Ascii.ascii) : option Z :=
  let n := Ascii.nat_of_ascii c in
  if ((48 <=? n) && (n <=? 57))%nat then Some (Z.of_nat n - 48) else None.

(** Reading [HH:MM:SS]: two digits, a colon (character 58), two digits,
    a colon, two digits, and nothing more. *)
Definition parse_HMS (s : string) : option tm :=
  match s with
  | String h1 (String h2 (String c1 (String m1 (String m2 (String c2
      (String s1 (String s2 EmptyString))))))) =>
      if Ascii.eqb c1 (Ascii.ascii_of_nat 58)
         && Ascii.eqb c2 (Ascii.ascii_of_nat 58) then
        match digit_value h1, digit_value h2, digit_value m1,
              digit_value m2, digit_value s1, digit_value s2 with
        | Some a, Some b, Some c, Some d, Some e, Some f =>
            Some {| tm_hour := 10 * a + b; tm_min := 10 * c + d;
                    tm_sec := 10 * e + f |}
        | _, _, _, _, _, _ => None
        end
      else None
  | _ => None
  end.

(** Reading a decimal number with an optional minus sign. *)
Definition parse_dec (s : string) : option Z :=
  option_map Z.of_int (NilZero.int_of_string s).

(** ** Concrete inputs *)

(** A fresh process on a machine where nothing under [/proc/] can be
    created. *)
Definition world0 : World :=
  {| w_stdout := ""; w_stderr := ""; w_sync := []; w_files := ∅;
     w_disk := ∅; w_next := 3%nat;
     w_deny := fun p =>
       if String.prefix "/proc/" p then Some (13, "Permission denied"%string)
       else None |}.

(** A debug build for Linux with threads. *)
Definition c_debug : C.Build :=
  {| C.DEBUG := true; C.NO_THREADS := false; C.WIN32 := false;
     C.MSC_VER := false |}.

Definition cpp_debug : Cpp.Build := {| Cpp.NDEBUG := false |}.

(** 09:05:30 *)
Definition morning : tm := {| tm_hour := 9; tm_min := 5; tm_sec := 30 |}.

(** * Properties *)

(** ** Strings *)

Lemma append_cons (a : Ascii.ascii) (s t : string) :
  String a s +:+ t = String a (s +:+ t).
Proof. reflexivity. Qed.

Lemma append_nil_r (s : string) : s +:+ "" = s.
Proof.
  induction s as [|a s IH]; [reflexivity|].
  now rewrite append_cons, IH.
Qed.

Lemma append_assoc (s t u : string) : (s +:+ t) +:+ u = s +:+ t +:+ u.
Proof.
  induction s as [|a s IH]; [reflexivity|].
  now rewrite !append_cons, IH.
Qed.

Lemma has_esc_append (s t : string) :
  has_esc (s +:+ t) = has_esc s || has_esc t.
Proof.
  induction s as [|a s IH]; [reflexivity|].
  rewrite append_cons. cbn [has_esc]. rewrite IH. now rewrite orb_assoc.
Qed.

Lemma has_esc_uint (d : Decimal.uint) :
  has_esc (NilZero.string_of_uint d) = false.
Proof.
  unfold NilZero.string_of_uint.
  destruct d; try reflexivity;
    cbn [NilEmpty.string_of_uint has_esc]; cbn [Ascii.eqb Ascii.ascii_of_nat];
    (induction d; [reflexivity | cbn [NilEmpty.string_of_uint has_esc]; exact IHd ..]).
Qed.

Lemma has_esc_dec (n : Z) : has_esc (dec n) = false.
Proof.
  unfold dec, NilZero.string_of_int.
  destruct (Z.to_int n); [apply has_esc_uint|].
  cbn [has_esc]. rewrite has_esc_uint. reflexivity.
Qed.

Lemma has_esc_digit (d : Z) : 0 <= d <= 9 -> has_esc (digit d) = false.
Proof.
  intros H.
  assert (d = 0 \/ d = 1 \/ d = 2 \/ d = 3 \/ d = 4 \/ d = 5 \/ d = 6
          \/ d = 7 \/ d = 8 \/ d = 9) as Hd by lia.
  repeat (destruct Hd as [-> | Hd]; [reflexivity|]). now subst.
Qed.

Lemma has_esc_two_digits (n : Z) :
  0 <= n <= 99 -> has_esc (two_digits n) = false.
Proof.
  intros H. unfold two_digits.
  assert (0 <= n / 10 <= 9).
  { pose proof (Z.div_pos n 10). pose proof (Z.div_lt_upper_bound n 10 10). lia. }
  assert (0 <= n mod 10 <= 9) by (pose proof (Z.mod_pos_bound n 10); lia).
  now rewrite has_esc_append, !has_esc_digit.
Qed.

Lemma has_esc_strftime (t : tm) : tm_valid t -> has_esc (strftime_HMS t) = false.
Proof.
  intros (Hh & Hm & Hs). unfold strftime_HMS.
  rewrite !has_esc_append, !has_esc_two_digits by lia. reflexivity.
Qed.

Lemma has_esc_LevelToString (level : LogLevel) :
  has_esc (LevelToString level) = false.
Proof.
  destruct level as [|p|p]; try reflexivity.
  do 3 (destruct p; try reflexivity).
Qed.

(** The plain line carries an ESC byte only if the caller's strings do. *)
Lemma plain_line_no_esc (t : tm) (level : LogLevel) (message file : string)
    (line : Z) (func : string) :
  tm_valid t -> has_esc message = false -> has_esc file = false ->
  has_esc func = false ->
  has_esc (plain_line (strftime_HMS t) level message file line func +:+ NL)
    = false.
Proof.
  intros Ht Hm Hf Hg. unfold plain_line.
  rewrite !has_esc_append, has_esc_strftime, has_esc_LevelToString,
    has_esc_dec, Hm, Hf, Hg by assumption.
  reflexivity.
Qed.

(** ** The world's operations *)

Lemma console_put_same (s : Stream) (t : string) (w : World) :
  console s (console_put s t w) = console s w +:+ t.
Proof. now destruct s. Qed.

Lemma console_put_other (s s' : Stream) (t : string) (w : World) :
  s <> s' -> console s' (console_put s t w) = console s' w.
Proof. now destruct s, s'. Qed.

Lemma console_put_put (s : Stream) (a b : string) (w : World) :
  console_put s b (console_put s a w) = console_put s (a +:+ b) w.
Proof. destruct s; cbn; now rewrite append_assoc. Qed.

(** A chain of insertions writes the concatenation of its pieces. *)
Lemma console_puts_join (s : Stream) (ps : list string) (a : string)
    (w : World) :
  Cpp.console_puts s ps (console_put s a w) = console_put s (a +:+ join ps) w.
Proof.
  revert a. induction ps as [|p ps IH]; intros a; cbn.
  - now rewrite append_nil_r.
  - rewrite console_put_put. unfold Cpp.console_puts in IH. rewrite IH.
    now rewrite append_assoc.
Qed.

Lemma console_puts_cons (s : Stream) (p : string) (ps : list string)
    (w : World) :
  Cpp.console_puts s (p :: ps) w = console_put s (p +:+ join ps) w.
Proof. apply (console_puts_join s ps p w). Qed.

Lemma file_put_put (h : FILE) (a b : string) (w : World) :
  file_put h b (file_put h a w) = file_put h (a +:+ b) w.
Proof.
  unfold file_put at 2 3. destruct (w_files w !! h) as [s|] eqn:E.
  - unfold file_put, with_files. cbn. rewrite lookup_insert_eq. cbn.
    now rewrite insert_insert_eq, append_assoc.
  - unfold file_put. now rewrite E.
Qed.

Lemma file_puts_join (h : FILE) (ps : list string) (a : string) (w : World) :
  fold_left (fun w p => file_put h p w) ps (file_put h a w)
  = file_put h (a +:+ join ps) w.
Proof.
  revert a. induction ps as [|p ps IH]; intros a; cbn.
  - now rewrite append_nil_r.
  - now rewrite file_put_put, IH, append_assoc.
Qed.

(** A chain of insertions into a C++ file stream reaches the file like
    one [fprintf], and only while the stream is good. *)
Lemma ofstream_puts_cons (f : Cpp.ofstream) (p : string) (ps : list string)
    (w : World) :
  Cpp.ofstream_flush f (Cpp.ofstream_puts f (p :: ps) w)
  = sink_write (good_sink f) (p +:+ join ps) w.
Proof.
  unfold Cpp.ofstream_flush, Cpp.ofstream_puts, Cpp.ofstream_put, good_sink,
    sink_write.
  destruct f as [[h|] [|]]; cbn [Cpp.of_fail Cpp.of_file fold_left].
  - induction ps; cbn; auto.
  - now rewrite file_puts_join.
  - induction ps; cbn; auto.
  - induction ps; cbn; auto.
Qed.

(** What a write to an open sink does to the stream and to the disk. *)
Lemma sink_write_open (h : FILE) (text : string) (w : World) (s : stream) :
  w_files w !! h = Some s ->
  w_files (sink_write (Some h) text w)
    = <[h := {| s_path := s_path s; s_buf := "" |}]> (w_files w) /\
  w_disk (sink_write (Some h) text w)
    = <[s_path s := on_disk (s_path s) w +:+ s_buf s +:+ text]> (w_disk w).
Proof.
  intros E. unfold sink_write, file_flush, file_put, on_disk. rewrite E. cbn.
  rewrite lookup_insert_eq. cbn. now rewrite insert_insert_eq.
Qed.

(** File operations leave the console and the mutex alone. *)
Lemma sink_write_console (sink : option FILE) (text : string) (w : World) :
  w_stdout (sink_write sink text w) = w_stdout w /\
  w_stderr (sink_write sink text w) = w_stderr w /\
  w_sync (sink_write sink text w) = w_sync w.
Proof.
  destruct sink as [h|]; [|now cbn].
  unfold sink_write, file_flush, file_put.
  destruct (w_files w !! h) as [s|] eqn:E; cbn.
  - rewrite lookup_insert_eq. now cbn.
  - rewrite E. now cbn.
Qed.

(** Mutex and threshold events commute with input and output. *)
Lemma emit_with_sync (e : SyncEvent) (w : World) :
  emit e w = with_sync (w_sync w ++ [e]) w.
Proof. reflexivity. Qed.

Lemma with_sync_id (w : World) : with_sync (w_sync w) w = w.
Proof. now destruct w. Qed.

Lemma console_put_with_sync s t evs w :
  console_put s t (with_sync evs w) = with_sync evs (console_put s t w).
Proof. now destruct s. Qed.

Lemma file_put_with_sync h t evs w :
  file_put h t (with_sync evs w) = with_sync evs (file_put h t w).
Proof. unfold file_put. cbn. now destruct (w_files w !! h). Qed.

Lemma file_flush_with_sync h evs w :
  file_flush h (with_sync evs w) = with_sync evs (file_flush h w).
Proof. unfold file_flush. cbn. now destruct (w_files w !! h). Qed.

Lemma file_close_with_sync h evs w :
  file_close h (with_sync evs w) = with_sync evs (file_close h w).
Proof. unfold file_close. now rewrite file_flush_with_sync. Qed.

Lemma sink_write_with_sync sink t evs w :
  sink_write sink t (with_sync evs w) = with_sync evs (sink_write sink t w).
Proof.
  destruct sink; [|reflexivity].
  unfold sink_write. now rewrite file_put_with_sync, file_flush_with_sync.
Qed.

Lemma console_with_sync s evs w : console s (with_sync evs w) = console s w.
Proof. now destruct s. Qed.

Lemma console_sink_write s sink t w :
  console s (sink_write sink t w) = console s w.
Proof.
  destruct (sink_write_console sink t w) as (H1 & H2 & _). now destruct s.
Qed.

Lemma same_io_refl (w : World) : same_io w w.
Proof. unfold same_io. now rewrite with_sync_id. Qed.

Lemma C_LOCK_MUTEX_sync (b : C.Build) (w : World) :
  C.LOCK_MUTEX b w
  = with_sync (w_sync w ++ if C.NO_THREADS b then [] else [Lock]) w.
Proof.
  unfold C.LOCK_MUTEX. destruct (C.NO_THREADS b); [|reflexivity].
  now rewrite app_nil_r, with_sync_id.
Qed.

Lemma C_UNLOCK_MUTEX_sync (b : C.Build) (w : World) :
  C.UNLOCK_MUTEX b w
  = with_sync (w_sync w ++ if C.NO_THREADS b then [] else [Unlock]) w.
Proof.
  unfold C.UNLOCK_MUTEX. destruct (C.NO_THREADS b); [|reflexivity].
  now rewrite app_nil_r, with_sync_id.
Qed.

Lemma C_DESTROY_MUTEX_sync (b : C.Build) (w : World) :
  C.DESTROY_MUTEX b w
  = with_sync (w_sync w ++ if C.NO_THREADS b then [] else [MutexDestroy]) w.
Proof.
  unfold C.DESTROY_MUTEX. destruct (C.NO_THREADS b); [|reflexivity].
  now rewrite app_nil_r, with_sync_id.
Qed.

Lemma C_INIT_MUTEX_sync (b : C.Build) (w : World) :
  C.INIT_MUTEX b w
  = with_sync
      (w_sync w ++ if C.NO_THREADS b then [] else
                     if C.WIN32 b then [MutexInit] else []) w.
Proof.
  unfold C.INIT_MUTEX.
  destruct (C.NO_THREADS b), (C.WIN32 b); try reflexivity;
    now rewrite app_nil_r, with_sync_id.
Qed.

(** ** What Log does, in both variants *)

(** The text of the two [fprintf] calls and of the two insertion chains,
    in terms of [console_line] and [plain_line]. *)
Lemma console_text_eq (timeStr : string) (level : LogLevel)
    (message file : string) (line : Z) (func : string) :
  LevelToColor level +:+ "[" +:+ timeStr +:+ "] " +:+ LevelToString level
    +:+ " " +:+ file +:+ ":" +:+ dec line +:+ " (" +:+ func +:+ ") - "
    +:+ message +:+ RESET_COLOR +:+ NL
  = console_line timeStr level message file line func.
Proof.
  unfold console_line, plain_line. now rewrite !append_assoc.
Qed.

Lemma file_text_eq (timeStr : string) (level : LogLevel)
    (message file : string) (line : Z) (func : string) :
  "[" +:+ timeStr +:+ "] " +:+ LevelToString level +:+ " " +:+ file +:+ ":"
    +:+ dec line +:+ " (" +:+ func +:+ ") - " +:+ message +:+ NL
  = plain_line timeStr level message file line func +:+ NL.
Proof.
  unfold plain_line. now rewrite !append_assoc.
Qed.

Lemma C_Log_off (b : C.Build) now level message file line func st w :
  C.DEBUG b = false ->
  C.RELogger_Log b now level message file line func st w = (st, w).
Proof. intros H. unfold C.RELogger_Log. now rewrite H. Qed.

Lemma C_Log_skipped (b : C.Build) now level message file line func st w :
  level < C.currentLevel st ->
  C.RELogger_Log b now level message file line func st w
  = (st, if C.DEBUG b then emit LevelRead w else w).
Proof.
  intros H. unfold C.RELogger_Log.
  destruct (C.DEBUG b); [|reflexivity].
  apply Z.ltb_lt in H. now rewrite H.
Qed.

Lemma C_Log_emitted (b : C.Build) now level message file line func st w :
  C.DEBUG b = true -> C.currentLevel st <= level ->
  C.RELogger_Log b now level message file line func st w
  = (st,
     C.UNLOCK_MUTEX b
       (sink_write (C.logFile st)
          (plain_line (strftime_HMS now) level message file line func +:+ NL)
          (console_put (route level)
             (console_line (strftime_HMS now) level message file line func)
             (C.LOCK_MUTEX b (emit LevelRead w))))).
Proof.
  intros Hb H. unfold C.RELogger_Log. rewrite Hb.
  apply Z.ltb_ge in H. rewrite H.
  rewrite console_text_eq, file_text_eq.
  now destruct (C.logFile st).
Qed.

Lemma Cpp_Log_off (b : Cpp.Build) now level message file line func st w :
  Cpp.NDEBUG b = true ->
  Cpp.Log b now level message file line func st w = (st, w).
Proof. intros H. unfold Cpp.Log. now rewrite H. Qed.

Lemma Cpp_Log_skipped (b : Cpp.Build) now level message file line func st w :
  level < Cpp.currentLevel st ->
  Cpp.Log b now level message file line func st w
  = (st, if Cpp.NDEBUG b then w else emit LevelRead w).
Proof.
  intros H. unfold Cpp.Log.
  destruct (Cpp.NDEBUG b); [reflexivity|].
  apply Z.ltb_lt in H. now rewrite H.
Qed.

Lemma Cpp_Log_emitted (b : Cpp.Build) now level message file line func st w :
  Cpp.NDEBUG b = false -> Cpp.currentLevel st <= level ->
  Cpp.Log b now level message file line func st w
  = (st,
     emit Unlock
       (sink_write (good_sink (Cpp.logFile st))
          (plain_line (strftime_HMS now) level message file line func +:+ NL)
          (console_put (route level)
             (console_line (strftime_HMS now) level message file line func)
             (emit Lock (emit LevelRead w))))).
Proof.
  intros Hb H. unfold Cpp.Log. rewrite Hb.
  apply Z.ltb_ge in H. rewrite H.
  rewrite console_puts_cons, ofstream_puts_cons.
  cbn [join fold_right]. rewrite !append_nil_r.
  change (ESC +:+ "[0m") with RESET_COLOR.
  rewrite console_text_eq, file_text_eq.
  unfold Cpp.is_open, good_sink.
  destruct (Cpp.logFile st) as [[h|] [|]]; reflexivity.
Qed.

(** The whole effect of an emitting call: the console line on the routed
    stream, the plain line in the sink, and the call's mutex events. *)
Lemma C_Log_effect (b : C.Build) now level message file line func st w :
  C.DEBUG b = true -> C.currentLevel st <= level ->
  C.RELogger_Log b now level message file line func st w
  = (st,
     with_sync (w_sync w ++ C_log_sync b)
       (sink_write (C.logFile st)
          (plain_line (strftime_HMS now) level message file line func +:+ NL)
          (console_put (route level)
             (console_line (strftime_HMS now) level message file line func)
             w))).
Proof.
  intros Hb H. rewrite C_Log_emitted by assumption. f_equal.
  rewrite C_UNLOCK_MUTEX_sync, C_LOCK_MUTEX_sync, emit_with_sync.
  repeat first [rewrite console_put_with_sync | rewrite sink_write_with_sync].
  cbn [w_sync with_sync].
  unfold C_log_sync. destruct (C.NO_THREADS b); cbn [app];
    rewrite <- ?app_assoc, ?app_nil_r; reflexivity.
Qed.

Lemma Cpp_Log_effect (b : Cpp.Build) now level message file line func st w :
  Cpp.NDEBUG b = false -> Cpp.currentLevel st <= level ->
  Cpp.Log b now level message file line func st w
  = (st,
     with_sync (w_sync w ++ Cpp_log_sync)
       (sink_write (good_sink (Cpp.logFile st))
          (plain_line (strftime_HMS now) level message file line func +:+ NL)
          (console_put (route level)
             (console_line (strftime_HMS now) level message file line func)
             w))).
Proof.
  intros Hb H. rewrite Cpp_Log_emitted by assumption. f_equal.
  rewrite !emit_with_sync.
  repeat first [rewrite console_put_with_sync | rewrite sink_write_with_sync].
  cbn [w_sync with_sync].
  unfold Cpp_log_sync. rewrite <- !app_assoc. reflexivity.
Qed.

Lemma C_Log_state (b : C.Build) now level message file line func st w :
  fst (C.RELogger_Log b now level message file line func st w) = st.
Proof.
  unfold C.RELogger_Log.
  destruct (C.DEBUG b); [|reflexivity].
  now destruct (level <? C.currentLevel st).
Qed.

Lemma Cpp_Log_state (b : Cpp.Build) now level message file line func st w :
  fst (Cpp.Log b now level message file line func st w) = st.
Proof.
  unfold Cpp.Log.
  destruct (Cpp.NDEBUG b); [reflexivity|].
  now destruct (level <? Cpp.currentLevel st).
Qed.

(** The console after an emitting call, stream by stream. *)
Lemma C_Log_console (b : C.Build) now level message file line func st w
    (s : Stream) :
  C.DEBUG b = true -> C.currentLevel st <= level ->
  console s (snd (C.RELogger_Log b now level message file line func st w))
  = if decide (s = route level)
    then console s w
           +:+ console_line (strftime_HMS now) level message file line func
    else console s w.
Proof.
  intros Hb H. rewrite C_Log_effect by assumption. cbn [snd].
  rewrite console_with_sync, console_sink_write.
  destruct (decide (s = route level)) as [->|Hne].
  - apply console_put_same.
  - apply console_put_other. congruence.
Qed.

Lemma Cpp_Log_console (b : Cpp.Build) now level message file line func st w
    (s : Stream) :
  Cpp.NDEBUG b = false -> Cpp.currentLevel st <= level ->
  console s (snd (Cpp.Log b now level message file line func st w))
  = if decide (s = route level)
    then console s w
           +:+ console_line (strftime_HMS now) level message file line func
    else console s w.
Proof.
  intros Hb H. rewrite Cpp_Log_effect by assumption. cbn [snd].
  rewrite console_with_sync, console_sink_write.
  destruct (decide (s = route level)) as [->|Hne].
  - apply console_put_same.
  - apply console_put_other. congruence.
Qed.

Lemma route_error (level : LogLevel) :
  LogLevel_Error <= level -> route level = Stderr.
Proof. intros H. unfold route. apply Z.leb_le in H. now rewrite H. Qed.

Lemma route_below_error (level : LogLevel) :
  level < LogLevel_Error -> route level = Stdout.
Proof. intros H. unfold route. apply Z.leb_gt in H. now rewrite H. Qed.

Lemma lock_free_nil : lock_free [].
Proof. unfold lock_free. rewrite list_elem_of_In. now cbn. Qed.

Lemma lock_free_read : lock_free [LevelRead].
Proof.
  unfold lock_free. rewrite list_elem_of_In. cbn. intuition discriminate.
Qed.

Lemma same_output_refl (w : World) : same_output w w.
Proof. unfold same_output. auto. Qed.

Lemma same_output_emit (e : SyncEvent) (w : World) : same_output w (emit e w).
Proof. unfold same_output. auto. Qed.

(** A call below the threshold: no output, no lock. *)
Lemma C_Log_silent (b : C.Build) now level message file line func st w :
  level < C.currentLevel st ->
  let r := C.RELogger_Log b now level message file line func st w in
  fst r = st /\ same_output w (snd r) /\ lock_free (new_sync w (snd r)).
Proof.
  intros H. cbv zeta. rewrite C_Log_skipped by assumption. cbn [fst snd].
  split; [reflexivity|]. unfold new_sync.
  destruct (C.DEBUG b).
  - split; [apply same_output_emit|]. cbn [w_sync emit].
    rewrite drop_app_length. apply lock_free_read.
  - split; [apply same_output_refl|]. rewrite drop_all. apply lock_free_nil.
Qed.

Lemma Cpp_Log_silent (b : Cpp.Build) now level message file line func st w :
  level < Cpp.currentLevel st ->
  let r := Cpp.Log b now level message file line func st w in
  fst r = st /\ same_output w (snd r) /\ lock_free (new_sync w (snd r)).
Proof.
  intros H. cbv zeta. rewrite Cpp_Log_skipped by assumption. cbn [fst snd].
  split; [reflexivity|]. unfold new_sync.
  destruct (Cpp.NDEBUG b).
  - split; [apply same_output_refl|]. rewrite drop_all. apply lock_free_nil.
  - split; [apply same_output_emit|]. cbn [w_sync emit].
    rewrite drop_app_length. apply lock_free_read.
Qed.

(** ** Filtering *)

Section Filtering.

Context (now : tm) (message file : string) (line : Z) (func : string).

(** C1, for severities a < b. After SetLevel(b), a Log call at severity
    a changes neither console stream, no file stream and no file on disk,
    leaves the logger state alone and does not acquire the lock; a Log
    call at a severity c >= b, in a build that compiles the body of Log
    in, appends its console line to the stream of c. The threshold itself
    passes: the comparison is strict. *)
Theorem log_filter (a lvl c : LogLevel) :
  a < lvl -> lvl <= c ->
  (forall (b : C.Build) (st : C.State) (w : World),
     let st1 := fst (C.RELogger_SetLevel lvl st w) in
     let w1 := snd (C.RELogger_SetLevel lvl st w) in
     let quiet := C.RELogger_Log b now a message file line func st1 w1 in
     let loud := C.RELogger_Log b now c message file line func st1 w1 in
     fst quiet = st1 /\ same_output w1 (snd quiet) /\
     lock_free (new_sync w1 (snd quiet)) /\
     (C.DEBUG b = true ->
      console (route c) (snd loud)
      = console (route c) w1
          +:+ console_line (strftime_HMS now) c message file line func)) /\
  (forall (b : Cpp.Build) (st : Cpp.State) (w : World),
     let st1 := fst (Cpp.SetLevel lvl st w) in
     let w1 := snd (Cpp.SetLevel lvl st w) in
     let quiet := Cpp.Log b now a message file line func st1 w1 in
     let loud := Cpp.Log b now c message file line func st1 w1 in
     fst quiet = st1 /\ same_output w1 (snd quiet) /\
     lock_free (new_sync w1 (snd quiet)) /\
     (Cpp.NDEBUG b = false ->
      console (route c) (snd loud)
      = console (route c) w1
          +:+ console_line (strftime_HMS now) c message file line func)).
Proof.
  intros Ha Hc. split; intros b st w; cbv zeta.
  - pose proof (C_Log_silent b now a message file line func
                  (fst (C.RELogger_SetLevel lvl st w))
                  (snd (C.RELogger_SetLevel lvl st w)) Ha) as (H1 & H2 & H3).
    repeat split; try assumption; try apply H2.
    intros Hb. rewrite C_Log_console by (cbn; assumption).
    now rewrite decide_True.
  - pose proof (Cpp_Log_silent b now a message file line func
                  (fst (Cpp.SetLevel lvl st w))
                  (snd (Cpp.SetLevel lvl st w)) Ha) as (H1 & H2 & H3).
    repeat split; try assumption; try apply H2.
    intros Hb. rewrite Cpp_Log_console by (cbn; assumption).
    now rewrite decide_True.
Qed.

End Filtering.

(** C1 at a = b = Info: a <= b holds, yet after SetLevel(Info) a Log
    call at Info is not silent, its line is on stdout. *)
Lemma log_filter_threshold_passes :
  LogLevel_Info <= LogLevel_Info /\
  let r := C.RELogger_SetLevel LogLevel_Info C.initial world0 in
  let r' :=
    C.RELogger_Log c_debug morning LogLevel_Info "ready" "main.c" 7 "main"
      (fst r) (snd r) in
  ~ same_output (snd r) (snd r') /\
  w_stdout (snd r')
  = ESC +:+ "[32m[09:05:30] INFO main.c:7 (main) - ready" +:+ ESC +:+ "[0m"
      +:+ NL.
Proof.
  split; [lia|]. cbv zeta. split.
  - intros (H & _). vm_compute in H. discriminate H.
  - vm_compute. reflexivity.
Qed.

Lemma log_filter_witness :
  let r := C.RELogger_SetLevel LogLevel_Warn C.initial world0 in
  let quiet :=
    C.RELogger_Log c_debug morning LogLevel_Debug "tick" "main.c" 7 "main"
      (fst r) (snd r) in
  let loud :=
    C.RELogger_Log c_debug morning LogLevel_Error "tick" "main.c" 7 "main"
      (fst r) (snd r) in
  LogLevel_Debug < LogLevel_Warn /\ LogLevel_Warn <= LogLevel_Error /\
  C.DEBUG c_debug = true /\
  same_output (snd r) (snd quiet) /\
  console (route LogLevel_Error) (snd loud)
  = console (route LogLevel_Error) (snd r)
      +:+ console_line (strftime_HMS morning) LogLevel_Error "tick" "main.c" 7
            "main".
Proof.
  cbv zeta. split; [lia|]. split; [lia|]. split; [reflexivity|].
  pose proof (proj1 (log_filter morning "tick" "main.c" 7 "main"
                       LogLevel_Debug LogLevel_Warn LogLevel_Error
                       ltac:(lia) ltac:(lia)) c_debug C.initial world0) as H.
  cbv zeta in H. destruct H as (_ & Hquiet & _ & Hloud).
  split; [exact Hquiet | exact (Hloud eq_refl)].
Defined.

(** ** Stream routing and colors *)

Section Emission.

Context (now : tm) (level : LogLevel) (message file : string) (line : Z)
  (func : string).

(** C4. A Log call that passes the filter writes its console line to
    stderr when the severity is Error or above and leaves stdout alone;
    below Error it writes the line to stdout and leaves stderr alone. *)
Theorem log_stream_routing :
  (forall (b : C.Build) (st : C.State) (w : World),
     C.DEBUG b = true -> C.currentLevel st <= level ->
     let w' := snd (C.RELogger_Log b now level message file line func st w) in
     let text := console_line (strftime_HMS now) level message file line func in
     (LogLevel_Error <= level ->
      w_stderr w' = w_stderr w +:+ text /\ w_stdout w' = w_stdout w) /\
     (level < LogLevel_Error ->
      w_stdout w' = w_stdout w +:+ text /\ w_stderr w' = w_stderr w)) /\
  (forall (b : Cpp.Build) (st : Cpp.State) (w : World),
     Cpp.NDEBUG b = false -> Cpp.currentLevel st <= level ->
     let w' := snd (Cpp.Log b now level message file line func st w) in
     let text := console_line (strftime_HMS now) level message file line func in
     (LogLevel_Error <= level ->
      w_stderr w' = w_stderr w +:+ text /\ w_stdout w' = w_stdout w) /\
     (level < LogLevel_Error ->
      w_stdout w' = w_stdout w +:+ text /\ w_stderr w' = w_stderr w)).
Proof.
  split; intros b st w Hb H; cbv zeta.
  - pose proof (C_Log_console b now level message file line func st w Stdout
                  Hb H) as Hout.
    pose proof (C_Log_console b now level message file line func st w Stderr
                  Hb H) as Herr.
    cbn [console] in Hout, Herr.
    split; intros Hl.
    + rewrite (route_error _ Hl) in Hout, Herr.
      now rewrite decide_False in Hout by discriminate.
    + rewrite (route_below_error _ Hl) in Hout, Herr.
      now rewrite decide_False in Herr by discriminate.
  - pose proof (Cpp_Log_console b now level message file line func st w Stdout
                  Hb H) as Hout.
    pose proof (Cpp_Log_console b now level message file line func st w Stderr
                  Hb H) as Herr.
    cbn [console] in Hout, Herr.
    split; intros Hl.
    + rewrite (route_error _ Hl) in Hout, Herr.
      now rewrite decide_False in Hout by discriminate.
    + rewrite (route_below_error _ Hl) in Hout, Herr.
      now rewrite decide_False in Herr by discriminate.
Qed.


End Emission.

Lemma log_stream_routing_witness :
  C.DEBUG c_debug = true /\ C.currentLevel C.initial <= LogLevel_Error /\
  LogLevel_Error <= LogLevel_Error /\
  w_stderr
    (snd (C.RELogger_Log c_debug morning LogLevel_Error "disk full" "x.c" 42
            "save" C.initial world0))
  = w_stderr world0
      +:+ console_line (strftime_HMS morning) LogLevel_Error "disk full" "x.c"
            42 "save".
Proof.
  split; [reflexivity|]. split; [cbn; lia|]. split; [lia|].
  apply (proj1 (log_stream_routing morning LogLevel_Error "disk full" "x.c" 42
                  "save") c_debug C.initial world0 eq_refl ltac:(cbn; lia)).
  lia.
Defined.


(** ** Writing to the sink *)

Lemma files_console_put (s : Stream) (t : string) (w : World) :
  w_files (console_put s t w) = w_files w /\
  w_disk (console_put s t w) = w_disk w.
Proof. now destruct s. Qed.

(** The stream and the disk after a record went to an open sink. *)
Lemma emitted_to_sink (evs : list SyncEvent) (h : FILE) (text t : string)
    (out : Stream) (w : World) (s : stream) :
  w_files w !! h = Some s ->
  let w' := with_sync evs (sink_write (Some h) text (console_put out t w)) in
  w_files w' !! h = Some {| s_path := s_path s; s_buf := "" |} /\
  on_disk (s_path s) w' = on_disk (s_path s) w +:+ s_buf s +:+ text.
Proof.
  intros E. cbv zeta. unfold on_disk at 1. cbn [with_sync w_files w_disk].
  destruct (files_console_put out t w) as (Hf & Hd).
  assert (w_files (console_put out t w) !! h = Some s) as E' by now rewrite Hf.
  destruct (sink_write_open h text _ s E') as (H1 & H2).
  rewrite H1, H2, !lookup_insert_eq. cbn [default].
  split; [reflexivity|]. unfold on_disk. now rewrite Hd.
Qed.

Lemma length_append (s t : string) :
  String.length (s +:+ t) = (String.length s + String.length t)%nat.
Proof.
  induction s as [|a s IH]; [reflexivity|].
  rewrite append_cons. cbn. now rewrite IH.
Qed.

Lemma good_sink_open (f : Cpp.ofstream) (h : FILE) :
  Cpp.of_file f = Some h -> Cpp.of_fail f = false -> good_sink f = Some h.
Proof. intros H1 H2. unfold good_sink. now rewrite H2. Qed.

(** An emitting call while the sink is an open stream: the stream ends
    with an empty buffer and the disk holds what was pending and the new
    line. *)
Lemma C_Log_sink (b : C.Build) now level message file line func st w
    (h : FILE) (s : stream) :
  C.DEBUG b = true -> C.currentLevel st <= level ->
  C.logFile st = Some h -> w_files w !! h = Some s ->
  let w' := snd (C.RELogger_Log b now level message file line func st w) in
  w_files w' !! h = Some {| s_path := s_path s; s_buf := "" |} /\
  on_disk (s_path s) w'
  = on_disk (s_path s) w +:+ s_buf s
      +:+ plain_line (strftime_HMS now) level message file line func +:+ NL.
Proof.
  intros Hb H Hh E. cbv zeta.
  rewrite C_Log_effect by assumption. cbn [snd]. rewrite Hh.
  now apply emitted_to_sink.
Qed.

Lemma Cpp_Log_sink (b : Cpp.Build) now level message file line func st w
    (h : FILE) (s : stream) :
  Cpp.NDEBUG b = false -> Cpp.currentLevel st <= level ->
  Cpp.of_file (Cpp.logFile st) = Some h ->
  Cpp.of_fail (Cpp.logFile st) = false -> w_files w !! h = Some s ->
  let w' := snd (Cpp.Log b now level message file line func st w) in
  w_files w' !! h = Some {| s_path := s_path s; s_buf := "" |} /\
  on_disk (s_path s) w'
  = on_disk (s_path s) w +:+ s_buf s
      +:+ plain_line (strftime_HMS now) level message file line func +:+ NL.
Proof.
  intros Hb H Hh Hg E. cbv zeta.
  rewrite Cpp_Log_effect by assumption. cbn [snd].
  rewrite (good_sink_open _ h Hh Hg).
  now apply emitted_to_sink.
Qed.

(** The same, as the text of the stream. *)
Lemma file_text_grows (h : FILE) (s : stream) (text : string) (w w' : World) :
  w_files w !! h = Some s ->
  w_files w' !! h = Some {| s_path := s_path s; s_buf := "" |} ->
  on_disk (s_path s) w' = on_disk (s_path s) w +:+ s_buf s +:+ text ->
  file_text h w' = file_text h w +:+ text.
Proof.
  intros E Hf Hd. unfold file_text. rewrite Hf, E. cbn [s_path s_buf].
  unfold on_disk in Hd. rewrite Hd.
  now rewrite append_nil_r, <- !append_assoc.
Qed.

(** ** What each entry point may change *)

Lemma appended_only_refl (w : World) : appended_only w w.
Proof.
  unfold appended_only.
  repeat split; try intros path; exists ""; now rewrite append_nil_r.
Qed.

Lemma appended_only_sync (evs : list SyncEvent) (w : World) :
  appended_only w (with_sync evs w).
Proof.
  unfold appended_only. cbn [with_sync w_stdout w_stderr].
  repeat split; try intros path; exists ""; now rewrite append_nil_r.
Qed.

Lemma on_disk_sink_write (sink : option FILE) (text : string) (w : World)
    (path : string) :
  exists t, on_disk path (sink_write sink text w) = on_disk path w +:+ t.
Proof.
  destruct sink as [h|]; [|exists ""; now rewrite append_nil_r].
  destruct (w_files w !! h) as [s|] eqn:E.
  - destruct (sink_write_open h text w s E) as (_ & Hd).
    unfold on_disk at 1. rewrite Hd.
    destruct (decide (s_path s = path)) as [<-|Hne].
    + rewrite lookup_insert_eq. cbn. now eexists.
    + rewrite lookup_insert_ne by assumption.
      exists "". now rewrite append_nil_r.
  - unfold sink_write, file_flush, file_put. rewrite E. cbn. rewrite E.
    exists "". now rewrite append_nil_r.
Qed.

Lemma appended_only_emitted (evs : list SyncEvent) (sink : option FILE)
    (text t : string) (out : Stream) (w : World) :
  appended_only w (with_sync evs (sink_write sink text (console_put out t w))).
Proof.
  destruct (sink_write_console sink text (console_put out t w))
    as (H1 & H2 & _).
  unfold appended_only. cbn [with_sync w_stdout w_stderr].
  rewrite H1, H2. repeat split.
  - destruct out; cbn; [now eexists | exists ""; now rewrite append_nil_r].
  - destruct out; cbn; [exists ""; now rewrite append_nil_r | now eexists].
  - intros path.
    destruct (on_disk_sink_write sink text (console_put out t w) path)
      as (u & Hu).
    exists u. unfold on_disk in *. cbn [with_sync w_disk]. rewrite Hu.
    now destruct out.
Qed.

Lemma C_Log_appends (b : C.Build) now level message file line func st w :
  appended_only w
    (snd (C.RELogger_Log b now level message file line func st w)).
Proof.
  destruct (C.DEBUG b) eqn:Hb.
  - destruct (Z.lt_ge_cases level (C.currentLevel st)) as [H|H].
    + rewrite C_Log_skipped, Hb by assumption.
      rewrite emit_with_sync. apply appended_only_sync.
    + rewrite C_Log_effect by assumption. apply appended_only_emitted.
  - rewrite C_Log_off by assumption. apply appended_only_refl.
Qed.

Lemma Cpp_Log_appends (b : Cpp.Build) now level message file line func st w :
  appended_only w (snd (Cpp.Log b now level message file line func st w)).
Proof.
  destruct (Cpp.NDEBUG b) eqn:Hb.
  - rewrite Cpp_Log_off by assumption. apply appended_only_refl.
  - destruct (Z.lt_ge_cases level (Cpp.currentLevel st)) as [H|H].
    + rewrite Cpp_Log_skipped, Hb by assumption.
      rewrite emit_with_sync. apply appended_only_sync.
    + rewrite Cpp_Log_effect by assumption. apply appended_only_emitted.
Qed.


(** C10. Log and GetLevel return the logger state they were given, for
    every input; Log only appends to the console streams and to the files
    on disk, and GetLevel returns the threshold; Init and Shutdown keep
    the threshold, SetLevel keeps the file sink and sets the threshold to
    its argument. *)
Theorem state_frame :
  (forall (b : C.Build) now level message file line func
          (p : option string) (st : C.State) (w : World),
     fst (C.RELogger_Log b now level message file line func st w) = st /\
     appended_only w
       (snd (C.RELogger_Log b now level message file line func st w)) /\
     C.RELogger_GetLevel st w = (C.currentLevel st, st, emit LevelRead w) /\
     C.currentLevel (fst (C.RELogger_Init b p st w)) = C.currentLevel st /\
     C.currentLevel (fst (C.RELogger_Shutdown b st w)) = C.currentLevel st /\
     C.logFile (fst (C.RELogger_SetLevel level st w)) = C.logFile st /\
     C.currentLevel (fst (C.RELogger_SetLevel level st w)) = level) /\
  (forall (b : Cpp.Build) now level message file line func
          (p : string) (st : Cpp.State) (w : World),
     fst (Cpp.Log b now level message file line func st w) = st /\
     appended_only w
       (snd (Cpp.Log b now level message file line func st w)) /\
     fst (Cpp.GetLevel st w) = (Cpp.currentLevel st, st) /\
     Cpp.currentLevel (fst (Cpp.Init p st w)) = Cpp.currentLevel st /\
     Cpp.currentLevel (fst (Cpp.Shutdown st w)) = Cpp.currentLevel st /\
     Cpp.logFile (fst (Cpp.SetLevel level st w)) = Cpp.logFile st /\
     Cpp.currentLevel (fst (Cpp.SetLevel level st w)) = level).
Proof.
  split.
  - intros b now level message file line func p st w.
    split; [apply C_Log_state|]. split; [apply C_Log_appends|].
    split; [reflexivity|].
    split; [|split; [|split; reflexivity]].
    + unfold C.RELogger_Init.
      destruct p as [path|]; [|reflexivity].
      destruct (0 <? String.length path)%nat; [|reflexivity].
      destruct (file_open path (C.INIT_MUTEX b w)) as [[h|err msg] w'];
        reflexivity.
    + unfold C.RELogger_Shutdown.
      destruct (C.logFile st); cbn [C.mutexInitialized];
        destruct (C.mutexInitialized st); reflexivity.
  - intros b now level message file line func p st w.
    split; [apply Cpp_Log_state|]. split; [apply Cpp_Log_appends|].
    split; [reflexivity|].
    split; [|split; [|split; reflexivity]].
    + unfold Cpp.Init, Cpp.ofstream_open.
      destruct (0 <? String.length p)%nat; [|reflexivity].
      destruct (Cpp.of_file (Cpp.logFile st)); [reflexivity|].
      destruct (file_open p (emit Lock w)) as [[h|err msg] w']; reflexivity.
    + unfold Cpp.Shutdown.
      destruct (Cpp.is_open (Cpp.logFile st)); [|reflexivity].
      unfold Cpp.ofstream_close.
      destruct (Cpp.of_file (Cpp.logFile st)); reflexivity.
Qed.

(** ** Shutdown *)

(** After Shutdown the C variant has no sink and no initialised mutex. *)
Lemma C_Shutdown_state (b : C.Build) (st : C.State) (w : World) :
  fst (C.RELogger_Shutdown b st w)
  = {| C.logFile := None; C.currentLevel := C.currentLevel st;
       C.mutexInitialized := false |}.
Proof.
  unfold C.RELogger_Shutdown.
  destruct st as [[h|] lvl [|]]; reflexivity.
Qed.

Lemma C_Shutdown_again (b : C.Build) (st : C.State) (w : World) :
  C.logFile st = None -> C.mutexInitialized st = false ->
  C.RELogger_Shutdown b st w = (st, w).
Proof.
  intros H1 H2. unfold C.RELogger_Shutdown. rewrite H1, H2. reflexivity.
Qed.

Lemma Cpp_Shutdown_closed (st : Cpp.State) (w : World) :
  Cpp.is_open (Cpp.logFile st) = false ->
  Cpp.Shutdown st w = (st, emit Unlock (emit Lock w)).
Proof. intros H. unfold Cpp.Shutdown. rewrite H. reflexivity. Qed.

Lemma Cpp_Shutdown_is_closed (st : Cpp.State) (w : World) :
  Cpp.is_open (Cpp.logFile (fst (Cpp.Shutdown st w))) = false.
Proof.
  unfold Cpp.Shutdown, Cpp.is_open, Cpp.ofstream_close.
  destruct (Cpp.of_file (Cpp.logFile st)) eqn:E; cbn; [reflexivity|].
  now rewrite E.
Qed.

(** C6. After any Shutdown the file sink is absent. A second
    Shutdown after a first one changes nothing: in the C variant neither
    the state nor the world, in the C++ variant neither the state nor any
    output (it takes and releases the lock). A Shutdown while no sink is
    open leaves threshold, sink and all output as they were; the C++
    state is unchanged, while the C variant, if Init ran before, destroys
    the mutex and clears its flag. *)
Theorem shutdown_idempotent :
  (forall (b : C.Build) (st : C.State) (w : World),
     let r := C.RELogger_Shutdown b st w in
     C.logFile (fst r) = None /\
     C.RELogger_Shutdown b (fst r) (snd r) = r /\
     (C.logFile st = None ->
      C.currentLevel (fst r) = C.currentLevel st /\ same_io w (snd r) /\
      (C.mutexInitialized st = false -> r = (st, w)))) /\
  (forall (st : Cpp.State) (w : World),
     let r := Cpp.Shutdown st w in
     Cpp.is_open (Cpp.logFile (fst r)) = false /\
     fst (Cpp.Shutdown (fst r) (snd r)) = fst r /\
     same_io (snd r) (snd (Cpp.Shutdown (fst r) (snd r))) /\
     (Cpp.is_open (Cpp.logFile st) = false ->
      fst r = st /\ same_io w (snd r))).
Proof.
  split.
  - intros b st w. cbv zeta.
    pose proof (C_Shutdown_state b st w) as Hst.
    split; [now rewrite Hst|]. split.
    + rewrite C_Shutdown_again by now rewrite Hst.
      now destruct (C.RELogger_Shutdown b st w).
    + intros Hnone. split; [now rewrite Hst|]. split.
      * unfold C.RELogger_Shutdown. rewrite Hnone.
        destruct (C.mutexInitialized st); cbn [snd].
        -- rewrite C_DESTROY_MUTEX_sync. reflexivity.
        -- apply same_io_refl.
      * intros Hm. now apply C_Shutdown_again.
  - intros st w. cbv zeta.
    pose proof (Cpp_Shutdown_is_closed st w) as Hc.
    split; [assumption|].
    rewrite (Cpp_Shutdown_closed _ (snd (Cpp.Shutdown st w)) Hc). cbn [fst snd].
    split; [reflexivity|]. split; [reflexivity|].
    intros Hn. rewrite (Cpp_Shutdown_closed st w Hn).
    split; reflexivity.
Qed.

Lemma shutdown_idempotent_witness :
  C.logFile C.initial = None /\ C.mutexInitialized C.initial = false /\
  C.RELogger_Shutdown c_debug C.initial world0 = (C.initial, world0).
Proof.
  split; [reflexivity|]. split; [reflexivity|].
  apply (proj1 shutdown_idempotent c_debug C.initial world0);
    reflexivity.
Defined.

(** C6 in the C variant after Init without a path: no sink is open, yet
    Shutdown changes the state (the mutex flag) and destroys the mutex. *)
Lemma shutdown_without_sink_is_no_noop :
  let r := C.RELogger_Init c_debug None C.initial world0 in
  let r' := C.RELogger_Shutdown c_debug (fst r) (snd r) in
  C.logFile (fst r) = None /\ fst r' <> fst r /\
  new_sync (snd r) (snd r') = [MutexDestroy].
Proof.
  cbv zeta. split; [reflexivity|]. split; [|reflexivity].
  intros H. apply (f_equal C.mutexInitialized) in H. discriminate H.
Qed.

(** ** Locking around the threshold *)

(** C9. The C++ variant's SetLevel writes the threshold and
    its GetLevel reads it between acquiring and releasing the lock. The C
    variant's SetLevel and GetLevel access the threshold without touching
    the lock. *)
Theorem level_access_locking :
  (forall (level : LogLevel) (st : Cpp.State) (w : World),
     w_sync (snd (Cpp.SetLevel level st w))
     = w_sync w ++ [Lock; LevelWrite level; Unlock] /\
     guarded false (new_sync w (snd (Cpp.SetLevel level st w))) = true) /\
  (forall (st : Cpp.State) (w : World),
     fst (Cpp.GetLevel st w) = (Cpp.currentLevel st, st) /\
     w_sync (snd (Cpp.GetLevel st w)) = w_sync w ++ [Lock; LevelRead; Unlock] /\
     guarded false (new_sync w (snd (Cpp.GetLevel st w))) = true) /\
  (forall (level : LogLevel) (st : C.State) (w : World),
     w_sync (snd (C.RELogger_SetLevel level st w))
     = w_sync w ++ [LevelWrite level]) /\
  (forall (st : C.State) (w : World),
     fst (C.RELogger_GetLevel st w) = (C.currentLevel st, st) /\
     w_sync (snd (C.RELogger_GetLevel st w)) = w_sync w ++ [LevelRead]).
Proof.
  split; [|split; [|split]].
  - intros level st w.
    assert (w_sync (snd (Cpp.SetLevel level st w))
            = w_sync w ++ [Lock; LevelWrite level; Unlock]) as E.
    { cbn. now rewrite <- !app_assoc. }
    split; [exact E|].
    unfold new_sync. now rewrite E, drop_app_length.
  - intros st w.
    assert (w_sync (snd (Cpp.GetLevel st w))
            = w_sync w ++ [Lock; LevelRead; Unlock]) as E.
    { cbn. now rewrite <- !app_assoc. }
    split; [reflexivity|]. split; [exact E|].
    unfold new_sync. now rewrite E, drop_app_length.
  - reflexivity.
  - intros st w. split; reflexivity.
Qed.

(** C9 in the C variant: SetLevel writes the threshold, and GetLevel
    reads it, with the lock not held. *)
Lemma C_level_access_unlocked :
  let set := C.RELogger_SetLevel LogLevel_Warn C.initial world0 in
  let get := C.RELogger_GetLevel (fst set) (snd set) in
  new_sync world0 (snd set) = [LevelWrite LogLevel_Warn] /\
  guarded false (new_sync world0 (snd set)) = false /\
  new_sync (snd set) (snd get) = [LevelRead] /\
  guarded false (new_sync (snd set) (snd get)) = false.
Proof. cbv zeta. repeat split; reflexivity. Qed.

(** ** Init with a path that cannot be opened *)

Lemma C_Init_denied (b : C.Build) (path : string) (err : Z) (msg : string)
    (st : C.State) (w : World) :
  (0 < String.length path)%nat -> w_deny w path = Some (err, msg) ->
  C.RELogger_Init b (Some path) st w
  = ({| C.logFile := None; C.currentLevel := C.currentLevel st;
        C.mutexInitialized := true |},
     console_put Stderr (C.open_warning b path err msg) (C.INIT_MUTEX b w)).
Proof.
  intros Hlen Hdeny. unfold C.RELogger_Init.
  apply Nat.ltb_lt in Hlen. rewrite Hlen.
  rewrite C_INIT_MUTEX_sync. unfold file_open. cbn [with_sync w_deny].
  rewrite Hdeny. reflexivity.
Qed.

(** The text [std::cerr] receives when the C++ variant cannot open the
    file. *)
Lemma Cpp_Init_denied (path : string) (err : Z) (msg : string)
    (st : Cpp.State) (w : World) :
  (0 < String.length path)%nat -> w_deny w path = Some (err, msg) ->
  Cpp.of_file (Cpp.logFile st) = None ->
  Cpp.Init path st w
  = ({| Cpp.logFile := {| Cpp.of_file := None; Cpp.of_fail := true |};
        Cpp.currentLevel := Cpp.currentLevel st |},
     emit Unlock
       (console_put Stderr
          (ESC +:+ "[31m[LOGGER ERROR] Failed to open log file: " +:+ path
             +:+ ESC +:+ "[0m" +:+ NL)
          (emit Lock w))).
Proof.
  intros Hlen Hdeny Hclosed. unfold Cpp.Init, Cpp.ofstream_open.
  apply Nat.ltb_lt in Hlen. rewrite Hlen, Hclosed.
  unfold file_open. cbn [emit w_deny]. rewrite Hdeny.
  cbn [Cpp.of_fail]. rewrite console_puts_cons.
  cbn [join fold_right]. rewrite append_nil_r, !append_assoc. reflexivity.
Qed.

(** C7. Init with a non-empty path that cannot be opened writes a
    warning naming the path to stderr, changes nothing else of the output,
    leaves the file sink absent and keeps the threshold; whatever calls
    follow, every later Log call at or above the threshold of its moment
    still appends its console line. For the C++ variant the stream is not
    open when Init is called. *)
Theorem init_failure_degrades (path : string) (err : Z) (msg : string)
    (w : World) :
  (0 < String.length path)%nat -> w_deny w path = Some (err, msg) ->
  (forall (b : C.Build) (st : C.State),
     let r := C.RELogger_Init b (Some path) st w in
     C.logFile (fst r) = None /\
     C.currentLevel (fst r) = C.currentLevel st /\
     w_stderr (snd r)
     = w_stderr w +:+ "Warning: Could not open log file '" +:+ path
         +:+ "' (error: " +:+ (if C.MSC_VER b then dec err else msg) +:+ ")"
         +:+ NL /\
     w_stdout (snd r) = w_stdout w /\ w_files (snd r) = w_files w /\
     w_disk (snd r) = w_disk w /\
     forall ops now level message file line func,
       let r' := C_run b ops r in
       C.DEBUG b = true -> C.currentLevel (fst r') <= level ->
       console (route level)
         (snd (C.RELogger_Log b now level message file line func
                 (fst r') (snd r')))
       = console (route level) (snd r')
           +:+ console_line (strftime_HMS now) level message file line func) /\
  (forall (b : Cpp.Build) (st : Cpp.State),
     Cpp.of_file (Cpp.logFile st) = None ->
     let r := Cpp.Init path st w in
     Cpp.is_open (Cpp.logFile (fst r)) = false /\
     Cpp.currentLevel (fst r) = Cpp.currentLevel st /\
     w_stderr (snd r)
     = w_stderr w +:+ ESC +:+ "[31m[LOGGER ERROR] Failed to open log file: "
         +:+ path +:+ ESC +:+ "[0m" +:+ NL /\
     w_stdout (snd r) = w_stdout w /\ w_files (snd r) = w_files w /\
     w_disk (snd r) = w_disk w /\
     forall ops now level message file line func,
       let r' := Cpp_run b ops r in
       Cpp.NDEBUG b = false -> Cpp.currentLevel (fst r') <= level ->
       console (route level)
         (snd (Cpp.Log b now level message file line func (fst r') (snd r')))
       = console (route level) (snd r')
           +:+ console_line (strftime_HMS now) level message file line func).
Proof.
  intros Hlen Hdeny. split.
  - intros b st. cbv zeta.
    rewrite (C_Init_denied b path err msg st w Hlen Hdeny).
    rewrite C_INIT_MUTEX_sync. cbn [fst snd].
    repeat split.
    intros ops now level message file line func Hb H.
    rewrite C_Log_console by assumption. now rewrite decide_True.
  - intros b st Hclosed. cbv zeta.
    rewrite (Cpp_Init_denied path err msg st w Hlen Hdeny Hclosed).
    cbn [fst snd].
    repeat split.
    intros ops now level message file line func Hb H.
    rewrite Cpp_Log_console by assumption. now rewrite decide_True.
Qed.

Lemma init_failure_degrades_witness :
  let r := C.RELogger_Init c_debug (Some "/proc/app.log"%string) C.initial
             world0 in
  let r' := Cpp.Init "/proc/app.log" Cpp.initial world0 in
  (0 < String.length "/proc/app.log")%nat /\
  w_deny world0 "/proc/app.log" = Some (13, "Permission denied"%string) /\
  Cpp.of_file (Cpp.logFile Cpp.initial) = None /\
  C.logFile (fst r) = None /\
  w_stderr (snd r)
  = "Warning: Could not open log file '/proc/app.log' (error: Permission denied)"
      +:+ NL /\
  Cpp.is_open (Cpp.logFile (fst r')) = false.
Proof.
  cbv zeta. split; [cbn; lia|]. split; [reflexivity|]. split; [reflexivity|].
  pose proof (init_failure_degrades "/proc/app.log" 13 "Permission denied"
                world0 ltac:(cbn; lia) eq_refl) as (HC & HCpp).
  specialize (HC c_debug C.initial).
  specialize (HCpp cpp_debug Cpp.initial eq_refl).
  cbv zeta in HC, HCpp.
  split; [apply HC|]. split; [apply HC | apply HCpp].
Defined.

(** ** The two variants side by side *)

(** Moves the mutex and threshold events of a world to its outside. *)
Ltac sync_out :=
  repeat first
    [ rewrite emit_with_sync | rewrite C_LOCK_MUTEX_sync
    | rewrite C_UNLOCK_MUTEX_sync | rewrite C_DESTROY_MUTEX_sync
    | rewrite C_INIT_MUTEX_sync | rewrite console_put_with_sync
    | rewrite file_flush_with_sync | rewrite file_close_with_sync
    | rewrite sink_write_with_sync ].

(** Two worlds built by the same input and output from one world. *)
Ltac same_io_tac := sync_out; unfold same_io; reflexivity.

Lemma same_logger_sink (c : C.State) (p : Cpp.State) :
  same_logger c p -> good_sink (Cpp.logFile p) = C.logFile c.
Proof.
  intros (_ & Hf & Hg). unfold good_sink, Cpp.is_open in *. rewrite Hf.
  destruct (Cpp.of_file (Cpp.logFile p)), (Cpp.of_fail (Cpp.logFile p));
    try reflexivity.
  now specialize (Hg eq_refl).
Qed.

Lemma agree_SetLevel (level : LogLevel) c p w w' :
  same_logger c p -> same_io w w' ->
  agree (C.RELogger_SetLevel level c w) (Cpp.SetLevel level p w').
Proof.
  intros (Hl & Hf & Hg) Hio. rewrite Hio. split; [|reflexivity].
  now repeat split.
Qed.

Lemma agree_Shutdown (b : C.Build) c p w w' :
  same_logger c p -> same_io w w' ->
  agree (C.RELogger_Shutdown b c w) (Cpp.Shutdown p w').
Proof.
  intros (Hl & Hf & Hg) Hio. rewrite Hio.
  unfold agree, same_logger.
  rewrite C_Shutdown_state, Cpp_Shutdown_is_closed. cbn [C.currentLevel C.logFile].
  unfold C.RELogger_Shutdown, Cpp.Shutdown, Cpp.is_open, Cpp.ofstream_close,
    Cpp.ofstream_flush in *.
  rewrite Hf.
  destruct (Cpp.of_file (Cpp.logFile p)) as [h|] eqn:E.
  - rewrite (Hg eq_refl). cbn [C.mutexInitialized fst snd Cpp.currentLevel
                                 Cpp.logFile Cpp.of_file].
    repeat split; try assumption; try discriminate.
    destruct (C.mutexInitialized c); cbn [snd]; same_io_tac.
  - cbn [fst snd]. rewrite E.
    repeat split; try assumption; try discriminate.
    destruct (C.mutexInitialized c); cbn [snd]; same_io_tac.
Qed.

Lemma agree_Log (b : C.Build) (b' : Cpp.Build) now level message file line
    func c p w w' :
  same_gate b b' -> same_logger c p -> same_io w w' ->
  agree (C.RELogger_Log b now level message file line func c w)
    (Cpp.Log b' now level message file line func p w').
Proof.
  intros Hgate Hsame Hio. rewrite Hio.
  pose proof (same_logger_sink c p Hsame) as Hsink.
  destruct Hsame as (Hl & Hf & Hg). unfold same_gate in Hgate.
  destruct (Cpp.NDEBUG b') eqn:Hb'; cbn [negb] in Hgate.
  - rewrite C_Log_off, Cpp_Log_off by assumption.
    split; [now repeat split | reflexivity].
  - destruct (Z.lt_ge_cases level (C.currentLevel c)) as [H|H].
    + rewrite C_Log_skipped, Cpp_Log_skipped, Hgate, Hb' by congruence.
      split; [now repeat split | reflexivity].
    + rewrite C_Log_effect, Cpp_Log_effect, Hsink by congruence.
      split; [now repeat split|]. cbn [snd]. same_io_tac.
Qed.

Lemma agree_Init_opened (b : C.Build) (path : string) c p w w' :
  same_logger c p -> same_io w w' -> C.logFile c = None ->
  w_deny w path = None ->
  agree (C.RELogger_Init b (Some path) c w) (Cpp.Init path p w').
Proof.
  intros (Hl & Hf & Hg) Hio Hnone Hopen. rewrite Hio.
  rewrite Hnone in Hf. symmetry in Hf.
  unfold C.RELogger_Init, Cpp.Init, Cpp.ofstream_open.
  rewrite Hf, C_INIT_MUTEX_sync.
  destruct (0 <? String.length path)%nat.
  - unfold file_open. cbn [with_sync emit w_deny]. rewrite Hopen.
    cbn [Cpp.of_fail]. split; [|reflexivity].
    repeat split; try assumption.
  - split; [|reflexivity]. repeat split; try assumption.
    cbn. now rewrite Hnone, Hf.
Qed.

Lemma agree_Init_no_path (b : C.Build) c p w w' :
  same_logger c p -> same_io w w' ->
  agree (C.RELogger_Init b None c w) (Cpp.Init "" p w').
Proof.
  intros (Hl & Hf & Hg) Hio. rewrite Hio.
  unfold C.RELogger_Init, Cpp.Init. rewrite C_INIT_MUTEX_sync. cbn.
  split; [|reflexivity]. now repeat split.
Qed.

Lemma agree_Init_empty (b : C.Build) c p w w' :
  same_logger c p -> same_io w w' ->
  agree (C.RELogger_Init b (Some ""%string) c w) (Cpp.Init "" p w').
Proof.
  intros (Hl & Hf & Hg) Hio. rewrite Hio.
  unfold C.RELogger_Init, Cpp.Init. rewrite C_INIT_MUTEX_sync. cbn.
  split; [|reflexivity]. now repeat split.
Qed.

Lemma agree_GetLevel c p w w' :
  same_logger c p -> same_io w w' ->
  fst (fst (C.RELogger_GetLevel c w)) = fst (fst (Cpp.GetLevel p w')) /\
  agree (snd (fst (C.RELogger_GetLevel c w)), snd (C.RELogger_GetLevel c w))
    (snd (fst (Cpp.GetLevel p w')), snd (Cpp.GetLevel p w')).
Proof.
  intros Hsame Hio. rewrite Hio. split; [apply Hsame|].
  split; [exact Hsame | reflexivity].
Qed.

(** C3. From states that stand for the same logger (same
    threshold, same file sink, the C++ stream good while open), in worlds
    with the same console, files and disk, and with the body of Log
    compiled into both variants or into neither, the two variants leave
    states that again stand for the same logger and the same console,
    files and disk after SetLevel, GetLevel (which also returns the same
    value), Shutdown, Log, Init without a path, and Init with a path that
    can be opened while no sink is open. When the path cannot be opened,
    both leave the sink absent and write one warning to stderr, each
    variant its own text. The variants differ in their use of the mutex,
    which this comparison leaves out. *)
Theorem variants_agree (b : C.Build) (b' : Cpp.Build) (c : C.State)
    (p : Cpp.State) (w w' : World) :
  same_gate b b' -> same_logger c p -> same_io w w' ->
  (forall level,
     agree (C.RELogger_SetLevel level c w) (Cpp.SetLevel level p w')) /\
  (fst (fst (C.RELogger_GetLevel c w)) = fst (fst (Cpp.GetLevel p w')) /\
   agree (snd (fst (C.RELogger_GetLevel c w)), snd (C.RELogger_GetLevel c w))
     (snd (fst (Cpp.GetLevel p w')), snd (Cpp.GetLevel p w'))) /\
  agree (C.RELogger_Shutdown b c w) (Cpp.Shutdown p w') /\
  (forall now level message file line func,
     agree (C.RELogger_Log b now level message file line func c w)
       (Cpp.Log b' now level message file line func p w')) /\
  agree (C.RELogger_Init b None c w) (Cpp.Init "" p w') /\
  agree (C.RELogger_Init b (Some ""%string) c w) (Cpp.Init "" p w') /\
  (forall path,
     C.logFile c = None -> w_deny w path = None ->
     agree (C.RELogger_Init b (Some path) c w) (Cpp.Init path p w')) /\
  (forall path err msg,
     (0 < String.length path)%nat -> C.logFile c = None ->
     w_deny w path = Some (err, msg) ->
     let rc := C.RELogger_Init b (Some path) c w in
     let rp := Cpp.Init path p w' in
     same_logger (fst rc) (fst rp) /\
     w_stdout (snd rp) = w_stdout (snd rc) /\
     w_files (snd rp) = w_files (snd rc) /\
     w_disk (snd rp) = w_disk (snd rc) /\
     w_stderr (snd rc)
     = w_stderr w +:+ "Warning: Could not open log file '" +:+ path
         +:+ "' (error: " +:+ (if C.MSC_VER b then dec err else msg) +:+ ")"
         +:+ NL /\
     w_stderr (snd rp)
     = w_stderr w +:+ ESC +:+ "[31m[LOGGER ERROR] Failed to open log file: "
         +:+ path +:+ ESC +:+ "[0m" +:+ NL).
Proof.
  intros Hgate Hsame Hio.
  split; [intros; now apply agree_SetLevel|].
  split; [now apply agree_GetLevel|].
  split; [now apply agree_Shutdown|].
  split; [intros; now apply agree_Log|].
  split; [now apply agree_Init_no_path|].
  split; [now apply agree_Init_empty|].
  split; [intros; now apply agree_Init_opened|].
  intros path err msg Hlen Hnone Hdeny. cbv zeta.
  destruct Hsame as (Hl & Hf & Hg). rewrite Hnone in Hf. symmetry in Hf.
  rewrite Hio.
  rewrite (C_Init_denied b path err msg c w Hlen Hdeny).
  rewrite (Cpp_Init_denied path err msg p (with_sync (w_sync w') w) Hlen
             Hdeny Hf).
  rewrite C_INIT_MUTEX_sync. cbn [fst snd].
  repeat split; try assumption. discriminate.
Qed.

Lemma variants_agree_witness :
  same_gate c_debug cpp_debug /\ same_logger C.initial Cpp.initial /\
  same_io world0 world0 /\
  agree
    (C.RELogger_Log c_debug morning LogLevel_Info "ready" "main.c" 7 "main"
       C.initial world0)
    (Cpp.Log cpp_debug morning LogLevel_Info "ready" "main.c" 7 "main"
       Cpp.initial world0).
Proof.
  assert (same_gate c_debug cpp_debug) as Hgate by reflexivity.
  assert (same_logger C.initial Cpp.initial) as Hsame
    by (repeat split; discriminate).
  assert (same_io world0 world0) as Hio by reflexivity.
  split; [exact Hgate|]. split; [exact Hsame|]. split; [exact Hio|].
  apply (variants_agree c_debug cpp_debug C.initial Cpp.initial world0 world0
           Hgate Hsame Hio).
Defined.

(** C3 at Init with a path that cannot be opened: from the initial
    states, which stand for the same logger, the two variants write
    different text to stderr. *)
Lemma init_warnings_differ :
  let rc := C.RELogger_Init c_debug (Some "/proc/app.log"%string) C.initial
              world0 in
  let rp := Cpp.Init "/proc/app.log" Cpp.initial world0 in
  same_logger C.initial Cpp.initial /\
  w_stderr (snd rc)
  = "Warning: Could not open log file '/proc/app.log' (error: Permission denied)"
      +:+ NL /\
  w_stderr (snd rp)
  = ESC +:+ "[31m[LOGGER ERROR] Failed to open log file: /proc/app.log"
      +:+ ESC +:+ "[0m" +:+ NL /\
  w_stderr (snd rc) <> w_stderr (snd rp).
Proof.
  cbv zeta. split; [repeat split; discriminate|].
  split; [reflexivity|]. split; [reflexivity|].
  intros H. vm_compute in H. discriminate H.
Qed.

(** ** Reachable states *)

Lemma sink_ready_none (w : World) : sink_ready None w.
Proof. intros h H. discriminate H. Qed.

Lemma sink_ready_sync (sink : option FILE) (evs : list SyncEvent) (w : World) :
  sink_ready sink w -> sink_ready sink (with_sync evs w).
Proof. intros H h Hh. exact (H h Hh). Qed.

Lemma sink_ready_emitted (sink : option FILE) (evs : list SyncEvent)
    (text t : string) (out : Stream) (w : World) :
  sink_ready sink w ->
  sink_ready sink
    (with_sync evs (sink_write sink text (console_put out t w))).
Proof.
  intros H h ->. destruct (H h eq_refl) as (path & E).
  destruct (emitted_to_sink evs h text t out w _ E) as (Hf & _).
  now exists path.
Qed.

Lemma sink_ready_opened (path : string) (w : World) (h : FILE) (w' : World) :
  file_open path w = (Opened h, w') -> sink_ready (Some h) w'.
Proof.
  unfold file_open. destruct (w_deny w path) as [[err msg]|]; [discriminate|].
  intros [= <- <-] h' [= <-]. exists path. cbn. now rewrite lookup_insert_eq.
Qed.

Lemma C_wf_step (b : C.Build) (op : Op (option string)) (r : C.State * World) :
  C_wf r -> C_wf (C_step b op r).
Proof.
  destruct r as [st w]. unfold C_wf. cbn [fst snd]. intros H.
  destruct op as [p| |l| |now l m f n g]; cbn [C_step fst snd].
  - unfold C.RELogger_Init. rewrite C_INIT_MUTEX_sync.
    destruct p as [path|]; [|now apply sink_ready_sync].
    destruct (0 <? String.length path)%nat; [|now apply sink_ready_sync].
    destruct (file_open path _) as [[h|err msg] w'] eqn:E; cbn [fst snd].
    + eapply sink_ready_opened, E.
    + apply sink_ready_none.
  - rewrite C_Shutdown_state. apply sink_ready_none.
  - exact H.
  - exact H.
  - rewrite C_Log_state.
    destruct (C.DEBUG b) eqn:Hb; [|now rewrite C_Log_off].
    destruct (Z.lt_ge_cases l (C.currentLevel st)) as [Hl|Hl].
    + rewrite C_Log_skipped, Hb by assumption. exact H.
    + rewrite C_Log_effect by assumption. now apply sink_ready_emitted.
Qed.

(** Whatever the C variant is asked to do, its sink stays a flushed open
    stream. *)
Lemma C_wf_run (b : C.Build) (ops : list (Op (option string)))
    (r : C.State * World) :
  C_wf r -> C_wf (C_run b ops r).
Proof.
  revert r. induction ops as [|op ops IH]; intros r H; [exact H|].
  apply IH, C_wf_step, H.
Qed.

Lemma C_wf_initial (w : World) : C_wf (C.initial, w).
Proof. apply sink_ready_none. Qed.

Lemma Cpp_wf_step (b : Cpp.Build) (op : Op string) (r : Cpp.State * World) :
  Cpp_wf r ->
  match op with
  | OInit _ => Cpp.is_open (Cpp.logFile (fst r)) = false
  | _ => True
  end ->
  Cpp_wf (Cpp_step b op r).
Proof.
  destruct r as [st w]. unfold Cpp_wf. cbn [fst snd]. intros (H & Hg) Hp.
  destruct op as [p| |l| |now l m f n g]; cbn [Cpp_step fst snd].
  - unfold Cpp.Init, Cpp.ofstream_open. unfold Cpp.is_open in Hp.
    destruct (0 <? String.length p)%nat; [|now split].
    destruct (Cpp.of_file (Cpp.logFile st)); [discriminate Hp|].
    rewrite emit_with_sync.
    destruct (file_open p _) as [[h|err msg] w'] eqn:E;
      cbn [fst snd Cpp.of_fail Cpp.logFile Cpp.of_file].
    + split; [|reflexivity].
      apply (sink_ready_sync _ _ w'). eapply sink_ready_opened, E.
    + split; [apply sink_ready_none | discriminate].
  - pose proof (Cpp_Shutdown_is_closed st w) as Hc.
    split; [|now rewrite Hc].
    unfold Cpp.is_open in Hc.
    destruct (Cpp.of_file (Cpp.logFile (fst (Cpp.Shutdown st w))));
      [discriminate Hc | apply sink_ready_none].
  - now split.
  - now split.
  - rewrite Cpp_Log_state. split; [|exact Hg].
    destruct (Cpp.NDEBUG b) eqn:Hb; [now rewrite Cpp_Log_off|].
    destruct (Z.lt_ge_cases l (Cpp.currentLevel st)) as [Hl|Hl].
    + rewrite Cpp_Log_skipped, Hb by assumption. exact H.
    + rewrite Cpp_Log_effect by assumption. cbn [snd].
      unfold good_sink, Cpp.is_open in *.
      destruct (Cpp.of_file (Cpp.logFile st)) as [h|].
      * rewrite (Hg eq_refl). now apply sink_ready_emitted.
      * apply sink_ready_sync.
        destruct (Cpp.of_fail (Cpp.logFile st)); cbn [sink_write];
          intros h' Hh'; discriminate Hh'.
Qed.

(** As long as Init is not called on an open sink, the C++ variant's
    sink stays a flushed open stream in a good state. *)
Lemma Cpp_wf_run (b : Cpp.Build) (ops : list (Op string))
    (r : Cpp.State * World) :
  Cpp_wf r -> Cpp_protocol b ops r -> Cpp_wf (Cpp_run b ops r).
Proof.
  revert r. induction ops as [|op ops IH]; intros r H Hp; [exact H|].
  destruct Hp as (H1 & H2). apply IH; [|exact H2].
  now apply Cpp_wf_step.
Qed.

Lemma Cpp_wf_initial (w : World) : Cpp_wf (Cpp.initial, w).
Proof. split; [apply sink_ready_none | discriminate]. Qed.

(** ** The fields of a line *)

Lemma digit_value_digit (d : Z) :
  0 <= d <= 9 ->
  digit_value (Ascii.ascii_of_nat (48 + Z.to_nat d)) = Some d.
Proof.
  intros H.
  assert (d = 0 \/ d = 1 \/ d = 2 \/ d = 3 \/ d = 4 \/ d = 5 \/ d = 6
          \/ d = 7 \/ d = 8 \/ d = 9) as Hd by lia.
  repeat (destruct Hd as [-> | Hd]; [reflexivity|]). now subst.
Qed.

Lemma two_digits_chars (n : Z) :
  two_digits n
  = String (Ascii.ascii_of_nat (48 + Z.to_nat (n / 10)))
      (String (Ascii.ascii_of_nat (48 + Z.to_nat (n mod 10))) EmptyString).
Proof. reflexivity. Qed.

Lemma two_digits_bounds (n : Z) :
  0 <= n <= 99 -> 0 <= n / 10 <= 9 /\ 0 <= n mod 10 <= 9.
Proof.
  intros H. split.
  - pose proof (Z.div_pos n 10). pose proof (Z.div_lt_upper_bound n 10 10).
    lia.
  - pose proof (Z.mod_pos_bound n 10). lia.
Qed.

(** The time of a record can be read back from its stamp. *)
Lemma parse_strftime (t : tm) :
  tm_valid t -> parse_HMS (strftime_HMS t) = Some t.
Proof.
  intros (Hh & Hm & Hs). destruct t as [h m s]. cbn [tm_hour tm_min tm_sec] in *.
  destruct (two_digits_bounds h) as (Hh1 & Hh2); [lia|].
  destruct (two_digits_bounds m) as (Hm1 & Hm2); [lia|].
  destruct (two_digits_bounds s) as (Hs1 & Hs2); [lia|].
  unfold strftime_HMS. cbn [tm_hour tm_min tm_sec].
  rewrite !two_digits_chars.
  cbv beta iota fix delta [String.append].
  cbn [parse_HMS].
  match goal with
  | |- context [Ascii.eqb ?c (Ascii.ascii_of_nat 58)] =>
      change (Ascii.eqb c (Ascii.ascii_of_nat 58)) with true
  end.
  cbn [andb].
  rewrite !digit_value_digit by assumption.
  do 2 f_equal; symmetry; apply Z.div_mod; lia.
Qed.

(** The line number of a record can be read back from its digits. *)
Lemma parse_dec_dec (n : Z) : parse_dec (dec n) = Some n.
Proof.
  unfold parse_dec, dec. pose proof (DecimalZ.of_to n) as H.
  destruct (Z.to_int n) as [u|u];
    destruct u;
    try (rewrite NilZero.isi by discriminate; cbn [option_map];
         now rewrite H);
    cbn in H; subst n; reflexivity.
Qed.

(** Runs that call Init at most once, at their start from the initial
    state, keep Init's precondition. *)
Lemma Cpp_protocol_steady (b : Cpp.Build) (ops : list (Op string))
    (r : Cpp.State * World) :
  forallb steady ops = true -> Cpp_protocol b ops r.
Proof.
  revert r. induction ops as [|op ops IH]; intros r Hs; [exact I|].
  cbn [forallb] in Hs. apply andb_true_iff in Hs as (Hop & Hs).
  split; [|now apply IH].
  now destruct op.
Qed.

Lemma has_esc_ESC (a b : string) : has_esc (a +:+ ESC +:+ b) = true.
Proof.
  rewrite !has_esc_append. change (has_esc ESC) with true.
  now rewrite orb_true_r.
Qed.

(** ** The file sink *)

Section FileSink.

Context (now : tm) (level : LogLevel) (message file : string) (line : Z)
  (func : string).

(** C2. In every state the logger reaches from its initial state, a Log
    call that passes the filter while a file sink is open appends to the
    file stream exactly the line
    [[HH:MM:SS] LEVELNAME file:line (func) - message] and a newline.
    LEVELNAME is TRACE, DEBUG, INFO, WARN, ERROR or FATAL by severity
    (UNKNOWN for any other value, 6 and -1 among them); HH:MM:SS is eight
    characters from which the hour, minute and second of the call are read
    back, 09:05:30 for that time of day; the line number is in decimal and
    reads back as the number; the newline is the character 10; no ESC
    byte, which every color sequence has, is in the line unless the
    caller's own strings bring one. For Error, "disk full", "x.c", 42 and
    "save" the line is, after the time, [ERROR x.c:42 (save) - disk full],
    and at 09:05:30 the file then holds
    [[09:05:30] ERROR x.c:42 (save) - disk full] and a newline; a second
    call at 23:59:59 leaves its line after that one. The C++ runs are
    those that keep Init's precondition, no Init while a sink is open, as
    every run does that calls Init once, at its start. *)
Theorem file_line_format :
  (forall (b : C.Build) (w0 : World) (ops : list (Op (option string)))
          (h : FILE),
     let r := C_run b ops (C.initial, w0) in
     C.DEBUG b = true -> C.currentLevel (fst r) <= level ->
     C.logFile (fst r) = Some h ->
     let w' :=
       snd (C.RELogger_Log b now level message file line func (fst r) (snd r))
     in
     file_text h w'
     = file_text h (snd r)
         +:+ plain_line (strftime_HMS now) level message file line func
         +:+ NL) /\
  (forall (b : Cpp.Build) (w0 : World) (ops : list (Op string)) (h : FILE),
     let r := Cpp_run b ops (Cpp.initial, w0) in
     Cpp_protocol b ops (Cpp.initial, w0) ->
     Cpp.NDEBUG b = false -> Cpp.currentLevel (fst r) <= level ->
     Cpp.of_file (Cpp.logFile (fst r)) = Some h ->
     let w' := snd (Cpp.Log b now level message file line func (fst r) (snd r))
     in
     file_text h w'
     = file_text h (snd r)
         +:+ plain_line (strftime_HMS now) level message file line func
         +:+ NL) /\
  plain_line (strftime_HMS now) level message file line func
  = "[" +:+ strftime_HMS now +:+ "] " +:+ LevelToString level +:+ " "
      +:+ file +:+ ":" +:+ dec line +:+ " (" +:+ func +:+ ") - " +:+ message /\
  String.length (strftime_HMS now) = 8%nat /\
  (tm_valid now -> has_esc message = false -> has_esc file = false ->
   has_esc func = false ->
   has_esc (plain_line (strftime_HMS now) level message file line func +:+ NL)
   = false) /\
  (forall timeStr : string,
     plain_line timeStr LogLevel_Error "disk full" "x.c" 42 "save"
     = "[" +:+ timeStr +:+ "] ERROR x.c:42 (save) - disk full") /\
  (LevelToString LogLevel_Trace = "TRACE"%string /\
   LevelToString LogLevel_Debug = "DEBUG"%string /\
   LevelToString LogLevel_Info = "INFO"%string /\
   LevelToString LogLevel_Warn = "WARN"%string /\
   LevelToString LogLevel_Error = "ERROR"%string /\
   LevelToString LogLevel_Fatal = "FATAL"%string /\
   LevelToString 6 = "UNKNOWN"%string /\
   LevelToString (-1) = "UNKNOWN"%string /\
   (forall other : LogLevel,
      ~ recognized other -> LevelToString other = "UNKNOWN"%string) /\
   ~ recognized 6 /\ ~ recognized (-1)) /\
  (tm_valid now -> parse_HMS (strftime_HMS now) = Some now) /\
  (strftime_HMS {| tm_hour := 9; tm_min := 5; tm_sec := 30 |}
   = "09:05:30"%string /\
   strftime_HMS {| tm_hour := 23; tm_min := 59; tm_sec := 59 |}
   = "23:59:59"%string /\
   strftime_HMS {| tm_hour := 0; tm_min := 0; tm_sec := 0 |}
   = "00:00:00"%string /\
   tm_valid {| tm_hour := 9; tm_min := 5; tm_sec := 30 |} /\
   ~ tm_valid {| tm_hour := 24; tm_min := 0; tm_sec := 0 |}) /\
  (parse_dec (dec line) = Some line /\ dec 42 = "42"%string /\
   dec 0 = "0"%string /\ dec 1234567 = "1234567"%string /\
   dec (-7) = "-7"%string) /\
  NL = String (Ascii.ascii_of_nat 10) EmptyString /\
  ((forall a b : string, has_esc (a +:+ ESC +:+ b) = true) /\
   forall l : LogLevel, has_esc (LevelToColor l) = true) /\
  (forall (b : Cpp.Build) (p : string) (ops : list (Op string)) (w0 : World),
     forallb steady ops = true ->
     Cpp_protocol b (OInit p :: ops) (Cpp.initial, w0)) /\
  (let r := C_run c_debug [OInit (Some "app.log"%string)] (C.initial, world0) in
   on_disk "app.log"
     (snd (C.RELogger_Log c_debug morning LogLevel_Error "disk full" "x.c" 42
             "save" (fst r) (snd r)))
   = "[09:05:30] ERROR x.c:42 (save) - disk full" +:+ NL /\
   on_disk "app.log"
     (snd (C.RELogger_Log c_debug morning LogLevel_Info "ready" "main.c" 7
             "main" (fst r) (snd r)))
   = "[09:05:30] INFO main.c:7 (main) - ready" +:+ NL /\
   file_text 3%nat
     (snd (C_run c_debug
             [OInit (Some "app.log"%string);
              OLog morning LogLevel_Error "disk full" "x.c" 42 "save";
              OLog {| tm_hour := 23; tm_min := 59; tm_sec := 59 |}
                LogLevel_Info "ready" "main.c" 7 "main"]
             (C.initial, world0)))
   = "[09:05:30] ERROR x.c:42 (save) - disk full" +:+ NL
       +:+ "[23:59:59] INFO main.c:7 (main) - ready" +:+ NL) /\
  (let r := Cpp_run cpp_debug [OInit "app.log"%string] (Cpp.initial, world0) in
   on_disk "app.log"
     (snd (Cpp.Log cpp_debug morning LogLevel_Error "disk full" "x.c" 42
             "save" (fst r) (snd r)))
   = "[09:05:30] ERROR x.c:42 (save) - disk full" +:+ NL /\
   on_disk "app.log"
     (snd (Cpp.Log cpp_debug morning LogLevel_Warn "low battery" "power.cpp"
             88 "poll" (fst r) (snd r)))
   = "[09:05:30] WARN power.cpp:88 (poll) - low battery" +:+ NL /\
   let ops :=
     [OInit "app.log"%string;
      OLog morning LogLevel_Error "disk full" "x.c" 42 "save";
      OLog {| tm_hour := 23; tm_min := 59; tm_sec := 59 |}
        LogLevel_Warn "low battery" "power.cpp" 88 "poll"] in
   Cpp_protocol cpp_debug ops (Cpp.initial, world0) /\
   file_text 3%nat (snd (Cpp_run cpp_debug ops (Cpp.initial, world0)))
   = "[09:05:30] ERROR x.c:42 (save) - disk full" +:+ NL
       +:+ "[23:59:59] WARN power.cpp:88 (poll) - low battery" +:+ NL).
Proof.
  split; [|split; [|split; [|split; [|split; [|split; [|split; [|split;
    [|split; [|split; [|split; [|split; [|split; [|split]]]]]]]]]]]]].
  - intros b w0 ops h r Hb H Hh. cbv zeta.
    destruct (C_wf_run b ops _ (C_wf_initial w0) h Hh) as (path & E).
    fold r in E.
    destruct (C_Log_sink b now level message file line func _ _ h _
                Hb H Hh E) as (Hf & Hd).
    exact (file_text_grows h _ _ _ _ E Hf Hd).
  - intros b w0 ops h r Hp Hb H Hh. cbv zeta.
    destruct (Cpp_wf_run b ops _ (Cpp_wf_initial w0) Hp) as (Hready & Hgood).
    fold r in Hready, Hgood.
    destruct (Hready h Hh) as (path & E).
    assert (Cpp.of_fail (Cpp.logFile (fst r)) = false) as Hg.
    { apply Hgood. unfold Cpp.is_open. now rewrite Hh. }
    destruct (Cpp_Log_sink b now level message file line func _ _ h _
                Hb H Hh Hg E) as (Hf & Hd).
    exact (file_text_grows h _ _ _ _ E Hf Hd).
  - reflexivity.
  - unfold strftime_HMS, two_digits. now rewrite !length_append.
  - apply plain_line_no_esc.
  - reflexivity.
  - repeat (split; [reflexivity|]).
    split; [|unfold recognized; split; lia].
    intros other Hn. unfold recognized in Hn.
    destruct other as [|p|p]; [lia| |reflexivity].
    destruct p as [[[p|p|]|[p|p|]|]|[[p|p|]|[p|p|]|]|]; try reflexivity; lia.
  - apply parse_strftime.
  - do 3 (split; [vm_compute; reflexivity|]).
    unfold tm_valid. cbn [tm_hour tm_min tm_sec]. split; lia.
  - split; [apply parse_dec_dec|]. repeat split; vm_compute; reflexivity.
  - reflexivity.
  - split; [apply has_esc_ESC|].
    intros l. destruct l as [|p|p]; try reflexivity.
    destruct p as [[[p|p|]|[p|p|]|]|[[p|p|]|[p|p|]|]|]; reflexivity.
  - intros b p ops w0 Hs. split; [reflexivity|].
    now apply Cpp_protocol_steady.
  - cbv zeta. repeat split; vm_compute; reflexivity.
  - cbv zeta. do 2 (split; [vm_compute; reflexivity|]).
    split; [cbn; auto|]. vm_compute; reflexivity.
Qed.

(** C8. In every state the logger reaches from its initial state, a Log
    call that passes the filter while a file sink is open returns with
    the stream's buffer empty and the line, newline included, at the end
    of the file on disk. The C++ runs are those that keep Init's
    precondition. *)
Theorem file_flushed_after_log :
  (forall (b : C.Build) (w0 : World) (ops : list (Op (option string)))
          (h : FILE),
     let r := C_run b ops (C.initial, w0) in
     C.DEBUG b = true -> C.currentLevel (fst r) <= level ->
     C.logFile (fst r) = Some h ->
     let w' :=
       snd (C.RELogger_Log b now level message file line func (fst r) (snd r))
     in
     exists path,
       w_files (snd r) !! h = Some {| s_path := path; s_buf := "" |} /\
       w_files w' !! h = Some {| s_path := path; s_buf := "" |} /\
       on_disk path w'
       = on_disk path (snd r)
           +:+ plain_line (strftime_HMS now) level message file line func
           +:+ NL) /\
  (forall (b : Cpp.Build) (w0 : World) (ops : list (Op string)) (h : FILE),
     let r := Cpp_run b ops (Cpp.initial, w0) in
     Cpp_protocol b ops (Cpp.initial, w0) ->
     Cpp.NDEBUG b = false -> Cpp.currentLevel (fst r) <= level ->
     Cpp.of_file (Cpp.logFile (fst r)) = Some h ->
     let w' := snd (Cpp.Log b now level message file line func (fst r) (snd r))
     in
     exists path,
       w_files (snd r) !! h = Some {| s_path := path; s_buf := "" |} /\
       w_files w' !! h = Some {| s_path := path; s_buf := "" |} /\
       on_disk path w'
       = on_disk path (snd r)
           +:+ plain_line (strftime_HMS now) level message file line func
           +:+ NL).
Proof.
  split.
  - intros b w0 ops h r Hb H Hh. cbv zeta.
    destruct (C_wf_run b ops _ (C_wf_initial w0) h Hh) as (path & E).
    fold r in E.
    destruct (C_Log_sink b now level message file line func _ _ h _
                Hb H Hh E) as (Hf & Hd).
    exists path. split; [exact E|]. split; [exact Hf|]. exact Hd.
  - intros b w0 ops h r Hp Hb H Hh. cbv zeta.
    destruct (Cpp_wf_run b ops _ (Cpp_wf_initial w0) Hp) as (Hready & Hgood).
    fold r in Hready, Hgood.
    destruct (Hready h Hh) as (path & E).
    assert (Cpp.of_fail (Cpp.logFile (fst r)) = false) as Hg.
    { apply Hgood. unfold Cpp.is_open. now rewrite Hh. }
    destruct (Cpp_Log_sink b now level message file line func _ _ h _
                Hb H Hh Hg E) as (Hf & Hd).
    exists path. split; [exact E|]. split; [exact Hf|]. exact Hd.
Qed.

End FileSink.

Lemma file_line_format_witness :
  let r := C_run c_debug [OInit (Some "app.log"%string)] (C.initial, world0) in
  C.DEBUG c_debug = true /\ C.currentLevel (fst r) <= LogLevel_Error /\
  C.logFile (fst r) = Some 3%nat /\
  file_text 3%nat
    (snd (C.RELogger_Log c_debug morning LogLevel_Error "disk full" "x.c" 42
            "save" (fst r) (snd r)))
  = file_text 3%nat (snd r)
      +:+ plain_line (strftime_HMS morning) LogLevel_Error "disk full" "x.c"
            42 "save"
      +:+ NL.
Proof.
  cbv zeta. split; [reflexivity|]. split; [cbn; lia|]. split; [reflexivity|].
  apply (proj1 (file_line_format morning LogLevel_Error "disk full" "x.c" 42
                  "save")
           c_debug world0 [OInit (Some "app.log"%string)] 3%nat);
    [reflexivity | cbn; lia | reflexivity].
Defined.

Lemma file_flushed_after_log_witness :
  let ops := [OInit "app.log"%string; OSetLevel LogLevel_Info] in
  let r := Cpp_run cpp_debug ops (Cpp.initial, world0) in
  let w' :=
    snd (Cpp.Log cpp_debug morning LogLevel_Warn "low battery" "power.cpp" 88
           "poll" (fst r) (snd r)) in
  Cpp_protocol cpp_debug ops (Cpp.initial, world0) /\
  Cpp.NDEBUG cpp_debug = false /\ Cpp.currentLevel (fst r) <= LogLevel_Warn /\
  Cpp.of_file (Cpp.logFile (fst r)) = Some 3%nat /\
  exists path,
    w_files (snd r) !! 3%nat = Some {| s_path := path; s_buf := "" |} /\
    w_files w' !! 3%nat = Some {| s_path := path; s_buf := "" |} /\
    on_disk path w'
    = on_disk path (snd r)
        +:+ plain_line (strftime_HMS morning) LogLevel_Warn "low battery"
              "power.cpp" 88 "poll"
        +:+ NL.
Proof.
  cbv zeta.
  assert (Cpp_protocol cpp_debug
            [OInit "app.log"%string; OSetLevel LogLevel_Info]
            (Cpp.initial, world0)) as Hp by (cbn; auto).
  split; [exact Hp|]. split; [reflexivity|]. split; [cbn; lia|].
  split; [reflexivity|].
  apply (proj2 (file_flushed_after_log morning LogLevel_Warn "low battery"
                  "power.cpp" 88 "poll")
           cpp_debug world0 [OInit "app.log"%string; OSetLevel LogLevel_Info]
           3%nat Hp);
    [reflexivity | cbn; lia | reflexivity].
Defined.

(** * Further properties *)

(** ** The two tables *)

Lemma recognized_cases (level : LogLevel) :
  recognized level ->
  level = 0 \/ level = 1 \/ level = 2 \/ level = 3 \/ level = 4 \/ level = 5.
Proof. unfold recognized. lia. Qed.

Lemma LevelToString_unknown (level : LogLevel) :
  ~ recognized level -> LevelToString level = "UNKNOWN"%string.
Proof.
  intros Hn. unfold recognized in Hn.
  destruct level as [|p|p]; [lia| |reflexivity].
  destruct p as [[[p|p|]|[p|p|]|]|[[p|p|]|[p|p|]|]|]; try reflexivity; lia.
Qed.

Lemma LevelToColor_reset (level : LogLevel) :
  ~ recognized level -> LevelToColor level = RESET_COLOR.
Proof.
  intros Hn. unfold recognized in Hn.
  destruct level as [|p|p]; [lia| |reflexivity].
  destruct p as [[[p|p|]|[p|p|]|]|[[p|p|]|[p|p|]|]|]; try reflexivity; lia.
Qed.

(** X1. LevelToString names the six severities TRACE, DEBUG, INFO, WARN,
    ERROR and FATAL, six different names, and gives the name UNKNOWN to
    exactly the values that are none of the six, those below Trace (0) or
    above Fatal (5), such as -1 and 6. *)
Theorem level_names_distinct :
  (forall a b : LogLevel,
     recognized a -> recognized b -> LevelToString a = LevelToString b ->
     a = b) /\
  (forall level : LogLevel,
     LevelToString level = "UNKNOWN"%string <-> ~ recognized level) /\
  LevelToString LogLevel_Trace = "TRACE"%string /\
  LevelToString LogLevel_Debug = "DEBUG"%string /\
  LevelToString LogLevel_Info = "INFO"%string /\
  LevelToString LogLevel_Warn = "WARN"%string /\
  LevelToString LogLevel_Error = "ERROR"%string /\
  LevelToString LogLevel_Fatal = "FATAL"%string /\
  LevelToString 6 = "UNKNOWN"%string /\
  LevelToString (-1) = "UNKNOWN"%string /\
  recognized LogLevel_Trace /\ recognized LogLevel_Fatal /\
  ~ recognized 6 /\ ~ recognized (-1).
Proof.
  assert (forall l : LogLevel,
            recognized l ->
            l = 0 \/ l = 1 \/ l = 2 \/ l = 3 \/ l = 4 \/ l = 5) as cases
    by (unfold recognized; lia).
  split; [|split].
  - intros a b Ha Hb.
    destruct (cases a Ha) as [->|[->|[->|[->|[->| ->]]]]];
      destruct (cases b Hb) as [->|[->|[->|[->|[->| ->]]]]];
      intros H; try reflexivity; discriminate H.
  - intros level. split.
    + intros H Hr.
      destruct (cases level Hr) as [->|[->|[->|[->|[->| ->]]]]];
        discriminate H.
    + intros Hn. unfold recognized in Hn.
      destruct level as [|p|p]; [lia| |reflexivity].
      destruct p as [[[p|p|]|[p|p|]|]|[[p|p|]|[p|p|]|]|];
        try reflexivity; lia.
  - repeat (split; [reflexivity|]). unfold recognized. repeat split; lia.
Qed.

Lemma level_names_distinct_witness :
  recognized LogLevel_Warn /\ recognized LogLevel_Warn /\
  LevelToString LogLevel_Warn = LevelToString LogLevel_Warn /\
  LogLevel_Warn = LogLevel_Warn.
Proof.
  assert (recognized LogLevel_Warn) as H by (unfold recognized; lia).
  split; [exact H|]. split; [exact H|]. split; [reflexivity|].
  apply (proj1 level_names_distinct LogLevel_Warn LogLevel_Warn H H eq_refl).
Defined.

(** X2. LevelToColor gives the six severities six different color
    sequences, and the reset sequence to exactly the values that are none
    of the six. *)
Theorem level_colors_distinct :
  (forall a b : LogLevel,
     recognized a -> recognized b -> LevelToColor a = LevelToColor b ->
     a = b) /\
  (forall level : LogLevel,
     LevelToColor level = RESET_COLOR <-> ~ recognized level).
Proof.
  split.
  - intros a b Ha Hb.
    destruct (recognized_cases a Ha) as [->|[->|[->|[->|[->| ->]]]]];
      destruct (recognized_cases b Hb) as [->|[->|[->|[->|[->| ->]]]]];
      intros H; try reflexivity; discriminate H.
  - intros level. split; [|apply LevelToColor_reset].
    intros H Hr.
    destruct (recognized_cases level Hr) as [->|[->|[->|[->|[->| ->]]]]];
      discriminate H.
Qed.

Lemma level_colors_distinct_witness :
  recognized LogLevel_Error /\ recognized LogLevel_Fatal /\
  (LevelToColor LogLevel_Error = LevelToColor LogLevel_Fatal ->
   LogLevel_Error = LogLevel_Fatal).
Proof.
  assert (recognized LogLevel_Error) as H by (unfold recognized; lia).
  assert (recognized LogLevel_Fatal) as H' by (unfold recognized; lia).
  split; [exact H|]. split; [exact H'|].
  apply (proj1 level_colors_distinct LogLevel_Error LogLevel_Fatal H H').
Defined.

Lemma console_line_labelled (now : tm) (level : LogLevel) (site : Site)
    (msg : string) :
  console_line (strftime_HMS now) level msg (site_file site) (site_line site)
    (site_func site)
  = labelled (LevelToColor level) (LevelToString level) now site msg.
Proof.
  unfold console_line, plain_line, labelled. now rewrite !append_assoc.
Qed.

(** X3. A value above Fatal that is not below the threshold is logged
    like an error: its line goes to stderr, not stdout, with the name
    UNKNOWN and the reset sequence in place of a color. *)
Theorem value_above_fatal_logged (now : tm) (level : LogLevel)
    (message file : string) (line : Z) (func : string) :
  LogLevel_Fatal < level ->
  (forall (b : C.Build) (st : C.State) (w : World),
     C.DEBUG b = true -> C.currentLevel st <= level ->
     let w' := snd (C.RELogger_Log b now level message file line func st w) in
     w_stderr w'
     = w_stderr w +:+ ESC +:+ "[0m[" +:+ strftime_HMS now +:+ "] UNKNOWN "
         +:+ file +:+ ":" +:+ dec line +:+ " (" +:+ func +:+ ") - "
         +:+ message +:+ ESC +:+ "[0m" +:+ NL /\
     w_stdout w' = w_stdout w) /\
  (forall (b : Cpp.Build) (st : Cpp.State) (w : World),
     Cpp.NDEBUG b = false -> Cpp.currentLevel st <= level ->
     let w' := snd (Cpp.Log b now level message file line func st w) in
     w_stderr w'
     = w_stderr w +:+ ESC +:+ "[0m[" +:+ strftime_HMS now +:+ "] UNKNOWN "
         +:+ file +:+ ":" +:+ dec line +:+ " (" +:+ func +:+ ") - "
         +:+ message +:+ ESC +:+ "[0m" +:+ NL /\
     w_stdout w' = w_stdout w).
Proof.
  intros Hl.
  assert (~ recognized level) as Hn by (unfold recognized; lia).
  assert (route level = Stderr) as Hr by (apply route_error; lia).
  assert (console_line (strftime_HMS now) level message file line func
          = ESC +:+ "[0m[" +:+ strftime_HMS now +:+ "] UNKNOWN " +:+ file
              +:+ ":" +:+ dec line +:+ " (" +:+ func +:+ ") - " +:+ message
              +:+ ESC +:+ "[0m" +:+ NL) as Ht.
  { unfold console_line, plain_line.
    rewrite (LevelToColor_reset _ Hn), (LevelToString_unknown _ Hn).
    unfold RESET_COLOR. now rewrite !append_assoc. }
  split; intros b st w Hb H; cbv zeta.
  - pose proof (C_Log_console b now level message file line func st w Stdout
                  Hb H) as Hout.
    pose proof (C_Log_console b now level message file line func st w Stderr
                  Hb H) as Herr.
    cbn [console] in Hout, Herr. rewrite Hr in Hout, Herr.
    rewrite decide_False in Hout by discriminate.
    rewrite decide_True in Herr by reflexivity.
    now rewrite Herr, Hout, Ht.
  - pose proof (Cpp_Log_console b now level message file line func st w Stdout
                  Hb H) as Hout.
    pose proof (Cpp_Log_console b now level message file line func st w Stderr
                  Hb H) as Herr.
    cbn [console] in Hout, Herr. rewrite Hr in Hout, Herr.
    rewrite decide_False in Hout by discriminate.
    rewrite decide_True in Herr by reflexivity.
    now rewrite Herr, Hout, Ht.
Qed.

Lemma value_above_fatal_logged_witness :
  LogLevel_Fatal < 9 /\ C.DEBUG c_debug = true /\
  C.currentLevel C.initial <= 9 /\
  w_stdout
    (snd (C.RELogger_Log c_debug morning 9 "odd" "x.c" 3 "f" C.initial world0))
  = w_stdout world0.
Proof.
  split; [lia|]. split; [reflexivity|]. split; [cbn; lia|].
  apply (proj1 (value_above_fatal_logged morning 9 "odd" "x.c" 3 "f"
                  ltac:(lia))
           c_debug C.initial world0 eq_refl ltac:(cbn; lia)).
Defined.

(** ** The threshold over a run *)

Lemma C_Init_level (b : C.Build) (p : option string) (st : C.State)
    (w : World) :
  C.currentLevel (fst (C.RELogger_Init b p st w)) = C.currentLevel st.
Proof.
  unfold C.RELogger_Init.
  destruct p as [path|]; [|reflexivity].
  destruct (0 <? String.length path)%nat; [|reflexivity].
  destruct (file_open path (C.INIT_MUTEX b w)) as [[h|err msg] w'];
    reflexivity.
Qed.

Lemma Cpp_Init_level (p : string) (st : Cpp.State) (w : World) :
  Cpp.currentLevel (fst (Cpp.Init p st w)) = Cpp.currentLevel st.
Proof.
  unfold Cpp.Init, Cpp.ofstream_open.
  destruct (0 <? String.length p)%nat; [|reflexivity].
  destruct (Cpp.of_file (Cpp.logFile st)); [reflexivity|].
  destruct (file_open p (emit Lock w)) as [[h|err msg] w']; reflexivity.
Qed.

Lemma Cpp_Shutdown_level (st : Cpp.State) (w : World) :
  Cpp.currentLevel (fst (Cpp.Shutdown st w)) = Cpp.currentLevel st.
Proof.
  unfold Cpp.Shutdown.
  destruct (Cpp.is_open (Cpp.logFile st)); [|reflexivity].
  unfold Cpp.ofstream_close.
  destruct (Cpp.of_file (Cpp.logFile st)); reflexivity.
Qed.

Lemma C_run_threshold (b : C.Build) (ops : list (Op (option string)))
    (r : C.State * World) :
  C.currentLevel (fst (C_run b ops r))
  = threshold_after (C.currentLevel (fst r)) ops.
Proof.
  revert r. induction ops as [|op ops IH]; intros r; [reflexivity|].
  cbn [C_run fold_left]. fold (C_run b ops (C_step b op r)). rewrite IH.
  destruct op as [p| |l| |now l m f n g]; cbn [C_step threshold_after].
  - now rewrite C_Init_level.
  - now rewrite C_Shutdown_state.
  - reflexivity.
  - reflexivity.
  - now rewrite C_Log_state.
Qed.

Lemma Cpp_run_threshold (b : Cpp.Build) (ops : list (Op string))
    (r : Cpp.State * World) :
  Cpp.currentLevel (fst (Cpp_run b ops r))
  = threshold_after (Cpp.currentLevel (fst r)) ops.
Proof.
  revert r. induction ops as [|op ops IH]; intros r; [reflexivity|].
  cbn [Cpp_run fold_left]. fold (Cpp_run b ops (Cpp_step b op r)). rewrite IH.
  destruct op as [p| |l| |now l m f n g]; cbn [Cpp_step threshold_after].
  - now rewrite Cpp_Init_level.
  - now rewrite Cpp_Shutdown_level.
  - reflexivity.
  - reflexivity.
  - now rewrite Cpp_Log_state.
Qed.

(** X4. After any sequence of calls, GetLevel returns the argument of the
    last SetLevel of the sequence, or the threshold the sequence started
    with (Trace in the initial state) when it has none: Init, Shutdown,
    Log and GetLevel never change the threshold. *)
Theorem threshold_is_last_SetLevel :
  (forall (b : C.Build) (ops : list (Op (option string)))
          (r : C.State * World),
     let r' := C_run b ops r in
     fst (fst (C.RELogger_GetLevel (fst r') (snd r')))
     = threshold_after (C.currentLevel (fst r)) ops) /\
  (forall (b : Cpp.Build) (ops : list (Op string)) (r : Cpp.State * World),
     let r' := Cpp_run b ops r in
     fst (fst (Cpp.GetLevel (fst r') (snd r')))
     = threshold_after (Cpp.currentLevel (fst r)) ops) /\
  C.currentLevel C.initial = LogLevel_Trace /\
  Cpp.currentLevel Cpp.initial = LogLevel_Trace.
Proof.
  split; [|split; [|split; reflexivity]].
  - intros b ops r. cbv zeta. cbn [C.RELogger_GetLevel fst].
    apply C_run_threshold.
  - intros b ops r. cbv zeta. cbn [Cpp.GetLevel fst].
    apply Cpp_run_threshold.
Qed.

(** ** The macros *)

Lemma C_Log_labelled (b : C.Build) (now : tm) (level : LogLevel)
    (site : Site) (msg : string) (st : C.State) (w : World) (s : Stream) :
  C.DEBUG b = true -> C.currentLevel st <= level -> route level = s ->
  console s
    (snd (C.RELogger_Log b now level msg (site_file site) (site_line site)
            (site_func site) st w))
  = console s w
      +:+ labelled (LevelToColor level) (LevelToString level) now site msg.
Proof.
  intros Hb H <-. rewrite C_Log_console by assumption.
  now rewrite decide_True, console_line_labelled.
Qed.

Lemma Cpp_Log_labelled (b : Cpp.Build) (now : tm) (level : LogLevel)
    (site : Site) (msg : string) (st : Cpp.State) (w : World) (s : Stream) :
  Cpp.NDEBUG b = false -> Cpp.currentLevel st <= level -> route level = s ->
  console s
    (snd (Cpp.Log b now level msg (site_file site) (site_line site)
            (site_func site) st w))
  = console s w
      +:+ labelled (LevelToColor level) (LevelToString level) now site msg.
Proof.
  intros Hb H <-. rewrite Cpp_Log_console by assumption.
  now rewrite decide_True, console_line_labelled.
Qed.

(** X5. While the threshold is Trace, as it is until SetLevel raises it,
    each of the six RELOG macros prints one console line that carries the
    macro's severity name and color and the file, line and function of
    the place it is used at: RELOG_TRACE, RELOG_DEBUG, RELOG_INFO and
    RELOG_WARN on stdout, RELOG_ERROR and RELOG_FATAL on stderr. *)
Theorem macros_log_their_site (now : tm) (site : Site) (msg : string) :
  (forall (b : C.Build) (st : C.State) (w : World),
     C.DEBUG b = true -> C.currentLevel st <= LogLevel_Trace ->
     w_stdout (snd (C_header.RELOG_TRACE b now site msg st w))
     = w_stdout w +:+ labelled (ESC +:+ "[37m") "TRACE" now site msg /\
     w_stdout (snd (C_header.RELOG_DEBUG b now site msg st w))
     = w_stdout w +:+ labelled (ESC +:+ "[36m") "DEBUG" now site msg /\
     w_stdout (snd (C_header.RELOG_INFO b now site msg st w))
     = w_stdout w +:+ labelled (ESC +:+ "[32m") "INFO" now site msg /\
     w_stdout (snd (C_header.RELOG_WARN b now site msg st w))
     = w_stdout w +:+ labelled (ESC +:+ "[33m") "WARN" now site msg /\
     w_stderr (snd (C_header.RELOG_ERROR b now site msg st w))
     = w_stderr w +:+ labelled (ESC +:+ "[31m") "ERROR" now site msg /\
     w_stderr (snd (C_header.RELOG_FATAL b now site msg st w))
     = w_stderr w +:+ labelled (ESC +:+ "[41m") "FATAL" now site msg) /\
  (forall (b : Cpp.Build) (st : Cpp.State) (w : World),
     Cpp.NDEBUG b = false -> Cpp.currentLevel st <= LogLevel_Trace ->
     w_stdout (snd (Cpp_header.RELOG_TRACE b now site msg st w))
     = w_stdout w +:+ labelled (ESC +:+ "[37m") "TRACE" now site msg /\
     w_stdout (snd (Cpp_header.RELOG_DEBUG b now site msg st w))
     = w_stdout w +:+ labelled (ESC +:+ "[36m") "DEBUG" now site msg /\
     w_stdout (snd (Cpp_header.RELOG_INFO b now site msg st w))
     = w_stdout w +:+ labelled (ESC +:+ "[32m") "INFO" now site msg /\
     w_stdout (snd (Cpp_header.RELOG_WARN b now site msg st w))
     = w_stdout w +:+ labelled (ESC +:+ "[33m") "WARN" now site msg /\
     w_stderr (snd (Cpp_header.RELOG_ERROR b now site msg st w))
     = w_stderr w +:+ labelled (ESC +:+ "[31m") "ERROR" now site msg /\
     w_stderr (snd (Cpp_header.RELOG_FATAL b now site msg st w))
     = w_stderr w +:+ labelled (ESC +:+ "[41m") "FATAL" now site msg).
Proof.
  split; intros b st w Hb H.
  - repeat split.
    + apply (C_Log_labelled b now LogLevel_Trace site msg st w Stdout Hb);
        [lia | reflexivity].
    + apply (C_Log_labelled b now LogLevel_Debug site msg st w Stdout Hb);
        [lia | reflexivity].
    + apply (C_Log_labelled b now LogLevel_Info site msg st w Stdout Hb);
        [lia | reflexivity].
    + apply (C_Log_labelled b now LogLevel_Warn site msg st w Stdout Hb);
        [lia | reflexivity].
    + apply (C_Log_labelled b now LogLevel_Error site msg st w Stderr Hb);
        [lia | reflexivity].
    + apply (C_Log_labelled b now LogLevel_Fatal site msg st w Stderr Hb);
        [lia | reflexivity].
  - repeat split.
    + apply (Cpp_Log_labelled b now LogLevel_Trace site msg st w Stdout Hb);
        [lia | reflexivity].
    + apply (Cpp_Log_labelled b now LogLevel_Debug site msg st w Stdout Hb);
        [lia | reflexivity].
    + apply (Cpp_Log_labelled b now LogLevel_Info site msg st w Stdout Hb);
        [lia | reflexivity].
    + apply (Cpp_Log_labelled b now LogLevel_Warn site msg st w Stdout Hb);
        [lia | reflexivity].
    + apply (Cpp_Log_labelled b now LogLevel_Error site msg st w Stderr Hb);
        [lia | reflexivity].
    + apply (Cpp_Log_labelled b now LogLevel_Fatal site msg st w Stderr Hb);
        [lia | reflexivity].
Qed.

Lemma macros_log_their_site_witness :
  let site := {| site_file := "game.c"; site_line := 120;
                 site_func := "load" |} in
  C.DEBUG c_debug = true /\ C.currentLevel C.initial <= LogLevel_Trace /\
  w_stdout (snd (C_header.RELOG_INFO c_debug morning site "Game initialized"
                   C.initial world0))
  = w_stdout world0
      +:+ labelled (ESC +:+ "[32m") "INFO" morning site "Game initialized".
Proof.
  cbv zeta. split; [reflexivity|]. split; [cbn; lia|].
  apply (proj1 (macros_log_their_site morning
                  {| site_file := "game.c"; site_line := 120;
                     site_func := "load" |} "Game initialized")
           c_debug C.initial world0 eq_refl ltac:(cbn; lia)).
Defined.

(** ** Opening and closing the sink *)

Lemma file_flush_open (h : FILE) (w : World) (s : stream) :
  w_files w !! h = Some s ->
  file_flush h w
  = with_files (<[h := {| s_path := s_path s; s_buf := "" |}]> (w_files w))
      (<[s_path s := on_disk (s_path s) w +:+ s_buf s]> (w_disk w)) w.
Proof. intros E. unfold file_flush, on_disk. now rewrite E. Qed.

(** Closing an open stream: what it held reaches the disk and the stream
    is gone; an earlier flush changes nothing of that. *)
Lemma file_close_open (h : FILE) (w : World) (s : stream) :
  w_files w !! h = Some s ->
  file_close h w
  = with_files (delete h (w_files w))
      (<[s_path s := on_disk (s_path s) w +:+ s_buf s]> (w_disk w)) w.
Proof.
  intros E. unfold file_close. rewrite (file_flush_open h w s E).
  cbn [with_files w_files w_disk]. now rewrite delete_insert_eq.
Qed.

Lemma file_close_flushed (h : FILE) (w : World) (s : stream) :
  w_files w !! h = Some s ->
  file_close h (file_flush h w) = file_close h w.
Proof.
  intros E. rewrite (file_close_open h w s E), (file_flush_open h w s E).
  erewrite file_close_open
    by (cbn [with_files w_files]; apply lookup_insert_eq).
  unfold on_disk. cbn [with_files w_files w_disk s_path s_buf].
  rewrite lookup_insert_eq. cbn [default].
  now rewrite delete_insert_eq, insert_insert_eq, append_nil_r.
Qed.

Lemma C_Init_opened (b : C.Build) (path : string) (st : C.State) (w : World) :
  (0 < String.length path)%nat -> w_deny w path = None ->
  C.RELogger_Init b (Some path) st w
  = ({| C.logFile := Some (w_next w); C.currentLevel := C.currentLevel st;
        C.mutexInitialized := true |},
     snd (file_open path (C.INIT_MUTEX b w))).
Proof.
  intros Hlen Hopen. unfold C.RELogger_Init.
  apply Nat.ltb_lt in Hlen. rewrite Hlen.
  rewrite C_INIT_MUTEX_sync. unfold file_open. cbn [with_sync w_deny w_next].
  rewrite Hopen. reflexivity.
Qed.

Lemma Cpp_Init_opened (path : string) (st : Cpp.State) (w : World) :
  (0 < String.length path)%nat -> w_deny w path = None ->
  Cpp.of_file (Cpp.logFile st) = None ->
  Cpp.Init path st w
  = ({| Cpp.logFile := {| Cpp.of_file := Some (w_next w);
                          Cpp.of_fail := false |};
        Cpp.currentLevel := Cpp.currentLevel st |},
     emit Unlock (snd (file_open path (emit Lock w)))).
Proof.
  intros Hlen Hopen Hclosed. unfold Cpp.Init, Cpp.ofstream_open.
  apply Nat.ltb_lt in Hlen. rewrite Hlen, Hclosed.
  unfold file_open. cbn [emit w_deny w_next]. rewrite Hopen. reflexivity.
Qed.

(** X6. Init with a non-empty path that can be opened makes a fresh
    stream on that path the sink, with an empty buffer, and truncates the
    file: whatever the file held, it is empty on disk afterwards. Nothing
    is printed and no other file changes. For the C++ variant the stream
    is not open when Init is called. Init with no path (NULL or the empty
    string) opens nothing, prints nothing and leaves the sink as it
    was. *)
Theorem init_opens_truncated (path : string) (w : World) :
  (0 < String.length path)%nat -> w_deny w path = None ->
  (forall (b : C.Build) (st : C.State),
     let r := C.RELogger_Init b (Some path) st w in
     C.logFile (fst r) = Some (w_next w) /\
     w_files (snd r)
     = <[w_next w := {| s_path := path; s_buf := "" |}]> (w_files w) /\
     w_disk (snd r) = <[path := ""%string]> (w_disk w) /\
     on_disk path (snd r) = ""%string /\
     w_stdout (snd r) = w_stdout w /\ w_stderr (snd r) = w_stderr w) /\
  (forall (st : Cpp.State),
     Cpp.of_file (Cpp.logFile st) = None ->
     let r := Cpp.Init path st w in
     Cpp.logFile (fst r)
     = {| Cpp.of_file := Some (w_next w); Cpp.of_fail := false |} /\
     w_files (snd r)
     = <[w_next w := {| s_path := path; s_buf := "" |}]> (w_files w) /\
     w_disk (snd r) = <[path := ""%string]> (w_disk w) /\
     on_disk path (snd r) = ""%string /\
     w_stdout (snd r) = w_stdout w /\ w_stderr (snd r) = w_stderr w) /\
  (forall (b : C.Build) (st : C.State) (p : option string),
     p = None \/ p = Some ""%string ->
     let r := C.RELogger_Init b p st w in
     C.logFile (fst r) = C.logFile st /\ same_io w (snd r)) /\
  (forall (st : Cpp.State),
     let r := Cpp.Init "" st w in
     fst r = st /\ same_io w (snd r)).
Proof.
  intros Hlen Hopen. split; [|split; [|split]].
  - intros b st. cbv zeta. rewrite (C_Init_opened b path st w Hlen Hopen).
    rewrite C_INIT_MUTEX_sync. unfold file_open, on_disk.
    cbn [with_sync w_deny w_next fst snd]. rewrite Hopen.
    cbn [fst snd w_files w_disk w_stdout w_stderr C.logFile].
    rewrite lookup_insert_eq. now repeat split.
  - intros st Hclosed. cbv zeta.
    rewrite (Cpp_Init_opened path st w Hlen Hopen Hclosed).
    unfold file_open, on_disk. cbn [emit w_deny w_next fst snd]. rewrite Hopen.
    cbn [fst snd w_files w_disk w_stdout w_stderr Cpp.logFile emit].
    rewrite lookup_insert_eq. now repeat split.
  - intros b st p [-> | ->]; cbv zeta; unfold C.RELogger_Init;
      rewrite C_INIT_MUTEX_sync; cbn; now split.
  - intros st. cbv zeta. unfold Cpp.Init. cbn. now split.
Qed.

Lemma init_opens_truncated_witness :
  let w :=
    with_files (w_files world0) (<["app.log"%string := "old"%string]> ∅) world0
  in
  let r := C.RELogger_Init c_debug (Some "app.log"%string) C.initial w in
  (0 < String.length "app.log")%nat /\ w_deny w "app.log" = None /\
  on_disk "app.log" w = "old"%string /\
  on_disk "app.log" (snd r) = ""%string.
Proof.
  cbv zeta. split; [cbn; lia|]. split; [reflexivity|].
  split; [vm_compute; reflexivity|].
  apply (proj1 (init_opens_truncated "app.log"
                  (with_files (w_files world0)
                     (<["app.log"%string := "old"%string]> ∅) world0)
                  ltac:(cbn; lia) eq_refl) c_debug C.initial).
Defined.

Lemma C_Shutdown_sink (b : C.Build) (st : C.State) (w : World) (h : FILE)
    (s : stream) :
  w_files w !! h = Some s -> C.logFile st = Some h ->
  let r := C.RELogger_Shutdown b st w in
  C.logFile (fst r) = None /\
  w_files (snd r) = delete h (w_files w) /\
  w_disk (snd r)
  = <[s_path s := on_disk (s_path s) w +:+ s_buf s]> (w_disk w) /\
  w_stdout (snd r) = w_stdout w /\ w_stderr (snd r) = w_stderr w.
Proof.
  intros E Hh. cbv zeta.
  split; [now rewrite C_Shutdown_state|].
  unfold C.RELogger_Shutdown. rewrite Hh.
  rewrite (file_close_flushed h w s E), (file_close_open h w s E).
  cbn [C.mutexInitialized].
  destruct (C.mutexInitialized st); cbn [snd];
    rewrite ?C_DESTROY_MUTEX_sync; now repeat split.
Qed.

Lemma Cpp_Shutdown_sink (st : Cpp.State) (w : World) (h : FILE) (s : stream) :
  w_files w !! h = Some s -> Cpp.of_file (Cpp.logFile st) = Some h ->
  let r := Cpp.Shutdown st w in
  Cpp.is_open (Cpp.logFile (fst r)) = false /\
  w_files (snd r) = delete h (w_files w) /\
  w_disk (snd r)
  = <[s_path s := on_disk (s_path s) w +:+ s_buf s]> (w_disk w) /\
  w_stdout (snd r) = w_stdout w /\ w_stderr (snd r) = w_stderr w.
Proof.
  intros E Hh. cbv zeta.
  split; [apply Cpp_Shutdown_is_closed|].
  unfold Cpp.Shutdown, Cpp.is_open, Cpp.ofstream_close, Cpp.ofstream_flush.
  rewrite Hh. rewrite !emit_with_sync.
  destruct (Cpp.of_fail (Cpp.logFile st)).
  - rewrite file_close_with_sync, (file_close_open h w s E).
    now repeat split.
  - rewrite file_flush_with_sync, file_close_with_sync.
    rewrite (file_close_flushed h w s E), (file_close_open h w s E).
    now repeat split.
Qed.

(** X7. Shutdown with an open sink writes what is left in the stream's
    buffer to the end of its file, closes the stream and leaves the sink
    absent; it prints nothing and touches no other stream or file. *)
Theorem shutdown_closes_sink (h : FILE) (s : stream) (w : World) :
  w_files w !! h = Some s ->
  (forall (b : C.Build) (st : C.State),
     C.logFile st = Some h ->
     let r := C.RELogger_Shutdown b st w in
     C.logFile (fst r) = None /\
     w_files (snd r) = delete h (w_files w) /\
     w_disk (snd r)
     = <[s_path s := on_disk (s_path s) w +:+ s_buf s]> (w_disk w) /\
     w_stdout (snd r) = w_stdout w /\ w_stderr (snd r) = w_stderr w) /\
  (forall (st : Cpp.State),
     Cpp.of_file (Cpp.logFile st) = Some h ->
     let r := Cpp.Shutdown st w in
     Cpp.is_open (Cpp.logFile (fst r)) = false /\
     w_files (snd r) = delete h (w_files w) /\
     w_disk (snd r)
     = <[s_path s := on_disk (s_path s) w +:+ s_buf s]> (w_disk w) /\
     w_stdout (snd r) = w_stdout w /\ w_stderr (snd r) = w_stderr w).
Proof.
  intros E. split.
  - intros b st Hh. now apply C_Shutdown_sink.
  - intros st Hh. now apply Cpp_Shutdown_sink.
Qed.

Lemma shutdown_closes_sink_witness :
  let r0 := C.RELogger_Init c_debug (Some "app.log"%string) C.initial world0 in
  let r := C.RELogger_Shutdown c_debug (fst r0) (snd r0) in
  w_files (snd r0) !! 3%nat = Some {| s_path := "app.log"; s_buf := "" |} /\
  C.logFile (fst r0) = Some 3%nat /\
  w_files (snd r) = delete 3%nat (w_files (snd r0)).
Proof.
  cbv zeta.
  assert (w_files
            (snd (C.RELogger_Init c_debug (Some "app.log"%string) C.initial
                    world0)) !! 3%nat
          = Some {| s_path := "app.log"; s_buf := "" |}) as E
    by (vm_compute; reflexivity).
  split; [exact E|]. split; [reflexivity|].
  apply (proj1 (shutdown_closes_sink 3%nat _ _ E) c_debug
           (fst (C.RELogger_Init c_debug (Some "app.log"%string) C.initial
                   world0)) eq_refl).
Defined.

(** ** What a call leaves alone *)

Lemma file_put_frame (h : FILE) (t : string) (w : World) :
  w_next (file_put h t w) = w_next w /\
  w_disk (file_put h t w) = w_disk w /\
  (forall h', h <> h' -> w_files (file_put h t w) !! h' = w_files w !! h').
Proof.
  unfold file_put. destruct (w_files w !! h) as [s|]; [|now repeat split].
  cbn. repeat split. intros h' Hne. now rewrite lookup_insert_ne.
Qed.

Lemma file_flush_frame (h : FILE) (w : World) :
  w_next (file_flush h w) = w_next w /\
  (forall h', h <> h' -> w_files (file_flush h w) !! h' = w_files w !! h').
Proof.
  unfold file_flush. destruct (w_files w !! h) as [s|]; [|now repeat split].
  cbn. repeat split. intros h' Hne. now rewrite lookup_insert_ne.
Qed.

Lemma file_close_frame (h : FILE) (w : World) :
  w_next (file_close h w) = w_next w /\
  (forall h', h <> h' -> w_files (file_close h w) !! h' = w_files w !! h').
Proof.
  unfold file_close. destruct (file_flush_frame h w) as (Hn & Hf).
  cbn [with_files w_next w_files]. split; [exact Hn|].
  intros h' Hne. rewrite lookup_delete_ne by assumption. now apply Hf.
Qed.

(** A write to the sink changes the sink's stream and the sink's file,
    and nothing else. *)
Lemma sink_write_frame (sink : option FILE) (text : string) (w : World) :
  w_next (sink_write sink text w) = w_next w /\
  (forall h', sink <> Some h' ->
     w_files (sink_write sink text w) !! h' = w_files w !! h') /\
  (forall path,
     (forall h s, sink = Some h -> w_files w !! h = Some s -> s_path s <> path) ->
     w_disk (sink_write sink text w) !! path = w_disk w !! path).
Proof.
  destruct sink as [h|]; [|now repeat split].
  destruct (w_files w !! h) as [s|] eqn:E.
  - destruct (sink_write_open h text w s E) as (Hf & Hd).
    rewrite Hf, Hd. split; [|split].
    + unfold sink_write.
      destruct (file_flush_frame h (file_put h text w)) as (-> & _).
      now destruct (file_put_frame h text w) as (-> & _).
    + intros h' Hne. rewrite lookup_insert_ne; [reflexivity|congruence].
    + intros path Hp. rewrite lookup_insert_ne; [reflexivity|].
      now apply (Hp h s).
  - unfold sink_write, file_flush, file_put. rewrite E. cbn. rewrite E.
    now repeat split.
Qed.

Lemma good_sink_some (f : Cpp.ofstream) (h : FILE) :
  good_sink f = Some h -> Cpp.of_file f = Some h /\ Cpp.of_fail f = false.
Proof. unfold good_sink. destruct (Cpp.of_fail f); [discriminate|auto]. Qed.

(** The three ways a Log call can go. *)
Lemma C_Log_cases (b : C.Build) now level message file line func st w :
  let w' := snd (C.RELogger_Log b now level message file line func st w) in
  w' = w \/ w' = emit LevelRead w \/
  (C.DEBUG b = true /\ C.currentLevel st <= level /\
   w' = with_sync (w_sync w ++ C_log_sync b)
          (sink_write (C.logFile st)
             (plain_line (strftime_HMS now) level message file line func
                +:+ NL)
             (console_put (route level)
                (console_line (strftime_HMS now) level message file line func)
                w))).
Proof.
  cbv zeta. destruct (C.DEBUG b) eqn:Hb.
  - destruct (Z.lt_ge_cases level (C.currentLevel st)) as [H|H].
    + rewrite C_Log_skipped, Hb by assumption. now right; left.
    + rewrite C_Log_effect by assumption. now right; right.
  - rewrite C_Log_off by assumption. now left.
Qed.

Lemma Cpp_Log_cases (b : Cpp.Build) now level message file line func st w :
  let w' := snd (Cpp.Log b now level message file line func st w) in
  w' = w \/ w' = emit LevelRead w \/
  (Cpp.NDEBUG b = false /\ Cpp.currentLevel st <= level /\
   w' = with_sync (w_sync w ++ Cpp_log_sync)
          (sink_write (good_sink (Cpp.logFile st))
             (plain_line (strftime_HMS now) level message file line func
                +:+ NL)
             (console_put (route level)
                (console_line (strftime_HMS now) level message file line func)
                w))).
Proof.
  cbv zeta. destruct (Cpp.NDEBUG b) eqn:Hb.
  - rewrite Cpp_Log_off by assumption. now left.
  - destruct (Z.lt_ge_cases level (Cpp.currentLevel st)) as [H|H].
    + rewrite Cpp_Log_skipped, Hb by assumption. now right; left.
    + rewrite Cpp_Log_effect by assumption. now right; right.
Qed.

(** The frame of an emitting call. *)
Lemma emitted_frame (evs : list SyncEvent) (sink : option FILE)
    (text t : string) (out : Stream) (w : World) :
  let w' := with_sync evs (sink_write sink text (console_put out t w)) in
  w_next w' = w_next w /\
  (forall h', sink <> Some h' -> w_files w' !! h' = w_files w !! h') /\
  (forall path,
     (forall h s, sink = Some h -> w_files w !! h = Some s -> s_path s <> path) ->
     w_disk w' !! path = w_disk w !! path).
Proof.
  cbv zeta. cbn [with_sync w_next w_files w_disk].
  destruct (sink_write_frame sink text (console_put out t w))
    as (Hn & Hf & Hd).
  destruct (files_console_put out t w) as (Hcf & Hcd).
  rewrite Hn. split; [now destruct out|]. split.
  - intros h' Hne. now rewrite Hf, Hcf.
  - intros path Hp. rewrite Hd, Hcd; [reflexivity|].
    intros h s Hs. rewrite Hcf. now apply Hp.
Qed.

Lemma C_Log_frame (b : C.Build) now level message file line func st w :
  let w' := snd (C.RELogger_Log b now level message file line func st w) in
  w_next w' = w_next w /\
  (forall h', C.logFile st <> Some h' -> w_files w' !! h' = w_files w !! h') /\
  (forall path,
     (forall h s,
        C.logFile st = Some h -> w_files w !! h = Some s -> s_path s <> path) ->
     w_disk w' !! path = w_disk w !! path).
Proof.
  destruct (C_Log_cases b now level message file line func st w)
    as [E|[E|(_ & _ & E)]]; cbv zeta in *; rewrite E.
  - now repeat split.
  - now repeat split.
  - apply emitted_frame.
Qed.

Lemma Cpp_Log_frame (b : Cpp.Build) now level message file line func st w :
  let w' := snd (Cpp.Log b now level message file line func st w) in
  w_next w' = w_next w /\
  (forall h',
     Cpp.of_file (Cpp.logFile st) <> Some h' ->
     w_files w' !! h' = w_files w !! h') /\
  (forall path,
     (forall h s,
        Cpp.of_file (Cpp.logFile st) = Some h -> w_files w !! h = Some s ->
        s_path s <> path) ->
     w_disk w' !! path = w_disk w !! path).
Proof.
  destruct (Cpp_Log_cases b now level message file line func st w)
    as [E|[E|(_ & _ & E)]]; cbv zeta in *; rewrite E.
  - now repeat split.
  - now repeat split.
  - destruct (emitted_frame (w_sync w ++ Cpp_log_sync)
                (good_sink (Cpp.logFile st))
                (plain_line (strftime_HMS now) level message file line func
                   +:+ NL)
                (console_line (strftime_HMS now) level message file line func)
                (route level) w) as (Hn & Hf & Hd).
    split; [exact Hn|]. split.
    + intros h' Hne. apply Hf. intros Hg.
      now apply good_sink_some in Hg as (Hg & _).
    + intros path Hp. apply Hd. intros h s Hg.
      apply good_sink_some in Hg as (Hg & _). now apply Hp.
Qed.

(** X8. Whatever its arguments and whether it prints or not, a Log call
    opens and closes no stream, changes no stream but the sink's and no
    file on disk but the one the sink writes to; with no sink it changes
    no stream and no file at all. *)
Theorem log_writes_only_its_sink now level message file line func :
  (forall (b : C.Build) (st : C.State) (w : World),
     let w' := snd (C.RELogger_Log b now level message file line func st w) in
     w_next w' = w_next w /\
     (forall h', C.logFile st <> Some h' ->
        w_files w' !! h' = w_files w !! h') /\
     (forall path,
        (forall h s,
           C.logFile st = Some h -> w_files w !! h = Some s ->
           s_path s <> path) ->
        w_disk w' !! path = w_disk w !! path) /\
     (C.logFile st = None -> w_files w' = w_files w /\ w_disk w' = w_disk w)) /\
  (forall (b : Cpp.Build) (st : Cpp.State) (w : World),
     let w' := snd (Cpp.Log b now level message file line func st w) in
     w_next w' = w_next w /\
     (forall h', Cpp.of_file (Cpp.logFile st) <> Some h' ->
        w_files w' !! h' = w_files w !! h') /\
     (forall path,
        (forall h s,
           Cpp.of_file (Cpp.logFile st) = Some h -> w_files w !! h = Some s ->
           s_path s <> path) ->
        w_disk w' !! path = w_disk w !! path) /\
     (Cpp.is_open (Cpp.logFile st) = false ->
      w_files w' = w_files w /\ w_disk w' = w_disk w)).
Proof.
  split; intros b st w; cbv zeta.
  - destruct (C_Log_frame b now level message file line func st w)
      as (Hn & Hf & Hd).
    split; [exact Hn|]. split; [exact Hf|]. split; [exact Hd|].
    intros Hnone. split; apply map_eq; intros i.
    + apply Hf. now rewrite Hnone.
    + apply Hd. intros h s Hh. now rewrite Hnone in Hh.
  - destruct (Cpp_Log_frame b now level message file line func st w)
      as (Hn & Hf & Hd).
    split; [exact Hn|]. split; [exact Hf|]. split; [exact Hd|].
    intros Hclosed. unfold Cpp.is_open in Hclosed.
    destruct (Cpp.of_file (Cpp.logFile st)) eqn:E; [discriminate|].
    split; apply map_eq; intros i.
    + now apply Hf.
    + apply Hd. intros h s Hh. discriminate Hh.
Qed.

Lemma log_writes_only_its_sink_witness :
  let w' :=
    snd (C.RELogger_Log c_debug morning LogLevel_Error "disk full" "x.c" 42
           "save" C.initial world0) in
  C.logFile C.initial = None /\
  w_files w' = w_files world0 /\ w_disk w' = w_disk world0.
Proof.
  cbv zeta. split; [reflexivity|].
  apply (proj1 (log_writes_only_its_sink morning LogLevel_Error "disk full"
                  "x.c" 42 "save") c_debug C.initial world0).
  reflexivity.
Defined.

(** ** Init while a sink is open *)

Lemma Cpp_Init_reopen (path : string) (st : Cpp.State) (w : World) (h : FILE) :
  (0 < String.length path)%nat -> Cpp.of_file (Cpp.logFile st) = Some h ->
  Cpp.Init path st w
  = ({| Cpp.logFile := {| Cpp.of_file := Some h; Cpp.of_fail := true |};
        Cpp.currentLevel := Cpp.currentLevel st |},
     emit Unlock
       (console_put Stderr
          (ESC +:+ "[31m[LOGGER ERROR] Failed to open log file: " +:+ path
             +:+ ESC +:+ "[0m" +:+ NL)
          (emit Lock w))).
Proof.
  intros Hlen Hopen. unfold Cpp.Init, Cpp.ofstream_open.
  apply Nat.ltb_lt in Hlen. rewrite Hlen, Hopen.
  cbn [Cpp.of_fail]. rewrite console_puts_cons.
  cbn [join fold_right]. rewrite append_nil_r, !append_assoc. reflexivity.
Qed.

(** While [failbit] is set, no call but Init and Shutdown changes the
    stream object, any open stream or any file. *)
Lemma Cpp_step_failed (b : Cpp.Build) (op : Op string)
    (r : Cpp.State * World) :
  Cpp.of_fail (Cpp.logFile (fst r)) = true -> steady op = true ->
  Cpp.logFile (fst (Cpp_step b op r)) = Cpp.logFile (fst r) /\
  w_files (snd (Cpp_step b op r)) = w_files (snd r) /\
  w_disk (snd (Cpp_step b op r)) = w_disk (snd r).
Proof.
  destruct r as [st w]. cbn [fst snd]. intros Hfail Hs.
  destruct op as [p| |l| |now l m f n g]; try discriminate Hs;
    cbn [Cpp_step fst snd].
  - now repeat split.
  - now repeat split.
  - rewrite Cpp_Log_state. split; [reflexivity|].
    destruct (Cpp_Log_cases b now l m f n g st w)
      as [E|[E|(_ & _ & E)]]; cbv zeta in E; rewrite E; try now split.
    unfold good_sink. rewrite Hfail. cbn [sink_write with_sync w_files w_disk].
    apply files_console_put.
Qed.

Lemma Cpp_run_failed (b : Cpp.Build) (ops : list (Op string))
    (r : Cpp.State * World) :
  Cpp.of_fail (Cpp.logFile (fst r)) = true -> forallb steady ops = true ->
  Cpp.logFile (fst (Cpp_run b ops r)) = Cpp.logFile (fst r) /\
  w_files (snd (Cpp_run b ops r)) = w_files (snd r) /\
  w_disk (snd (Cpp_run b ops r)) = w_disk (snd r).
Proof.
  revert r. induction ops as [|op ops IH]; intros r Hfail Hs; [now repeat split|].
  cbn [forallb] in Hs. apply andb_true_iff in Hs as (Hop & Hs).
  destruct (Cpp_step_failed b op r Hfail Hop) as (Hl & Hf & Hd).
  cbn [Cpp_run fold_left]. fold (Cpp_run b ops (Cpp_step b op r)).
  destruct (IH (Cpp_step b op r)) as (Hl' & Hf' & Hd'); [congruence|exact Hs|].
  split; [congruence|]. split; congruence.
Qed.

(** X9. In the C++ variant, Init with a non-empty path while a sink is
    open does not switch files: the open fails whatever the path is, the
    failure warning goes to stderr, the path is neither created nor
    truncated, the old stream stays open, and its failbit is set, so that
    until Shutdown no Log, SetLevel or GetLevel call changes any stream or
    any file: file logging has silently stopped. *)
Theorem Cpp_reinit_silences_file (path : string) (st : Cpp.State) (w : World)
    (h : FILE) :
  (0 < String.length path)%nat -> Cpp.of_file (Cpp.logFile st) = Some h ->
  let r := Cpp.Init path st w in
  Cpp.logFile (fst r) = {| Cpp.of_file := Some h; Cpp.of_fail := true |} /\
  w_stderr (snd r)
  = w_stderr w +:+ ESC +:+ "[31m[LOGGER ERROR] Failed to open log file: "
      +:+ path +:+ ESC +:+ "[0m" +:+ NL /\
  w_files (snd r) = w_files w /\ w_disk (snd r) = w_disk w /\
  forall (b : Cpp.Build) (ops : list (Op string)),
    forallb steady ops = true ->
    Cpp.logFile (fst (Cpp_run b ops r)) = Cpp.logFile (fst r) /\
    w_files (snd (Cpp_run b ops r)) = w_files w /\
    w_disk (snd (Cpp_run b ops r)) = w_disk w.
Proof.
  intros Hlen Hopen. cbv zeta.
  rewrite (Cpp_Init_reopen path st w h Hlen Hopen). cbn [fst snd].
  repeat split.
  all: intros; apply (Cpp_run_failed b ops); [reflexivity | assumption].
Qed.

Lemma Cpp_reinit_silences_file_witness :
  let r0 := Cpp.Init "app.log" Cpp.initial world0 in
  let r := Cpp.Init "other.log" (fst r0) (snd r0) in
  let r' :=
    Cpp_run cpp_debug
      [OLog morning LogLevel_Error "disk full" "x.c" 42 "save"] r in
  (0 < String.length "other.log")%nat /\
  Cpp.of_file (Cpp.logFile (fst r0)) = Some 3%nat /\
  w_disk (snd r') = w_disk (snd r0).
Proof.
  cbv zeta. split; [cbn; lia|]. split; [reflexivity|].
  apply (Cpp_reinit_silences_file "other.log"
           (fst (Cpp.Init "app.log" Cpp.initial world0))
           (snd (Cpp.Init "app.log" Cpp.initial world0)) 3%nat
           ltac:(cbn; lia) eq_refl).
  reflexivity.
Defined.

(** X10. A failed Init does not stand in the way of a later one: after an
    Init whose open failed, an Init with a path that can be opened makes
    that file the sink, and a Log call that passes the filter then puts
    its line at the start of the file. In the C++ variant the second open
    clears the failbit the first one set. *)
Theorem init_retry_recovers (bad good : string) (err : Z) (msg : string)
    (w : World) now level message file line func :
  (0 < String.length bad)%nat -> w_deny w bad = Some (err, msg) ->
  (0 < String.length good)%nat -> w_deny w good = None ->
  (forall (b : C.Build) (st : C.State),
     C.DEBUG b = true -> C.currentLevel st <= level ->
     let r := C_run b [OInit (Some bad); OInit (Some good)] (st, w) in
     C.logFile (fst r) = Some (w_next w) /\
     on_disk good
       (snd (C.RELogger_Log b now level message file line func (fst r) (snd r)))
     = plain_line (strftime_HMS now) level message file line func +:+ NL) /\
  (forall (b : Cpp.Build) (st : Cpp.State),
     Cpp.of_file (Cpp.logFile st) = None ->
     Cpp.NDEBUG b = false -> Cpp.currentLevel st <= level ->
     let r := Cpp_run b [OInit bad; OInit good] (st, w) in
     Cpp.logFile (fst r)
     = {| Cpp.of_file := Some (w_next w); Cpp.of_fail := false |} /\
     on_disk good
       (snd (Cpp.Log b now level message file line func (fst r) (snd r)))
     = plain_line (strftime_HMS now) level message file line func +:+ NL).
Proof.
  intros Hbad Hdeny Hgood Hopen. split.
  - intros b st Hb Hl. cbv zeta. cbn [C_run fold_left C_step fst snd].
    rewrite (C_Init_denied b bad err msg st w Hbad Hdeny). cbn [fst snd].
    rewrite C_INIT_MUTEX_sync, console_put_with_sync.
    rewrite C_Init_opened by (cbn; assumption).
    rewrite C_INIT_MUTEX_sync. unfold file_open.
    cbn [with_sync w_deny w_next console_put]. rewrite Hopen.
    cbn [fst snd]. split; [reflexivity|].
    match goal with
    | |- on_disk good (snd (C.RELogger_Log _ _ _ _ _ _ _ ?s ?w1)) = _ =>
        destruct (C_Log_sink b now level message file line func s w1
                    (w_next w) {| s_path := good; s_buf := "" |})
          as (_ & Hd);
          [assumption | exact Hl | reflexivity
          | cbn [w_files]; apply lookup_insert_eq |]
    end.
    cbn [s_path s_buf] in Hd. rewrite Hd. unfold on_disk at 1.
    cbn [w_disk with_sync emit]. now rewrite lookup_insert_eq.
  - intros b st Hclosed Hb Hl. cbv zeta.
    cbn [Cpp_run fold_left Cpp_step fst snd].
    rewrite (Cpp_Init_denied bad err msg st w Hbad Hdeny Hclosed).
    cbn [fst snd].
    rewrite Cpp_Init_opened by (cbn; try assumption; reflexivity).
    unfold file_open. cbn [emit w_deny w_next console_put]. rewrite Hopen.
    cbn [fst snd emit]. split; [reflexivity|].
    match goal with
    | |- on_disk good (snd (Cpp.Log _ _ _ _ _ _ _ ?s ?w1)) = _ =>
        destruct (Cpp_Log_sink b now level message file line func s w1
                    (w_next w) {| s_path := good; s_buf := "" |})
          as (_ & Hd);
          [assumption | exact Hl | reflexivity | reflexivity
          | cbn [w_files]; apply lookup_insert_eq |]
    end.
    cbn [s_path s_buf] in Hd. rewrite Hd. unfold on_disk at 1.
    cbn [w_disk with_sync emit]. now rewrite lookup_insert_eq.
Qed.

Lemma init_retry_recovers_witness :
  let r :=
    Cpp_run cpp_debug [OInit "/proc/app.log"%string; OInit "app.log"%string]
      (Cpp.initial, world0) in
  (0 < String.length "/proc/app.log")%nat /\
  w_deny world0 "/proc/app.log" = Some (13, "Permission denied"%string) /\
  (0 < String.length "app.log")%nat /\ w_deny world0 "app.log" = None /\
  Cpp.of_file (Cpp.logFile Cpp.initial) = None /\
  Cpp.NDEBUG cpp_debug = false /\
  Cpp.currentLevel Cpp.initial <= LogLevel_Info /\
  on_disk "app.log"
    (snd (Cpp.Log cpp_debug morning LogLevel_Info "ready" "main.cpp" 7 "main"
            (fst r) (snd r)))
  = plain_line (strftime_HMS morning) LogLevel_Info "ready" "main.cpp" 7 "main"
      +:+ NL.
Proof.
  cbv zeta. split; [cbn; lia|]. split; [reflexivity|]. split; [cbn; lia|].
  split; [reflexivity|]. split; [reflexivity|]. split; [reflexivity|].
  split; [cbn; lia|].
  apply (proj2 (init_retry_recovers "/proc/app.log" "app.log" 13
                  "Permission denied" world0 morning LogLevel_Info "ready"
                  "main.cpp" 7 "main" ltac:(cbn; lia) eq_refl
                  ltac:(cbn; lia) eq_refl)
           cpp_debug Cpp.initial eq_refl eq_refl ltac:(cbn; lia)).
Defined.

Lemma file_open_frame (path : string) (w : World) (h : FILE) :
  (h < w_next w)%nat ->
  (w_next w <= w_next (snd (file_open path w)))%nat /\
  w_files (snd (file_open path w)) !! h = w_files w !! h /\
  fst (file_open path w) <> Opened h.
Proof.
  intros Hlt. unfold file_open.
  destruct (w_deny w path) as [[err msg]|]; cbn [fst snd w_next w_files].
  - split; [lia|]. split; [reflexivity | discriminate].
  - split; [lia|]. split; [apply lookup_insert_ne; lia|].
    intros [= E]. lia.
Qed.

(** A non-empty path makes Init forget the handle it had. *)
Lemma C_Init_drops (b : C.Build) (path : string) (st : C.State) (w : World)
    (h : FILE) :
  (0 < String.length path)%nat -> is_Some (w_files w !! h) ->
  (h < w_next w)%nat ->
  leaked h (C.RELogger_Init b (Some path) st w).
Proof.
  intros Hlen Hopen Hlt. unfold leaked, C.RELogger_Init.
  apply Nat.ltb_lt in Hlen. rewrite Hlen, C_INIT_MUTEX_sync.
  match goal with
  | |- context [file_open path ?w1] =>
      destruct (file_open_frame path w1 h Hlt) as (Hn & Hf & Ho);
        destruct (file_open path w1) as [[h'|err msg] w'] eqn:E
  end; cbn [fst snd C.logFile with_sync w_next w_files] in *.
  - split; [congruence|]. split; [now rewrite Hf | lia].
  - split; [discriminate|]. split; [|destruct w'; cbn in *; lia].
    destruct (files_console_put Stderr (C.open_warning b path err msg) w')
      as (-> & _).
    now rewrite Hf.
Qed.

Lemma leaked_step (b : C.Build) (h : FILE) (op : Op (option string))
    (r : C.State * World) :
  leaked h r -> leaked h (C_step b op r).
Proof.
  destruct r as [st w]. unfold leaked. cbn [fst snd].
  intros (Hne & Hopen & Hlt).
  destruct op as [p| |l| |now l m f n g]; cbn [C_step fst snd].
  - destruct p as [path|];
      [|unfold C.RELogger_Init; rewrite C_INIT_MUTEX_sync; now repeat split].
    destruct (0 <? String.length path)%nat eqn:Hlen.
    + apply Nat.ltb_lt in Hlen. now apply C_Init_drops.
    + unfold C.RELogger_Init. rewrite Hlen, C_INIT_MUTEX_sync.
      now repeat split.
  - rewrite C_Shutdown_state. split; [discriminate|].
    unfold C.RELogger_Shutdown.
    destruct (C.logFile st) as [h'|] eqn:Eh.
    + assert (h' <> h) as Hh by congruence.
      destruct (file_close_frame h' (file_flush h' w)) as (Hn & Hf).
      destruct (file_flush_frame h' w) as (Hn' & Hf').
      cbn [C.mutexInitialized].
      destruct (C.mutexInitialized st); cbn [snd];
        rewrite ?C_DESTROY_MUTEX_sync; cbn [with_sync w_files w_next];
        rewrite Hf, Hf', Hn, Hn' by assumption; now split.
    + destruct (C.mutexInitialized st); cbn [snd];
        rewrite ?C_DESTROY_MUTEX_sync; now split.
  - now repeat split.
  - now repeat split.
  - rewrite C_Log_state.
    destruct (C_Log_frame b now l m f n g st w) as (Hn & Hf & _).
    cbv zeta in Hn, Hf. rewrite Hn, Hf by assumption. now repeat split.
Qed.

Lemma leaked_run (b : C.Build) (h : FILE) (ops : list (Op (option string)))
    (r : C.State * World) :
  leaked h r -> leaked h (C_run b ops r).
Proof.
  revert r. induction ops as [|op ops IH]; intros r H; [exact H|].
  apply IH, leaked_step, H.
Qed.

(** X11. In the C variant, Init with a non-empty path while a sink is
    open drops the old handle without closing it: whether the new open
    succeeds or fails, the logger no longer refers to the old stream, and
    whatever calls follow, Shutdown included, the old stream stays
    open. *)
Theorem C_reinit_leaks_stream (b : C.Build) (first second : string)
    (st : C.State) (w : World) :
  (0 < String.length first)%nat -> w_deny w first = None ->
  (0 < String.length second)%nat ->
  let r1 := C.RELogger_Init b (Some first) st w in
  let r2 := C.RELogger_Init b (Some second) (fst r1) (snd r1) in
  C.logFile (fst r1) = Some (w_next w) /\
  C.logFile (fst r2) <> Some (w_next w) /\
  forall ops : list (Op (option string)),
    C.logFile (fst (C_run b ops r2)) <> Some (w_next w) /\
    is_Some (w_files (snd (C_run b ops r2)) !! w_next w).
Proof.
  intros Hfirst Hopen Hsecond. cbv zeta.
  rewrite (C_Init_opened b first st w Hfirst Hopen). cbn [fst snd].
  split; [reflexivity|].
  match goal with
  | |- context [C.RELogger_Init b (Some second) ?s1 ?w1] =>
      assert (leaked (w_next w) (C.RELogger_Init b (Some second) s1 w1))
        as Hleak
  end.
  { apply C_Init_drops; [exact Hsecond| |].
    - rewrite C_INIT_MUTEX_sync. unfold file_open.
      cbn [with_sync w_deny]. rewrite Hopen. cbn [snd w_files with_sync w_next].
      rewrite lookup_insert_eq. eauto.
    - rewrite C_INIT_MUTEX_sync. unfold file_open.
      cbn [with_sync w_deny]. rewrite Hopen. cbn [snd w_next with_sync]. lia. }
  split; [apply Hleak|].
  intros ops. destruct (leaked_run b (w_next w) ops _ Hleak) as (H1 & H2 & _).
  now split.
Qed.

Lemma C_reinit_leaks_stream_witness :
  let ops := [OInit (Some "a.log"%string); OInit (Some "b.log"%string);
              OShutdown] in
  let r := C_run c_debug ops (C.initial, world0) in
  (0 < String.length "a.log")%nat /\ w_deny world0 "a.log" = None /\
  (0 < String.length "b.log")%nat /\
  C.logFile (fst r) = None /\
  is_Some (w_files (snd r) !! 3%nat).
Proof.
  cbv zeta. split; [cbn; lia|]. split; [reflexivity|]. split; [cbn; lia|].
  pose proof (C_reinit_leaks_stream c_debug "a.log" "b.log" C.initial world0
                ltac:(cbn; lia) eq_refl ltac:(cbn; lia)) as H.
  cbv zeta in H. destruct H as (_ & _ & H).
  destruct (H [OShutdown]) as (_ & Hopen).
  split; [reflexivity | exact Hopen].
Defined.

(** ** Builds without the body of Log *)

(** X12. In a build without the body of Log (DEBUG not defined for the C
    variant, NDEBUG defined for the C++ variant) the Log calls of a run
    do nothing at all: the run ends in the same state and the same world
    as the run without them. *)
Theorem release_build_drops_logs :
  (forall (b : C.Build) (ops : list (Op (option string)))
          (r : C.State * World),
     C.DEBUG b = false ->
     C_run b ops r = C_run b (List.filter (fun op => negb (is_log op)) ops) r) /\
  (forall (b : Cpp.Build) (ops : list (Op string)) (r : Cpp.State * World),
     Cpp.NDEBUG b = true ->
     Cpp_run b ops r
     = Cpp_run b (List.filter (fun op => negb (is_log op)) ops) r).
Proof.
  split.
  - intros b ops r Hb. revert r.
    induction ops as [|op ops IH]; intros r; [reflexivity|].
    destruct op as [p| |l| |now l m f n g];
      cbn [List.filter is_log negb C_run fold_left];
      try (apply (IH (C_step b _ r))).
    cbn [C_step]. rewrite C_Log_off by assumption.
    destruct r as [st w]. apply (IH (st, w)).
  - intros b ops r Hb. revert r.
    induction ops as [|op ops IH]; intros r; [reflexivity|].
    destruct op as [p| |l| |now l m f n g];
      cbn [List.filter is_log negb Cpp_run fold_left];
      try (apply (IH (Cpp_step b _ r))).
    cbn [Cpp_step]. rewrite Cpp_Log_off by assumption.
    destruct r as [st w]. apply (IH (st, w)).
Qed.

Lemma release_build_drops_logs_witness :
  let release := {| Cpp.NDEBUG := true |} in
  let ops := [OInit "app.log"%string;
              OLog morning LogLevel_Fatal "out of memory" "heap.cpp" 311 "grow";
              OShutdown] in
  Cpp.NDEBUG release = true /\
  Cpp_run release ops (Cpp.initial, world0)
  = Cpp_run release [OInit "app.log"%string; OShutdown] (Cpp.initial, world0).
Proof.
  cbv zeta. split; [reflexivity|].
  apply (proj2 release_build_drops_logs {| Cpp.NDEBUG := true |}
           [OInit "app.log"%string;
            OLog morning LogLevel_Fatal "out of memory" "heap.cpp" 311 "grow";
            OShutdown] (Cpp.initial, world0) eq_refl).
Defined.

(** ** The mutex over a run *)

Lemma lock_state_app (held : bool) (evs evs' : list SyncEvent) :
  lock_state held (evs ++ evs')
  = match lock_state held evs with
    | Some held' => lock_state held' evs'
    | None => None
    end.
Proof.
  revert held. induction evs as [|e evs IH]; intros held; [reflexivity|].
  destruct e; cbn [app lock_state]; try apply IH; destruct held; auto.
Qed.

Lemma file_open_sync (path : string) (w : World) :
  w_sync (snd (file_open path w)) = w_sync w.
Proof. unfold file_open. now destruct (w_deny w path) as [[err msg]|]. Qed.

Lemma file_flush_sync (h : FILE) (w : World) :
  w_sync (file_flush h w) = w_sync w.
Proof. unfold file_flush. now destruct (w_files w !! h). Qed.

Lemma file_close_sync (h : FILE) (w : World) :
  w_sync (file_close h w) = w_sync w.
Proof. unfold file_close. cbn. apply file_flush_sync. Qed.

Lemma console_put_sync (s : Stream) (t : string) (w : World) :
  w_sync (console_put s t w) = w_sync w.
Proof. now destruct s. Qed.

Lemma C_Init_sync (b : C.Build) (p : option string) (st : C.State)
    (w : World) :
  w_sync (snd (C.RELogger_Init b p st w))
  = w_sync w ++ (if C.NO_THREADS b then [] else
                   if C.WIN32 b then [MutexInit] else []).
Proof.
  unfold C.RELogger_Init. rewrite C_INIT_MUTEX_sync.
  destruct p as [path|]; [|reflexivity].
  destruct (0 <? String.length path)%nat; [|reflexivity].
  match goal with
  | |- context [file_open path ?w1] =>
      pose proof (file_open_sync path w1) as Hs;
        destruct (file_open path w1) as [[h|err msg] w']
  end; cbn [fst snd] in *; [exact Hs|].
  now rewrite console_put_sync.
Qed.

Lemma C_Shutdown_sync (b : C.Build) (st : C.State) (w : World) :
  w_sync (snd (C.RELogger_Shutdown b st w))
  = w_sync w ++ (if C.mutexInitialized st
                 then if C.NO_THREADS b then [] else [MutexDestroy]
                 else []).
Proof.
  unfold C.RELogger_Shutdown.
  destruct (C.logFile st) as [h|]; cbn [C.mutexInitialized];
    destruct (C.mutexInitialized st); cbn [snd];
    rewrite ?C_DESTROY_MUTEX_sync; cbn [with_sync w_sync];
    rewrite ?file_close_sync, ?file_flush_sync, ?app_nil_r; reflexivity.
Qed.

(** The mutex and threshold events of one call of the C variant: they
    leave the lock free, never take it twice, and without threads there
    is no mutex event among them. *)
Lemma C_step_sync (b : C.Build) (op : Op (option string))
    (r : C.State * World) :
  exists evs,
    w_sync (snd (C_step b op r)) = w_sync (snd r) ++ evs /\
    lock_state false evs = Some false /\
    (C.NO_THREADS b = true -> forallb level_access evs = true).
Proof.
  destruct r as [st w]. cbn [fst snd].
  destruct op as [p| |l| |now l m f n g]; cbn [C_step fst snd].
  - exists (if C.NO_THREADS b then [] else
              if C.WIN32 b then [MutexInit] else []).
    split; [|split].
    + apply C_Init_sync.
    + now destruct (C.NO_THREADS b), (C.WIN32 b).
    + now intros ->.
  - exists (if C.mutexInitialized st
            then if C.NO_THREADS b then [] else [MutexDestroy] else []).
    split; [|split].
    + apply C_Shutdown_sync.
    + now destruct (C.mutexInitialized st), (C.NO_THREADS b).
    + intros ->. now destruct (C.mutexInitialized st).
  - exists [LevelWrite l]. now repeat split.
  - exists [LevelRead]. now repeat split.
  - destruct (C_Log_cases b now l m f n g st w)
      as [E|[E|(_ & _ & E)]]; cbv zeta in E; rewrite E.
    + exists []. now rewrite app_nil_r.
    + exists [LevelRead]. now repeat split.
    + exists (C_log_sync b). split; [reflexivity|].
      unfold C_log_sync. split; [now destruct (C.NO_THREADS b)|].
      now intros ->.
Qed.

Lemma Cpp_step_sync (b : Cpp.Build) (op : Op string)
    (r : Cpp.State * World) :
  exists evs,
    w_sync (snd (Cpp_step b op r)) = w_sync (snd r) ++ evs /\
    lock_state false evs = Some false.
Proof.
  destruct r as [st w]. cbn [fst snd].
  destruct op as [p| |l| |now l m f n g]; cbn [Cpp_step fst snd].
  - exists [Lock; Unlock]. split; [|reflexivity].
    unfold Cpp.Init, Cpp.ofstream_open.
    destruct (0 <? String.length p)%nat;
      [|cbn; now rewrite <- app_assoc].
    destruct (Cpp.of_file (Cpp.logFile st)) as [h|].
    + cbn [Cpp.of_fail snd]. rewrite console_puts_cons.
      cbn [emit w_sync]. rewrite console_put_sync. cbn.
      now rewrite <- app_assoc.
    + match goal with
      | |- context [file_open p ?w1] =>
          pose proof (file_open_sync p w1) as Hs;
            destruct (file_open p w1) as [[h|err msg] w']
      end; cbn [fst snd Cpp.of_fail] in *.
      * cbn [emit w_sync] in *. rewrite Hs. now rewrite <- app_assoc.
      * rewrite console_puts_cons. cbn [emit w_sync] in *.
        rewrite console_put_sync, Hs. now rewrite <- app_assoc.
  - exists [Lock; Unlock]. split; [|reflexivity].
    unfold Cpp.Shutdown, Cpp.is_open, Cpp.ofstream_close, Cpp.ofstream_flush.
    destruct (Cpp.of_file (Cpp.logFile st)) as [h|];
      [|cbn; now rewrite <- app_assoc].
    cbn [snd emit w_sync].
    destruct (Cpp.of_fail (Cpp.logFile st));
      rewrite ?file_close_sync, ?file_flush_sync; cbn;
      now rewrite <- app_assoc.
  - exists [Lock; LevelWrite l; Unlock]. split; [|reflexivity].
    cbn. now rewrite <- !app_assoc.
  - exists [Lock; LevelRead; Unlock]. split; [|reflexivity].
    cbn. now rewrite <- !app_assoc.
  - destruct (Cpp_Log_cases b now l m f n g st w)
      as [E|[E|(_ & _ & E)]]; cbv zeta in E; rewrite E.
    + exists []. now rewrite app_nil_r.
    + exists [LevelRead]. now split.
    + exists Cpp_log_sync. now split.
Qed.

Lemma C_run_sync (b : C.Build) (ops : list (Op (option string)))
    (r : C.State * World) :
  exists evs,
    w_sync (snd (C_run b ops r)) = w_sync (snd r) ++ evs /\
    lock_state false evs = Some false /\
    (C.NO_THREADS b = true -> forallb level_access evs = true).
Proof.
  revert r. induction ops as [|op ops IH]; intros r.
  - exists []. now rewrite app_nil_r.
  - destruct (C_step_sync b op r) as (e1 & H1 & L1 & N1).
    destruct (IH (C_step b op r)) as (e2 & H2 & L2 & N2).
    exists (e1 ++ e2). cbn [C_run fold_left].
    fold (C_run b ops (C_step b op r)). rewrite H2, H1, <- app_assoc.
    split; [reflexivity|]. split.
    + now rewrite lock_state_app, L1.
    + intros Hn. rewrite forallb_app, N1, N2 by assumption. reflexivity.
Qed.

Lemma Cpp_run_sync (b : Cpp.Build) (ops : list (Op string))
    (r : Cpp.State * World) :
  exists evs,
    w_sync (snd (Cpp_run b ops r)) = w_sync (snd r) ++ evs /\
    lock_state false evs = Some false.
Proof.
  revert r. induction ops as [|op ops IH]; intros r.
  - exists []. now rewrite app_nil_r.
  - destruct (Cpp_step_sync b op r) as (e1 & H1 & L1).
    destruct (IH (Cpp_step b op r)) as (e2 & H2 & L2).
    exists (e1 ++ e2). cbn [Cpp_run fold_left].
    fold (Cpp_run b ops (Cpp_step b op r)). rewrite H2, H1, <- app_assoc.
    split; [reflexivity|]. now rewrite lock_state_app, L1.
Qed.

(** X13. With NO_THREADS defined, no run of the C variant ever touches
    the mutex: the only events it adds are reads and writes of the
    threshold. *)
Theorem no_threads_no_mutex (b : C.Build) (ops : list (Op (option string)))
    (r : C.State * World) :
  C.NO_THREADS b = true ->
  forallb level_access (new_sync (snd r) (snd (C_run b ops r))) = true.
Proof.
  intros Hn. destruct (C_run_sync b ops r) as (evs & H & _ & Hl).
  unfold new_sync. rewrite H, drop_app_length. now apply Hl.
Qed.

Lemma no_threads_no_mutex_witness :
  let b := {| C.DEBUG := true; C.NO_THREADS := true; C.WIN32 := true;
              C.MSC_VER := true |} in
  let ops := [OInit (Some "app.log"%string);
              OLog morning LogLevel_Info "ready" "main.c" 7 "main"; OShutdown] in
  C.NO_THREADS b = true /\
  forallb level_access
    (new_sync world0 (snd (C_run b ops (C.initial, world0)))) = true.
Proof.
  cbv zeta. split; [reflexivity|].
  apply (no_threads_no_mutex
           {| C.DEBUG := true; C.NO_THREADS := true; C.WIN32 := true;
              C.MSC_VER := true |}
           [OInit (Some "app.log"%string);
            OLog morning LogLevel_Info "ready" "main.c" 7 "main"; OShutdown]
           (C.initial, world0) eq_refl).
Defined.

(** X14. No call returns holding the lock and none acquires it while it
    is held: if the lock is free before a run, whatever the calls of the
    run and their arguments, every acquisition in it is followed by a
    release before the next one, and the lock is free at the end. This
    covers the early return of a filtered Log call, which comes before
    the lock is taken. *)
Theorem lock_always_released :
  (forall (b : C.Build) (ops : list (Op (option string)))
          (r : C.State * World),
     lock_state false (w_sync (snd r)) = Some false ->
     lock_state false (w_sync (snd (C_run b ops r))) = Some false) /\
  (forall (b : Cpp.Build) (ops : list (Op string)) (r : Cpp.State * World),
     lock_state false (w_sync (snd r)) = Some false ->
     lock_state false (w_sync (snd (Cpp_run b ops r))) = Some false).
Proof.
  split; intros b ops r H.
  - destruct (C_run_sync b ops r) as (evs & E & L & _).
    now rewrite E, lock_state_app, H.
  - destruct (Cpp_run_sync b ops r) as (evs & E & L).
    now rewrite E, lock_state_app, H.
Qed.

Lemma lock_always_released_witness :
  let ops := [OInit "app.log"%string; OSetLevel LogLevel_Warn;
              OLog morning LogLevel_Info "ready" "main.cpp" 7 "main";
              OLog morning LogLevel_Error "disk full" "x.cpp" 42 "save";
              OGetLevel; OShutdown] in
  lock_state false (w_sync world0) = Some false /\
  lock_state false
    (w_sync (snd (Cpp_run cpp_debug ops (Cpp.initial, world0)))) = Some false.
Proof.
  cbv zeta. split; [reflexivity|].
  apply (proj2 lock_always_released cpp_debug
           [OInit "app.log"%string; OSetLevel LogLevel_Warn;
            OLog morning LogLevel_Info "ready" "main.cpp" 7 "main";
            OLog morning LogLevel_Error "disk full" "x.cpp" 42 "save";
            OGetLevel; OShutdown] (Cpp.initial, world0) eq_refl).
Defined.

(** ** What a run leaves in the sinks *)

Lemma join_cons (p : string) (ps : list string) : join (p :: ps) = p +:+ join ps.
Proof. reflexivity. Qed.

Lemma route_to_stderr (c : Call) :
  route (c_level c) = if to_stderr c then Stderr else Stdout.
Proof. reflexivity. Qed.

(** The effect of one emitting call on the two console streams. *)
Lemma console_after_record (evs : list SyncEvent) (sink : option FILE)
    (text : string) (c : Call) (w : World) :
  let w' :=
    with_sync evs
      (sink_write sink text (console_put (route (c_level c)) (console_record c) w))
  in
  w_stdout w' = w_stdout w +:+ stdout_of [c] /\
  w_stderr w' = w_stderr w +:+ stderr_of [c].
Proof.
  cbv zeta. cbn [with_sync w_stdout w_stderr].
  destruct (sink_write_console sink text
              (console_put (route (c_level c)) (console_record c) w))
    as (-> & -> & _).
  rewrite route_to_stderr. unfold stdout_of, stderr_of. cbn [List.filter].
  destruct (to_stderr c); cbn [negb map join fold_right console_put w_stdout
                                 w_stderr];
    now rewrite !append_nil_r.
Qed.

Lemma stdout_of_cons (c : Call) (calls : list Call) :
  stdout_of (c :: calls) = stdout_of [c] +:+ stdout_of calls.
Proof.
  unfold stdout_of. cbn [List.filter].
  destruct (negb (to_stderr c)); cbn [map join fold_right];
    now rewrite ?append_nil_r.
Qed.

Lemma stderr_of_cons (c : Call) (calls : list Call) :
  stderr_of (c :: calls) = stderr_of [c] +:+ stderr_of calls.
Proof.
  unfold stderr_of. cbn [List.filter].
  destruct (to_stderr c); cbn [map join fold_right];
    now rewrite ?append_nil_r.
Qed.

Lemma C_steady_console (b : C.Build) (ops : list (Op (option string))) :
  C.DEBUG b = true -> forallb steady ops = true ->
  forall (st : C.State) (w : World),
    let r := C_run b ops (st, w) in
    let calls := passed (C.currentLevel st) ops in
    C.logFile (fst r) = C.logFile st /\
    w_stdout (snd r) = w_stdout w +:+ stdout_of calls /\
    w_stderr (snd r) = w_stderr w +:+ stderr_of calls.
Proof.
  intros Hb. induction ops as [|op ops IH]; intros Hs st w; cbv zeta.
  - cbn. now rewrite !append_nil_r.
  - cbn [forallb] in Hs. apply andb_true_iff in Hs as (Hop & Hs).
    specialize (IH Hs). cbv zeta in IH.
    cbn [C_run fold_left]. fold (C_run b ops (C_step b op (st, w))).
    destruct op as [p| |l| |now l m f n g]; try discriminate Hop;
      cbn [C_step fst snd passed].
    + apply (IH {| C.logFile := C.logFile st; C.currentLevel := l;
                   C.mutexInitialized := C.mutexInitialized st |}
               (emit (LevelWrite l) w)).
    + apply (IH st (emit LevelRead w)).
    + destruct (l <? C.currentLevel st) eqn:El.
      * apply Z.ltb_lt in El. rewrite C_Log_skipped, Hb by assumption.
        apply (IH st (emit LevelRead w)).
      * apply Z.ltb_ge in El. rewrite C_Log_effect by assumption.
        set (c := {| c_now := now; c_level := l; c_message := m; c_file := f;
                     c_line := n; c_func := g |}).
        match goal with
        | |- context [C_run b ops (st, ?w1)] =>
            destruct (IH st w1) as (H1 & H2 & H3)
        end.
        destruct (console_after_record (w_sync w ++ C_log_sync b)
                    (C.logFile st) (file_record c) c w) as (Ho & He).
        cbv zeta in Ho, He. unfold file_record, console_record in Ho, He.
        cbn [c c_now c_level c_message c_file c_line c_func] in Ho, He.
        split; [exact H1|].
        rewrite H2, H3, Ho, He.
        rewrite (stdout_of_cons c (passed (C.currentLevel st) ops)).
        rewrite (stderr_of_cons c (passed (C.currentLevel st) ops)).
        now rewrite !append_assoc.
Qed.

Lemma file_of_cons (c : Call) (calls : list Call) :
  file_of (c :: calls) = file_record c +:+ file_of calls.
Proof. reflexivity. Qed.

Lemma C_steady_file (b : C.Build) (ops : list (Op (option string)))
    (h : FILE) (path : string) :
  C.DEBUG b = true -> forallb steady ops = true ->
  forall (st : C.State) (w : World),
    C.logFile st = Some h ->
    w_files w !! h = Some {| s_path := path; s_buf := "" |} ->
    let r := C_run b ops (st, w) in
    w_files (snd r) !! h = Some {| s_path := path; s_buf := "" |} /\
    on_disk path (snd r)
    = on_disk path w +:+ file_of (passed (C.currentLevel st) ops).
Proof.
  intros Hb. induction ops as [|op ops IH]; intros Hs st w Hh E; cbv zeta.
  - cbn. now rewrite append_nil_r.
  - cbn [forallb] in Hs. apply andb_true_iff in Hs as (Hop & Hs).
    specialize (IH Hs). cbv zeta in IH.
    cbn [C_run fold_left]. fold (C_run b ops (C_step b op (st, w))).
    destruct op as [p| |l| |now l m f n g]; try discriminate Hop;
      cbn [C_step fst snd passed].
    + apply (IH {| C.logFile := C.logFile st; C.currentLevel := l;
                   C.mutexInitialized := C.mutexInitialized st |}
               (emit (LevelWrite l) w) Hh E).
    + apply (IH st (emit LevelRead w) Hh E).
    + destruct (l <? C.currentLevel st) eqn:El.
      * apply Z.ltb_lt in El. rewrite C_Log_skipped, Hb by assumption.
        apply (IH st (emit LevelRead w) Hh E).
      * apply Z.ltb_ge in El. rewrite C_Log_effect by assumption.
        rewrite Hh.
        set (c := {| c_now := now; c_level := l; c_message := m; c_file := f;
                     c_line := n; c_func := g |}).
        destruct (emitted_to_sink (w_sync w ++ C_log_sync b) h
                    (file_record c) (console_record c) (route l) w _ E)
          as (Hf & Hd).
        cbv zeta in Hf, Hd. unfold file_record, console_record in Hf, Hd.
        cbn [c c_now c_level c_message c_file c_line c_func s_path s_buf]
          in Hf, Hd.
        match goal with
        | |- context [C_run b ops (st, ?w1)] =>
            destruct (IH st w1 Hh Hf) as (H1 & H2)
        end.
        split; [exact H1|].
        rewrite H2, Hd, (file_of_cons c (passed (C.currentLevel st) ops)).
        unfold file_record.
        cbn [c c_now c_level c_message c_file c_line c_func].
        now rewrite !append_assoc.
Qed.

Lemma Cpp_steady_console (b : Cpp.Build) (ops : list (Op string)) :
  Cpp.NDEBUG b = false -> forallb steady ops = true ->
  forall (st : Cpp.State) (w : World),
    let r := Cpp_run b ops (st, w) in
    let calls := passed (Cpp.currentLevel st) ops in
    Cpp.logFile (fst r) = Cpp.logFile st /\
    w_stdout (snd r) = w_stdout w +:+ stdout_of calls /\
    w_stderr (snd r) = w_stderr w +:+ stderr_of calls.
Proof.
  intros Hb. induction ops as [|op ops IH]; intros Hs st w; cbv zeta.
  - cbn. now rewrite !append_nil_r.
  - cbn [forallb] in Hs. apply andb_true_iff in Hs as (Hop & Hs).
    specialize (IH Hs). cbv zeta in IH.
    cbn [Cpp_run fold_left]. fold (Cpp_run b ops (Cpp_step b op (st, w))).
    destruct op as [p| |l| |now l m f n g]; try discriminate Hop;
      cbn [Cpp_step fst snd passed].
    + apply (IH {| Cpp.logFile := Cpp.logFile st; Cpp.currentLevel := l |}
               (emit Unlock (emit (LevelWrite l) (emit Lock w)))).
    + apply (IH st (emit Unlock (emit LevelRead (emit Lock w)))).
    + destruct (l <? Cpp.currentLevel st) eqn:El.
      * apply Z.ltb_lt in El. rewrite Cpp_Log_skipped, Hb by assumption.
        apply (IH st (emit LevelRead w)).
      * apply Z.ltb_ge in El. rewrite Cpp_Log_effect by assumption.
        set (c := {| c_now := now; c_level := l; c_message := m; c_file := f;
                     c_line := n; c_func := g |}).
        match goal with
        | |- context [Cpp_run b ops (st, ?w1)] =>
            destruct (IH st w1) as (H1 & H2 & H3)
        end.
        destruct (console_after_record (w_sync w ++ Cpp_log_sync)
                    (good_sink (Cpp.logFile st)) (file_record c) c w)
          as (Ho & He).
        cbv zeta in Ho, He. unfold file_record, console_record in Ho, He.
        cbn [c c_now c_level c_message c_file c_line c_func] in Ho, He.
        split; [exact H1|].
        rewrite H2, H3, Ho, He.
        rewrite (stdout_of_cons c (passed (Cpp.currentLevel st) ops)).
        rewrite (stderr_of_cons c (passed (Cpp.currentLevel st) ops)).
        now rewrite !append_assoc.
Qed.

Lemma Cpp_steady_file (b : Cpp.Build) (ops : list (Op string))
    (h : FILE) (path : string) :
  Cpp.NDEBUG b = false -> forallb steady ops = true ->
  forall (st : Cpp.State) (w : World),
    Cpp.logFile st = {| Cpp.of_file := Some h; Cpp.of_fail := false |} ->
    w_files w !! h = Some {| s_path := path; s_buf := "" |} ->
    let r := Cpp_run b ops (st, w) in
    w_files (snd r) !! h = Some {| s_path := path; s_buf := "" |} /\
    on_disk path (snd r)
    = on_disk path w +:+ file_of (passed (Cpp.currentLevel st) ops).
Proof.
  intros Hb. induction ops as [|op ops IH]; intros Hs st w Hh E; cbv zeta.
  - cbn. now rewrite append_nil_r.
  - cbn [forallb] in Hs. apply andb_true_iff in Hs as (Hop & Hs).
    specialize (IH Hs). cbv zeta in IH.
    cbn [Cpp_run fold_left]. fold (Cpp_run b ops (Cpp_step b op (st, w))).
    destruct op as [p| |l| |now l m f n g]; try discriminate Hop;
      cbn [Cpp_step fst snd passed].
    + apply (IH {| Cpp.logFile := Cpp.logFile st; Cpp.currentLevel := l |}
               (emit Unlock (emit (LevelWrite l) (emit Lock w))) Hh E).
    + apply (IH st (emit Unlock (emit LevelRead (emit Lock w))) Hh E).
    + destruct (l <? Cpp.currentLevel st) eqn:El.
      * apply Z.ltb_lt in El. rewrite Cpp_Log_skipped, Hb by assumption.
        apply (IH st (emit LevelRead w) Hh E).
      * apply Z.ltb_ge in El. rewrite Cpp_Log_effect by assumption.
        rewrite Hh. cbn [good_sink Cpp.of_fail Cpp.of_file].
        set (c := {| c_now := now; c_level := l; c_message := m; c_file := f;
                     c_line := n; c_func := g |}).
        destruct (emitted_to_sink (w_sync w ++ Cpp_log_sync) h
                    (file_record c) (console_record c) (route l) w _ E)
          as (Hf & Hd).
        cbv zeta in Hf, Hd. unfold file_record, console_record in Hf, Hd.
        cbn [c c_now c_level c_message c_file c_line c_func s_path s_buf]
          in Hf, Hd.
        match goal with
        | |- context [Cpp_run b ops (st, ?w1)] =>
            destruct (IH st w1 Hh Hf) as (H1 & H2)
        end.
        split; [exact H1|].
        rewrite H2, Hd, (file_of_cons c (passed (Cpp.currentLevel st) ops)).
        unfold file_record.
        cbn [c c_now c_level c_message c_file c_line c_func].
        now rewrite !append_assoc.
Qed.

(** X15. For any sequence of Log, SetLevel and GetLevel calls, in a build
    with the body of Log: the Log calls that are not below the threshold
    in force at their moment, and only those, leave a line, in call
    order; stdout receives the colored lines of those below Error,
    stderr the colored lines of those at Error or above, and an open sink
    receives the plain lines of all of them on disk. *)
Theorem sinks_hold_passed_records :
  (forall (b : C.Build) (ops : list (Op (option string))) (st : C.State)
          (w : World),
     C.DEBUG b = true -> forallb steady ops = true ->
     let r := C_run b ops (st, w) in
     let calls := passed (C.currentLevel st) ops in
     w_stdout (snd r) = w_stdout w +:+ stdout_of calls /\
     w_stderr (snd r) = w_stderr w +:+ stderr_of calls /\
     forall (h : FILE) (path : string),
       C.logFile st = Some h ->
       w_files w !! h = Some {| s_path := path; s_buf := "" |} ->
       on_disk path (snd r) = on_disk path w +:+ file_of calls) /\
  (forall (b : Cpp.Build) (ops : list (Op string)) (st : Cpp.State)
          (w : World),
     Cpp.NDEBUG b = false -> forallb steady ops = true ->
     let r := Cpp_run b ops (st, w) in
     let calls := passed (Cpp.currentLevel st) ops in
     w_stdout (snd r) = w_stdout w +:+ stdout_of calls /\
     w_stderr (snd r) = w_stderr w +:+ stderr_of calls /\
     forall (h : FILE) (path : string),
       Cpp.logFile st = {| Cpp.of_file := Some h; Cpp.of_fail := false |} ->
       w_files w !! h = Some {| s_path := path; s_buf := "" |} ->
       on_disk path (snd r) = on_disk path w +:+ file_of calls).
Proof.
  split; intros b ops st w Hb Hs; cbv zeta.
  - destruct (C_steady_console b ops Hb Hs st w) as (_ & Ho & He).
    split; [exact Ho|]. split; [exact He|].
    intros h path Hh E. now apply (C_steady_file b ops h path Hb Hs st w Hh E).
  - destruct (Cpp_steady_console b ops Hb Hs st w) as (_ & Ho & He).
    split; [exact Ho|]. split; [exact He|].
    intros h path Hh E.
    now apply (Cpp_steady_file b ops h path Hb Hs st w Hh E).
Qed.

Lemma sinks_hold_passed_records_witness :
  let ops := [OLog morning LogLevel_Info "ready" "main.c" 7 "main";
              OSetLevel LogLevel_Error;
              OLog morning LogLevel_Warn "slow frame" "draw.c" 90 "flip";
              OLog morning LogLevel_Fatal "out of memory" "heap.c" 311 "grow"]
  in
  C.DEBUG c_debug = true /\ forallb steady ops = true /\
  w_stdout (snd (C_run c_debug ops (C.initial, world0)))
  = ESC +:+ "[32m[09:05:30] INFO main.c:7 (main) - ready" +:+ ESC +:+ "[0m"
      +:+ NL /\
  w_stderr (snd (C_run c_debug ops (C.initial, world0)))
  = ESC +:+ "[41m[09:05:30] FATAL heap.c:311 (grow) - out of memory" +:+ ESC
      +:+ "[0m" +:+ NL.
Proof.
  cbv zeta. split; [reflexivity|]. split; [reflexivity|].
  pose proof (proj1 sinks_hold_passed_records c_debug
                [OLog morning LogLevel_Info "ready" "main.c" 7 "main";
                 OSetLevel LogLevel_Error;
                 OLog morning LogLevel_Warn "slow frame" "draw.c" 90 "flip";
                 OLog morning LogLevel_Fatal "out of memory" "heap.c" 311
                   "grow"]
                C.initial world0 eq_refl eq_refl) as H.
  cbv zeta in H. destruct H as (Ho & He & _).
  split; [rewrite Ho | rewrite He]; vm_compute; reflexivity.
Defined.

Lemma file_open_fresh (path : string) (w : World) :
  w_deny w path = None ->
  let w' := snd (file_open path w) in
  w_files w' !! w_next w = Some {| s_path := path; s_buf := "" |} /\
  on_disk path w' = ""%string.
Proof.
  intros Hopen. cbv zeta. unfold file_open, on_disk. rewrite Hopen.
  cbn [snd w_files w_disk]. now rewrite !lookup_insert_eq.
Qed.

Lemma C_run_snoc (b : C.Build) (ops : list (Op (option string)))
    (op : Op (option string)) (r : C.State * World) :
  C_run b (ops ++ [op]) r = C_step b op (C_run b ops r).
Proof. unfold C_run. now rewrite fold_left_app. Qed.

Lemma Cpp_run_snoc (b : Cpp.Build) (ops : list (Op string)) (op : Op string)
    (r : Cpp.State * World) :
  Cpp_run b (ops ++ [op]) r = Cpp_step b op (Cpp_run b ops r).
Proof. unfold Cpp_run. now rewrite fold_left_app. Qed.

(** X16. A whole session: Init with a path that can be opened, then any
    sequence of Log, SetLevel and GetLevel calls, then Shutdown. When it
    is over, the file holds exactly the plain lines of the Log calls that
    were not below the threshold of their moment, in call order, and
    nothing else, not even what it held before; the sink is absent and
    its stream is closed. For the C++ variant the stream is not open at
    the start. *)
Theorem session_file_content (path : string) (w : World) :
  (0 < String.length path)%nat -> w_deny w path = None ->
  (forall (b : C.Build) (ops : list (Op (option string))) (st : C.State),
     C.DEBUG b = true -> forallb steady ops = true ->
     let r := C_run b (OInit (Some path) :: ops ++ [OShutdown]) (st, w) in
     on_disk path (snd r) = file_of (passed (C.currentLevel st) ops) /\
     C.logFile (fst r) = None /\ w_files (snd r) !! w_next w = None) /\
  (forall (b : Cpp.Build) (ops : list (Op string)) (st : Cpp.State),
     Cpp.of_file (Cpp.logFile st) = None ->
     Cpp.NDEBUG b = false -> forallb steady ops = true ->
     let r := Cpp_run b (OInit path :: ops ++ [OShutdown]) (st, w) in
     on_disk path (snd r) = file_of (passed (Cpp.currentLevel st) ops) /\
     Cpp.is_open (Cpp.logFile (fst r)) = false /\
     w_files (snd r) !! w_next w = None).
Proof.
  intros Hlen Hopen. split.
  - intros b ops st Hb Hs. cbv zeta.
    change (C_run b (OInit (Some path) :: ops ++ [OShutdown]) (st, w))
      with (C_run b (ops ++ [OShutdown])
              (C.RELogger_Init b (Some path) st w)).
    rewrite C_run_snoc, (C_Init_opened b path st w Hlen Hopen).
    set (s1 := {| C.logFile := Some (w_next w);
                  C.currentLevel := C.currentLevel st;
                  C.mutexInitialized := true |}).
    set (w1 := snd (file_open path (C.INIT_MUTEX b w))).
    assert (w_files w1 !! w_next w = Some {| s_path := path; s_buf := "" |}
            /\ on_disk path w1 = ""%string) as (E1 & D1).
    { subst w1. rewrite C_INIT_MUTEX_sync.
      apply (file_open_fresh path (with_sync _ w)). exact Hopen. }
    destruct (C_steady_console b ops Hb Hs s1 w1) as (Hl & _ & _).
    destruct (C_steady_file b ops (w_next w) path Hb Hs s1 w1 eq_refl E1)
      as (E2 & D2).
    cbv zeta in Hl, E2, D2. cbn [C_step].
    destruct (C_Shutdown_sink b (fst (C_run b ops (s1, w1)))
                (snd (C_run b ops (s1, w1))) (w_next w) _ E2 Hl)
      as (Hnone & Hf & Hd & _).
    cbv zeta in Hnone, Hf, Hd. cbn [s_path s_buf] in Hd.
    split; [|split; [exact Hnone|]].
    + unfold on_disk at 1. rewrite Hd, lookup_insert_eq. cbn [default].
      rewrite D2, D1. now rewrite append_nil_r.
    + rewrite Hf. apply lookup_delete_eq.
  - intros b ops st Hclosed Hb Hs. cbv zeta.
    change (Cpp_run b (OInit path :: ops ++ [OShutdown]) (st, w))
      with (Cpp_run b (ops ++ [OShutdown]) (Cpp.Init path st w)).
    rewrite Cpp_run_snoc, (Cpp_Init_opened path st w Hlen Hopen Hclosed).
    set (s1 := {| Cpp.logFile := {| Cpp.of_file := Some (w_next w);
                                    Cpp.of_fail := false |};
                  Cpp.currentLevel := Cpp.currentLevel st |}).
    set (w1 := emit Unlock (snd (file_open path (emit Lock w)))).
    assert (w_files w1 !! w_next w = Some {| s_path := path; s_buf := "" |}
            /\ on_disk path w1 = ""%string) as (E1 & D1).
    { subst w1. apply (file_open_fresh path (emit Lock w)). exact Hopen. }
    destruct (Cpp_steady_console b ops Hb Hs s1 w1) as (Hl & _ & _).
    destruct (Cpp_steady_file b ops (w_next w) path Hb Hs s1 w1 eq_refl E1)
      as (E2 & D2).
    cbv zeta in Hl, E2, D2. cbn [Cpp_step].
    assert (Cpp.of_file (Cpp.logFile (fst (Cpp_run b ops (s1, w1))))
            = Some (w_next w)) as Hh by now rewrite Hl.
    destruct (Cpp_Shutdown_sink (fst (Cpp_run b ops (s1, w1)))
                (snd (Cpp_run b ops (s1, w1))) (w_next w) _ E2 Hh)
      as (Hnone & Hf & Hd & _).
    cbv zeta in Hnone, Hf, Hd. cbn [s_path s_buf] in Hd.
    split; [|split; [exact Hnone|]].
    + unfold on_disk at 1. rewrite Hd, lookup_insert_eq. cbn [default].
      rewrite D2, D1. now rewrite append_nil_r.
    + rewrite Hf. apply lookup_delete_eq.
Qed.

Lemma session_file_content_witness :
  let ops := [OLog morning LogLevel_Info "ready" "main.cpp" 7 "main";
              OSetLevel LogLevel_Error;
              OLog morning LogLevel_Warn "slow frame" "draw.cpp" 90 "flip";
              OLog morning LogLevel_Error "disk full" "x.cpp" 42 "save"] in
  let r :=
    Cpp_run cpp_debug (OInit "app.log"%string :: ops ++ [OShutdown])
      (Cpp.initial, world0) in
  (0 < String.length "app.log")%nat /\ w_deny world0 "app.log" = None /\
  Cpp.of_file (Cpp.logFile Cpp.initial) = None /\
  Cpp.NDEBUG cpp_debug = false /\ forallb steady ops = true /\
  on_disk "app.log" (snd r)
  = "[09:05:30] INFO main.cpp:7 (main) - ready" +:+ NL
      +:+ "[09:05:30] ERROR x.cpp:42 (save) - disk full" +:+ NL.
Proof.
  cbv zeta. split; [cbn; lia|]. split; [reflexivity|]. split; [reflexivity|].
  split; [reflexivity|]. split; [reflexivity|].
  pose proof (proj2 (session_file_content "app.log" world0
                       ltac:(cbn; lia) eq_refl)
                cpp_debug
                [OLog morning LogLevel_Info "ready" "main.cpp" 7 "main";
                 OSetLevel LogLevel_Error;
                 OLog morning LogLevel_Warn "slow frame" "draw.cpp" 90 "flip";
                 OLog morning LogLevel_Error "disk full" "x.cpp" 42 "save"]
                Cpp.initial eq_refl eq_refl eq_refl) as H.
  cbv zeta in H. destruct H as (H & _).
  rewrite H. vm_compute. reflexivity.
Defined.

(** ** Log after Shutdown *)

Lemma console_file_flush (s : Stream) (h : FILE) (w : World) :
  console s (file_flush h w) = console s w.
Proof. unfold file_flush. destruct (w_files w !! h); now destruct s. Qed.

Lemma console_file_close (s : Stream) (h : FILE) (w : World) :
  console s (file_close h w) = console s w.
Proof.
  unfold file_close. rewrite <- (console_file_flush s h w). now destruct s.
Qed.

(** X17. RELogger_Log never looks at mutexInitialized: in a build with
    threads, a Log call that passes the filter after RELogger_Shutdown
    has destroyed the mutex still locks and unlocks that mutex, and
    prints its console line. *)
Theorem C_log_after_shutdown_locks (b : C.Build) now level message file line
    func (st : C.State) (w : World) :
  C.NO_THREADS b = false -> C.DEBUG b = true ->
  C.mutexInitialized st = true -> C.currentLevel st <= level ->
  let r := C.RELogger_Shutdown b st w in
  let w' :=
    snd (C.RELogger_Log b now level message file line func (fst r) (snd r)) in
  C.mutexInitialized (fst r) = false /\
  new_sync w w' = [MutexDestroy; LevelRead; Lock; Unlock] /\
  console (route level) w'
  = console (route level) w
      +:+ console_line (strftime_HMS now) level message file line func.
Proof.
  intros Hn Hb Hm Hl. cbv zeta.
  pose proof (C_Shutdown_state b st w) as Hst.
  pose proof (C_Shutdown_sync b st w) as Hsync. rewrite Hm, Hn in Hsync.
  assert (C.currentLevel (fst (C.RELogger_Shutdown b st w)) <= level) as Hl'
    by now rewrite Hst.
  split; [now rewrite Hst|]. split.
  - rewrite C_Log_effect by assumption.
    unfold new_sync. cbn [snd with_sync w_sync].
    rewrite Hsync, <- app_assoc, drop_app_length.
    unfold C_log_sync. now rewrite Hn.
  - rewrite C_Log_console by assumption. rewrite decide_True by reflexivity.
    f_equal. unfold C.RELogger_Shutdown.
    destruct (C.logFile st) as [h|]; cbn [C.mutexInitialized];
      rewrite Hm; cbn [snd]; rewrite C_DESTROY_MUTEX_sync, console_with_sync;
      [|reflexivity].
    now rewrite console_file_close, console_file_flush.
Qed.

Lemma C_log_after_shutdown_locks_witness :
  let r0 := C.RELogger_Init c_debug None C.initial world0 in
  let r := C.RELogger_Shutdown c_debug (fst r0) (snd r0) in
  let w' :=
    snd (C.RELogger_Log c_debug morning LogLevel_Info "late" "main.c" 9 "main"
           (fst r) (snd r)) in
  C.NO_THREADS c_debug = false /\ C.DEBUG c_debug = true /\
  C.mutexInitialized (fst r0) = true /\
  C.currentLevel (fst r0) <= LogLevel_Info /\
  new_sync (snd r0) w' = [MutexDestroy; LevelRead; Lock; Unlock].
Proof.
  cbv zeta. split; [reflexivity|]. split; [reflexivity|].
  split; [reflexivity|]. split; [cbn; lia|].
  apply (C_log_after_shutdown_locks c_debug morning LogLevel_Info "late"
           "main.c" 9 "main"
           (fst (C.RELogger_Init c_debug None C.initial world0))
           (snd (C.RELogger_Init c_debug None C.initial world0))
           eq_refl eq_refl eq_refl ltac:(cbn; lia)).
Defined.

Lemma C_Init_flag (b : C.Build) (p : option string) (st : C.State)
    (w : World) :
  C.mutexInitialized (fst (C.RELogger_Init b p st w)) = true.
Proof.
  unfold C.RELogger_Init.
  destruct p as [path|]; [|reflexivity].
  destruct (0 <? String.length path)%nat; [|reflexivity].
  destruct (file_open path (C.INIT_MUTEX b w)) as [[h|err msg] w'];
    reflexivity.
Qed.

(** X18. Restarting the C logger, Shutdown and then Init, sets
    mutexInitialized again, but only the Windows build initialises the
    mutex again: elsewhere INIT_MUTEX expands to nothing, so that in a
    build with threads the next Log call that passes the filter locks the
    mutex that Shutdown destroyed. *)
Theorem C_restart_mutex (b : C.Build) (p : option string) now level message
    file line func (st : C.State) (w : World) :
  C.NO_THREADS b = false -> C.DEBUG b = true ->
  C.mutexInitialized st = true -> C.currentLevel st <= level ->
  let r := C_run b [OShutdown; OInit p] (st, w) in
  let w' :=
    snd (C.RELogger_Log b now level message file line func (fst r) (snd r)) in
  C.mutexInitialized (fst r) = true /\
  new_sync w w'
  = MutexDestroy
      :: (if C.WIN32 b then [MutexInit] else []) ++ [LevelRead; Lock; Unlock].
Proof.
  intros Hn Hb Hm Hl. cbv zeta. cbn [C_run fold_left C_step fst snd].
  split; [apply C_Init_flag|].
  match goal with
  | |- context [C.RELogger_Log _ _ _ _ _ _ _ (fst ?r1) _] =>
      assert (C.currentLevel (fst r1) <= level) as Hl'
        by (now rewrite C_Init_level, C_Shutdown_state)
  end.
  rewrite C_Log_effect by assumption.
  unfold new_sync. cbn [snd with_sync w_sync].
  rewrite C_Init_sync, C_Shutdown_sync, Hm, Hn.
  rewrite <- !app_assoc, drop_app_length.
  unfold C_log_sync. rewrite Hn. now destruct (C.WIN32 b).
Qed.

Lemma C_restart_mutex_witness :
  let r0 := C.RELogger_Init c_debug (Some "a.log"%string) C.initial world0 in
  let r := C_run c_debug [OShutdown; OInit (Some "b.log"%string)] r0 in
  let w' :=
    snd (C.RELogger_Log c_debug morning LogLevel_Info "again" "main.c" 9
           "main" (fst r) (snd r)) in
  C.NO_THREADS c_debug = false /\ C.DEBUG c_debug = true /\
  C.mutexInitialized (fst r0) = true /\
  C.currentLevel (fst r0) <= LogLevel_Info /\
  new_sync (snd r0) w' = [MutexDestroy; LevelRead; Lock; Unlock].
Proof.
  cbv zeta. split; [reflexivity|]. split; [reflexivity|].
  split; [reflexivity|]. split; [cbn; lia|].
  apply (C_restart_mutex c_debug (Some "b.log"%string) morning LogLevel_Info
           "again" "main.c" 9 "main"
           (fst (C.RELogger_Init c_debug (Some "a.log"%string) C.initial
                   world0))
           (snd (C.RELogger_Init c_debug (Some "a.log"%string) C.initial
                   world0))
           eq_refl eq_refl eq_refl ltac:(cbn; lia)).
Defined.
